(** * poly-survivor: the risk-gated decision-and-execution engine

    A shallow embedding of the parts of [bot.py], [trading.py] and
    [research.py] that the specification talks about, and the theorems
    that settle the specification's claims on them.

    Modelling conventions.
    - Numbers have two readings. In the cycle of the bot, the research
      cache and the lists of markets a Python [float] (or [int]) is the
      rational number it denotes, [Q]: what is proved there is the order
      of the calls and what they keep, and the rounding of the floats
      plays no part in it. Where a property rests on the arithmetic
      itself (the rules of [check_bet], the size and the price of an
      order, the figures of the account) the methods are given on the
      binary64 floats of module [binary64], with NaN, the infinities,
      the two zeros and the rounding of every operation, in module
      [ieee].
    - A Python [dict] whose values all have one type is a [gmap]; a dict
      with fields of different types is a record whose optional fields
      are the keys that [.get] reads with a default; a dict that is only
      passed on or serialized is a JSON object.
    - A call that can raise returns a [pyresult]: [Ok v] or [Raise e],
      where [e] is an instance of [Exception] and [str(e)] is [exn_str e].
    - Arguments are typed by the annotations of the source and by the
      [input_schema] of the tool manifest.
    - [print] is left out. *)

From stdpp Require Import base gmap strings list pretty.
From Stdlib Require Import QArith Qround Qabs Qpower Lqa ZArith Lia Sorted.

Open Scope Q_scope.

(** ** Numbers *)

(** [x < y] on Python numbers, as a boolean test. *)
Definition Qltb (x y : Q) : bool :=
  (Qnum x * QDen y <? Qnum y * QDen x)%Z.

(** [round(x)] to the nearest integer, ties to the even one: the rounding
    of Python's [format]. *)
Definition round_half_even (x : Q) : Z :=
  let f := Qfloor x in
  let r := x - inject_Z f in
  if Qltb r (1 # 2) then f
  else if Qltb (1 # 2) r then (f + 1)%Z
  else if Z.even f then f else (f + 1)%Z.

(** [f"{x:.2f}"], on the rational [x] denotes. *)
Definition format_2f (x : Q) : string :=
  let n := Z.abs (round_half_even (x * 100)) in
  let frac := (n mod 100)%Z in
  (if Qltb x 0 then "-" else "") +:+
  pretty (n / 100)%Z +:+ "." +:+
  (if (frac <? 10)%Z then "0" else "") +:+ pretty frac.

(** ** Exceptions *)

Record exn := Exception { exn_type : string; exn_str : string }.

Inductive pyresult (A : Type) : Type :=
| Ok (a : A)
| Raise (e : exn).
Arguments Ok {A} a.
Arguments Raise {A} e.

#[export] Instance pyresult_ret : MRet pyresult := fun _ a => Ok a.
#[export] Instance pyresult_bind : MBind pyresult := fun _ _ f m =>
  match m with
  | Ok a => f a
  | Raise e => Raise e
  end.

(** ** Python floats

    A [float] of Python is an IEEE 754 binary64 number: a zero with its
    sign, a finite number that is not zero, given by the rational it is,
    an infinity, or NaN. The results of the operations are rounded to the
    nearest binary64 number, to the one with the even mantissa when two
    are as near. *)

Module binary64.

Inductive float :=
| Zero (negative : bool)
| Finite (value : Q)
| Infinity (negative : bool)
| NaN.

(** [2 ** e] and [10 ** e] for an integer [e]. *)
Definition pow2 (e : Z) : Q :=
  if (0 <=? e)%Z then inject_Z (2 ^ e) else / inject_Z (2 ^ (- e)).

Definition pow10 (e : Z) : Q :=
  if (0 <=? e)%Z then inject_Z (10 ^ e) else / inject_Z (10 ^ (- e)).

(** The integer part of the binary logarithm of a rational above zero. *)
Definition ilog2 (q : Q) : Z :=
  let e := (Z.log2 (Qnum q) - Z.log2 (Zpos (Qden q)))%Z in
  if Qle_bool (pow2 e) q then e else (e - 1)%Z.

(** The exponent of the last bit of the mantissa of a number of the size
    of [q]: 53 bits, and no exponent below that of the subnormal numbers. *)
Definition ulp_exponent (q : Q) : Z := Z.max (ilog2 (Qabs q) - 52) (-1074).

(** Rounding of the exact result [q] of an operation. [negative] is the
    sign of the zero when [q] is zero; a result that rounds to zero keeps
    the sign of [q], and one beyond the largest number is an infinity. *)
Definition round64 (negative : bool) (q : Q) : float :=
  if Qeq_bool q 0 then Zero negative
  else
    let e := ulp_exponent q in
    let m := round_half_even (q / pow2 e) in
    if (m =? 0)%Z then Zero (Qltb q 0)
    else
      let r := inject_Z m * pow2 e in
      if Qle_bool (pow2 1024) (Qabs r) then Infinity (Qltb q 0)
      else Finite (Qred r).

(** The sign bit. *)
Definition signbit (x : float) : bool :=
  match x with
  | Zero negative | Infinity negative => negative
  | Finite q => Qltb q 0
  | NaN => false
  end.

Definition is_nan (x : float) : bool :=
  match x with NaN => true | _ => false end.

Definition is_finite (x : float) : bool :=
  match x with Zero _ | Finite _ => true | _ => false end.

(** [-x] and [abs(x)] *)
Definition fopp (x : float) : float :=
  match x with
  | Zero negative => Zero (negb negative)
  | Finite q => Finite (- q)
  | Infinity negative => Infinity (negb negative)
  | NaN => NaN
  end.

Definition fabs (x : float) : float :=
  match x with
  | Zero _ => Zero false
  | Finite q => Finite (Qabs q)
  | Infinity _ => Infinity false
  | NaN => NaN
  end.

(** [x + y] *)
Definition fadd (x y : float) : float :=
  match x, y with
  | NaN, _ | _, NaN => NaN
  | Infinity sx, Infinity sy => if Bool.eqb sx sy then x else NaN
  | Infinity _, _ => x
  | _, Infinity _ => y
  | Zero sx, Zero sy => Zero (sx && sy)
  | Zero _, Finite _ => y
  | Finite _, Zero _ => x
  | Finite a, Finite b => round64 false (a + b)
  end.

(** [x - y] *)
Definition fsub (x y : float) : float := fadd x (fopp y).

(** [x * y] *)
Definition fmul (x y : float) : float :=
  let negative := xorb (signbit x) (signbit y) in
  match x, y with
  | NaN, _ | _, NaN => NaN
  | Infinity _, Zero _ | Zero _, Infinity _ => NaN
  | Infinity _, _ | _, Infinity _ => Infinity negative
  | Zero _, _ | _, Zero _ => Zero negative
  | Finite a, Finite b => round64 negative (a * b)
  end.

(** [x / y] for a [y] that is not zero; Python raises on a zero before
    it divides. *)
Definition fdiv (x y : float) : float :=
  let negative := xorb (signbit x) (signbit y) in
  match x, y with
  | NaN, _ | _, NaN => NaN
  | Infinity _, Infinity _ => NaN
  | Infinity _, _ => Infinity negative
  | _, Infinity _ => Zero negative
  | Zero _, Zero _ => NaN
  | Zero _, Finite _ => Zero negative
  | Finite _, Zero _ => Infinity negative
  | Finite a, Finite b => round64 negative (a / b)
  end.

(** The order of two floats; NaN compares with nothing, and the two
    zeros are equal. *)
Definition compare (x y : float) : option comparison :=
  match x, y with
  | NaN, _ | _, NaN => None
  | Infinity sx, Infinity sy =>
      Some (if Bool.eqb sx sy then Eq else if sx then Lt else Gt)
  | Infinity sx, _ => Some (if sx then Lt else Gt)
  | _, Infinity sy => Some (if sy then Gt else Lt)
  | Zero _, Zero _ => Some Eq
  | Zero _, Finite b => Some (0 ?= b)
  | Finite a, Zero _ => Some (a ?= 0)
  | Finite a, Finite b => Some (a ?= b)
  end.

(** [x < y], [x <= y], [x > y], [x == y] *)
Definition flt (x y : float) : bool :=
  match compare x y with Some Lt => true | _ => false end.

Definition fle (x y : float) : bool :=
  match compare x y with Some (Lt | Eq) => true | _ => false end.

Definition fgt (x y : float) : bool := flt y x.

Definition feq (x y : float) : bool :=
  match compare x y with Some Eq => true | _ => false end.

(** The same float, bit for bit. *)
Definition same (x y : float) : bool :=
  match x, y with
  | Zero sx, Zero sy | Infinity sx, Infinity sy => Bool.eqb sx sy
  | Finite a, Finite b => Qeq_bool a b
  | NaN, NaN => true
  | _, _ => false
  end.

(** A literal of the source, and [float(n)] of an integer within the
    range of the floats. *)
Definition literal (q : Q) : float := round64 false q.

(** [f"{x:.2f}"] *)
Definition format_2f (x : float) : string :=
  match x with
  | Zero negative => if negative then "-0.00" else "0.00"
  | Finite q => format_2f q
  | Infinity negative => if negative then "-inf" else "inf"
  | NaN => "nan"
  end.

(** *** [str(x)] and [decimal.Decimal] *)

(** The number of decimal digits of an integer above zero. *)
Fixpoint digits10_fuel (fuel : nat) (n : Z) : Z :=
  match fuel with
  | O => 1
  | S fuel' => if (n <? 10)%Z then 1 else (1 + digits10_fuel fuel' (n / 10))%Z
  end.

Definition digits10 (n : Z) : Z := digits10_fuel (Z.to_nat (Z.log2 n)) n.

(** The integer part of the decimal logarithm of a rational above zero. *)
Definition ilog10 (q : Q) : Z :=
  if Qle_bool 1 q then (digits10 (Qfloor q) - 1)%Z
  else (- digits10 (Qceiling (/ q) - 1))%Z.

(** The digits of [repr(x)] for an [x] above zero, as a coefficient and
    an exponent of ten: the shortest decimal that [float] reads back as
    [x], the one nearer to [x] when two of that length do (the even one
    when both are as near); 17 digits are taken when it comes to that.
    [j] is the exponent of the last digit tried. *)
Definition reads_back (x : Q) (c j : Z) : bool :=
  same (round64 false (inject_Z c * pow10 j)) (Finite x).

Definition nearer (x : Q) (lo j : Z) : Z :=
  let below := x - inject_Z lo * pow10 j in
  let above := inject_Z (lo + 1) * pow10 j - x in
  if Qltb below above then lo
  else if Qltb above below then (lo + 1)%Z
  else if Z.even lo then lo else (lo + 1)%Z.

Fixpoint shortest (more : nat) (x : Q) (j : Z) : Z * Z :=
  let lo := Qfloor (x / pow10 j) in
  match more with
  | O => (nearer x lo j, j)
  | S more' =>
      match reads_back x lo j, reads_back x (lo + 1) j with
      | true, true => (nearer x lo j, j)
      | true, false => (lo, j)
      | false, true => ((lo + 1)%Z, j)
      | false, false => shortest more' x (j - 1)
      end
  end.

Definition repr_digits (x : Q) : Z * Z := shortest 16 x (ilog10 x).

(** A [Decimal]: a sign, a coefficient and an exponent, or an infinity,
    or NaN. Decimals of one value that differ in their trailing zeros are
    not told apart. *)
Inductive Decimal :=
| DFinite (negative : bool) (coefficient : Z) (exponent : Z)
| DInfinity (negative : bool)
| DNaN.

(** The value of a finite decimal, without its sign. *)
Definition magnitude (coefficient exponent : Z) : Q :=
  inject_Z coefficient * pow10 exponent.

(** [Decimal(str(x))] *)
Definition Decimal_of_str (x : float) : Decimal :=
  match x with
  | Zero negative => DFinite negative 0 (-1)
  | Finite q => let '(c, j) := repr_digits (Qabs q) in DFinite (Qltb q 0) c j
  | Infinity negative => DInfinity negative
  | NaN => DNaN
  end.

(** Precision of the default [decimal] context. *)
Definition prec : Z := 28.

(** [d.quantize(Decimal(10) ** -places, rounding=ROUND_DOWN)]: the digits
    beyond [places] are dropped. The operation is invalid on an infinity
    and when the result needs more than [prec] digits; NaN stays NaN. *)
Definition quantize_down (d : Decimal) (places : Z) : pyresult Decimal :=
  match d with
  | DFinite negative c e =>
      let c' := Qfloor (magnitude c e * pow10 places) in
      if (10 ^ prec <=? c')%Z then
        Raise (Exception "InvalidOperation" "[<class 'decimal.InvalidOperation'>]")
      else Ok (DFinite negative c' (- places))
  | DInfinity _ =>
      Raise (Exception "InvalidOperation" "[<class 'decimal.InvalidOperation'>]")
  | DNaN => Ok DNaN
  end.

(** [float(d)] *)
Definition float_of_Decimal (d : Decimal) : float :=
  match d with
  | DFinite negative c e =>
      round64 negative (if negative then - magnitude c e else magnitude c e)
  | DInfinity negative => Infinity negative
  | DNaN => NaN
  end.

End binary64.

(** ** config.py *)

Module config.
Definition MAX_RESEARCH_PER_CYCLE : nat := 5.
Definition MAX_SINGLE_BET : Q := 15.0.
Definition MAX_POSITION_PCT : Q := 0.25.
Definition MAX_DAILY_BETS : Q := 30.0.
Definition MIN_RESERVE_PCT : Q := 0.20.
End config.

(** ** bot.py: RiskManager *)

(** A position dict as [AccountService.get_my_positions] builds it; the
    gate reads two of its keys. [market_id] is [None] when the upstream
    record carries no event id. *)
Record position := Position {
  pos_market_id : option string;
  pos_current_value : option Q
}.

Module RiskManager.

(** [self.daily_bets]: ISO date -> USD committed that day. *)
Abbreviation ledger := (gmap string Q).

(** [balance]: the dict of [get_balance], its numeric entries. *)
Abbreviation balance := (gmap string Q).

(** [d.get(key, 0)] *)
Definition get0 (d : gmap string Q) (key : string) : Q :=
  default 0 (d !! key).

(** [sum(p.get("current_value", 0) for p in positions
          if p.get("market_id") == market_id)] *)
Definition existing_position (market_id : string) (positions : list position) : Q :=
  fold_left Qplus
    ((fun p => default 0 (pos_current_value p)) <$>
       filter (fun p => pos_market_id p = Some market_id) positions)
    0.

(** [today] is [date.today().isoformat()] at the call. The f-strings over
    the constants of [config] are written out: [str(15.0)] is "15.0" and
    [f"{0.20*100:.0f}"] is "20". *)
Definition check_bet (today : string) (daily_bets : ledger)
    (amount : Q) (market_id : string) (balance : balance)
    (positions : list position) (researched : bool) : bool * string :=
  if negb researched then
    (false, "Must research market before betting")
  else if Qltb config.MAX_SINGLE_BET amount then
    (false, "Single bet cannot exceed $15.0")
  else
    let available := get0 balance "available_usdc" in
    if Qltb available amount then
      (false, "Insufficient balance: $" +:+ format_2f available +:+ " available")
    else
      let total := get0 balance "total_usdc" in
      if Qltb (available - amount) (total * config.MIN_RESERVE_PCT) then
        (false, "Must maintain 20% reserve")
      else
        let existing_position := existing_position market_id positions in
        if Qltb (total * config.MAX_POSITION_PCT) (existing_position + amount) then
          (false, "Position would exceed 25% of balance")
        else
          let daily_total := get0 daily_bets today in
          if Qltb config.MAX_DAILY_BETS (daily_total + amount) then
            (false, "Daily betting limit ($30.0) reached")
          else
            (true, "OK").

Definition record_bet (today : string) (amount : Q) (daily_bets : ledger) : ledger :=
  <[today := get0 daily_bets today + amount]> daily_bets.

(** *** The gate as the specification words it *)

Inductive rule :=
| RResearched | RSingleBet | RBalance | RReserve | RPosition | RDaily.

(** The six rules in their order of evaluation. *)
Definition rules : list rule :=
  [RResearched; RSingleBet; RBalance; RReserve; RPosition; RDaily].

Section Rules.
Context (today : string) (daily_bets : ledger) (amount : Q)
        (market_id : string) (bal : balance)
        (positions : list position) (researched : bool).

Let available := get0 bal "available_usdc".
Let total := get0 bal "total_usdc".

(** What each rule demands. *)
Definition rule_passes (r : rule) : bool :=
  match r with
  | RResearched => researched
  | RSingleBet => Qle_bool amount config.MAX_SINGLE_BET
  | RBalance => Qle_bool amount available
  | RReserve => Qle_bool (total * config.MIN_RESERVE_PCT) (available - amount)
  | RPosition =>
      Qle_bool (existing_position market_id positions + amount)
               (total * config.MAX_POSITION_PCT)
  | RDaily => Qle_bool (get0 daily_bets today + amount) config.MAX_DAILY_BETS
  end.

(** The reason reported when a rule fails. *)
Definition rejection (r : rule) : string :=
  match r with
  | RResearched => "Must research market before betting"
  | RSingleBet => "Single bet cannot exceed $15.0"
  | RBalance => "Insufficient balance: $" +:+ format_2f available +:+ " available"
  | RReserve => "Must maintain 20% reserve"
  | RPosition => "Position would exceed 25% of balance"
  | RDaily => "Daily betting limit ($30.0) reached"
  end.

(** First failing rule wins; approval only when none fails. *)
Definition first_failing_rule : option rule :=
  List.find (fun r => negb (rule_passes r)) rules.

Definition spec_check_bet : bool * string :=
  match first_failing_rule with
  | Some r => (false, rejection r)
  | None => (true, "OK")
  end.
End Rules.

End RiskManager.

(** ** JSON values

    What [json.loads] yields and [json.dumps] accepts. Python's [int] and
    [float] are both [JNum]; [None] is [JNull]; a [dict] keeps its
    insertion order. *)
#[local] Unset Elimination Schemes.
Inductive json :=
| JNull
| JBool (b : bool)
| JNum (q : Q)
| JStr (s : string)
| JList (l : list json)
| JObj (kv : list (string * json)).
#[local] Set Elimination Schemes.

(** ** research.py: ResearchService *)

Module ResearchService.

Definition CACHE_EXPIRY_HOURS : Z := 24.

(** A naive UTC [datetime] is its number of microseconds since the epoch,
    a [timedelta] a number of microseconds. [datetime.fromisoformat]
    inverts [isoformat], so the TEXT column [research_time] is the
    datetime itself. *)
Abbreviation datetime := Z.

Definition timedelta_hours (hours : Z) : Z := (hours * 3600 * 1000000)%Z.

(** One row of table [research], without its primary key [market_id].
    [key_factors] and [sources] hold JSON text: [None] is NULL or the
    empty string, [Some j] the text [json.dumps(j)]. *)
Record row := Row {
  row_market_title : string;
  row_research_time : datetime;
  row_summary : string;
  row_estimated_probability : Q;
  row_confidence : Q;
  row_key_factors : option json;
  row_sources : option json
}.

(** The database file [research_cache.db]: table [research], which
    [market_id TEXT PRIMARY KEY] makes a map, and whether the file can only
    be read. *)
Record database := Database {
  table : gmap string row;
  readonly : bool
}.

(** The dict of [get_research_result]. *)
Record research_record := ResearchRecord {
  market_id : string;
  market_title : string;
  research_time : datetime;
  summary : string;
  estimated_probability : Q;
  confidence : Q;
  key_factors : json;
  sources : json
}.

(** The dicts of [list_all_research]. *)
Record research_entry := ResearchEntry {
  entry_market_id : string;
  entry_market_title : string;
  entry_research_time : datetime;
  entry_estimated_probability : Q;
  entry_confidence : Q
}.

(** The result dict of a research; [_save_research] reads every key with
    [.get] and a default. *)
Record research_result := ResearchResult {
  res_summary : option string;
  res_estimated_probability : option Q;
  res_confidence : option Q;
  res_key_factors : option json;
  res_sources : option json
}.

(** A writing statement and its [commit]: sqlite3 raises on a file that
    is read-only. *)
Definition execute_write (f : gmap string row -> gmap string row) (d : database)
    : pyresult unit * database :=
  if readonly d then
    (Raise (Exception "OperationalError" "attempt to write a readonly database"), d)
  else (Ok tt, {| table := f (table d); readonly := readonly d |}).

(** Methods run against the database file: they take it and give it back
    with their result. [utcnow] is [datetime.utcnow()] at the call. *)
Definition get_research_result (utcnow : datetime) (market_id : string)
    (d : database) : option research_record * database :=
  match table d !! market_id with
  | None => (None, d)
  | Some r =>
      if (timedelta_hours CACHE_EXPIRY_HOURS <? utcnow - row_research_time r)%Z
      then (None, d)
      else
        (Some {| market_id := market_id;
                 market_title := row_market_title r;
                 research_time := row_research_time r;
                 summary := row_summary r;
                 estimated_probability := row_estimated_probability r;
                 confidence := row_confidence r;
                 key_factors := default (JList []) (row_key_factors r);
                 sources := default (JList []) (row_sources r) |}, d)
  end.

(** [INSERT OR REPLACE INTO research ...] *)
Definition _save_research (utcnow : datetime) (market_id market_title : string)
    (result : research_result) : database -> pyresult unit * database :=
  execute_write
    <[market_id :=
        {| row_market_title := market_title;
           row_research_time := utcnow;
           row_summary := default "" (res_summary result);
           row_estimated_probability := default 0.5 (res_estimated_probability result);
           row_confidence := default 0.5 (res_confidence result);
           row_key_factors := Some (default (JList []) (res_key_factors result));
           row_sources := Some (default (JList []) (res_sources result)) |}]>.

(** [DELETE FROM research WHERE market_id = ?] *)
Definition delete_research (market_id : string) : database -> pyresult unit * database :=
  execute_write (delete market_id).

Definition list_all_research (d : database) : list research_entry * database :=
  ((fun kr : string * row =>
      {| entry_market_id := kr.1;
         entry_market_title := row_market_title kr.2;
         entry_research_time := row_research_time kr.2;
         entry_estimated_probability := row_estimated_probability kr.2;
         entry_confidence := row_confidence kr.2 |}) <$> map_to_list (table d), d).

(** The result used when the paid research raised. *)
Definition research_failed (e : exn) : research_result := {|
  res_summary := Some ("Research failed: " +:+ exn_str e);
  res_estimated_probability := Some 0.5;
  res_confidence := Some 0.0;
  res_key_factors := Some (JList [JStr "Unable to research"]);
  res_sources := Some (JList [])
|}.

Section Research.
(** The [try] block of [research_market_and_save]: the prompt, the paid
    request with web search and the parsing of its answer, with at most
    five sources. *)
Variable web_research : string -> option string -> option string -> pyresult research_result.

(** The paid research is made first; its result is saved outside the
    [try], so a failing save raises after the money is spent. *)
Definition research_market_and_save (utcnow : datetime)
    (market_id market_title : string) (focus market_description : option string)
    (d : database) : pyresult research_result * database :=
  let result :=
    match web_research market_title focus market_description with
    | Ok result => result
    | Raise e => research_failed e
    end in
  match _save_research utcnow market_id market_title result d with
  | (Ok _, d') => (Ok result, d')
  | (Raise e, d') => (Raise e, d')
  end.
End Research.

End ResearchService.

(** ** trading.py: PolymarketTrader *)

Module PolymarketTrader.

(** [py_clob_client.order_builder.constants] *)
Definition BUY : string := "BUY".
Definition SELL : string := "SELL".

(** [py_clob_client.clob_types.OrderArgs] *)
Record OrderArgs := {
  token_id : string;
  price : Q;
  size : Q;
  side : string;
  fee_rate_bps : Z
}.

(** One resting order of the book; [float(level.price)] is [level_price]. *)
Record OrderSummary := { level_price : Q; level_size : Q }.

(** The book of a token. A side is [None] when the attribute is missing
    or holds [None]. *)
Record OrderBookSummary := {
  bids : option (list OrderSummary);
  asks : option (list OrderSummary)
}.

(** A finite [decimal.Decimal]: [coefficient * 10 ^ exponent]. *)
Record Decimal := { coefficient : Z; exponent : Z }.

(** [float(d)] *)
Definition float_of_Decimal (d : Decimal) : Q :=
  inject_Z (coefficient d) * Qpower 10 (exponent d).

(** Precision of the default [decimal] context. *)
Definition prec : Z := 28.

(** [ROUND_DOWN]: to the nearest integer toward zero. *)
Definition round_down (x : Q) : Z :=
  if Qltb x 0 then Qceiling x else Qfloor x.

(** [Decimal(str(x)).quantize(Decimal(10) ** -places, rounding=ROUND_DOWN)]:
    digits beyond [places] are dropped, and the operation is invalid when
    the result needs more than [prec] digits. *)
Definition quantize_down (x : Q) (places : Z) : pyresult Decimal :=
  let c := round_down (x * inject_Z (10 ^ places)) in
  if (10 ^ prec <=? Z.abs c)%Z then
    Raise (Exception "InvalidOperation" "[<class 'decimal.InvalidOperation'>]")
  else Ok {| coefficient := c; exponent := - places |}.


Definition MIN_SHARES : Q := 5.0.

(** [amount / price] *)
Definition true_div (amount price : Q) : pyresult Q :=
  if Qeq_bool price 0 then
    Raise (Exception "ZeroDivisionError" "float division by zero")
  else Ok (amount / price).

(** The minimum-lot adjustment of [create_limit_order]: the locals
    [(amount, shares)] after the [if shares < MIN_SHARES] block. *)
Definition adjust_min_shares (price amount shares : Q) : Q * Q :=
  if Qltb shares MIN_SHARES then (MIN_SHARES * price, MIN_SHARES)
  else (amount, shares).

(** [create_limit_order] up to the call of the signing client: the
    notional after adjustment and the [OrderArgs] built. *)
Definition limit_order_args (token_id side : string) (price amount : Q)
    : pyresult (Q * OrderArgs) :=
  shares ← true_div amount price;
  let '(amount, shares) := adjust_min_shares price amount shares in
  price_decimal ← quantize_down price 2;
  shares_decimal ← quantize_down shares 4;
  Ok (amount,
      {| token_id := token_id;
         price := float_of_Decimal price_decimal;
         size := float_of_Decimal shares_decimal;
         side := side;
         fee_rate_bps := 0 |}).

Section Client.
(** The CLOB client: signing an order and fetching a book are calls of
    the library, which may raise. *)
Context {SignedOrder : Type}.
Variable create_order : OrderArgs -> pyresult SignedOrder.
Variable get_order_book : string -> pyresult OrderBookSummary.

Definition create_limit_order (token_id side : string) (price amount : Q)
    : pyresult SignedOrder :=
  '(_, order_args) ← limit_order_args token_id side price amount;
  create_order order_args.

(** [get_orderbook(token_id)] with [side=None] goes straight to the client. *)
Definition get_orderbook (token_id : string) : pyresult OrderBookSummary :=
  get_order_book token_id.

(** [levels and len(levels) > 0], then [levels[-1].price] *)
Definition last_price (levels : option (list OrderSummary)) (message : string)
    : pyresult Q :=
  match levels with
  | Some l =>
      match last l with
      | Some level => Ok (level_price level)
      | None => Raise (Exception "Exception" message)
      end
  | None => Raise (Exception "Exception" message)
  end.

(** The price [create_market_order] settles on. *)
Definition market_price (book : OrderBookSummary) (side : string) : pyresult Q :=
  if String.eqb side BUY then last_price (asks book) "Cannot get ask price"
  else last_price (bids book) "Cannot get bid price".

Definition create_market_order (token_id side : string) (amount : Q)
    : pyresult SignedOrder :=
  book ← get_orderbook token_id;
  price ← market_price book side;
  create_limit_order token_id side price amount.

(** The dict that [get_event_info] returns. *)
Record event_info := {
  info_title : json;
  info_start_time : json;
  info_end_time : json;
  up_token_id : string;
  down_token_id : string;
  info_market_id : json
}.

(** The submission of a signed order by the client, and the lookup of an
    event at the events API: [get_event_info] catches every exception of
    its request and of the reading of the answer, and returns [None] for
    them as for an event that has no two tokens. *)
Variable post_order : SignedOrder -> pyresult json.
Variable get_event_info : string -> option event_info.

(** ['-' in s]; the dash is character 45. *)
Fixpoint has_dash (s : string) : bool :=
  match s with
  | EmptyString => false
  | String c rest => Ascii.eqb c (Ascii.ascii_of_nat 45) || has_dash rest
  end.

(** [event_info['up_token_id'] if side == 'UP' else
    event_info['down_token_id']] *)
Definition token_of (info : event_info) (side : string) : string :=
  if String.eqb side "UP" then up_token_id info else down_token_id info.

(** [get_orderbook(token_id_or_event, side)], [side] being [None] when
    the argument is left out: the first argument is taken as an event
    slug when it holds a dash and a side is given. The result is [None]
    when the event is not found. *)
Definition get_orderbook_side (token_id_or_event : string) (side : option string)
    : pyresult (option OrderBookSummary) :=
  if has_dash token_id_or_event
     && match side with Some side => negb (String.eqb side "") | None => false end
  then
    match get_event_info token_id_or_event with
    | None => Ok None
    | Some event_info =>
        book ← get_order_book (token_of event_info (default "" side));
        Ok (Some book)
    end
  else
    book ← get_order_book token_id_or_event;
    Ok (Some book).

(** [levels[0]] and [levels[-1]] *)
Definition first_level (levels : list OrderSummary) : pyresult OrderSummary :=
  match levels with
  | level :: _ => Ok level
  | [] => Raise (Exception "IndexError" "list index out of range")
  end.

Definition last_level (levels : list OrderSummary) : pyresult OrderSummary :=
  match last levels with
  | Some level => Ok level
  | None => Raise (Exception "IndexError" "list index out of range")
  end.

(** [not levels] *)
Definition no_levels (levels : list OrderSummary) : bool :=
  match levels with [] => true | _ => false end.

(** [get_market_price] once it holds a book: the mean of the first bid
    and the last ask. *)
Definition mid_price (orderbook : OrderBookSummary) : pyresult (option Q) :=
  let bids := default [] (bids orderbook) in
  let asks := default [] (asks orderbook) in
  if no_levels bids || no_levels asks then Ok None
  else
    best_bid ←
      (if negb (no_levels bids) then
         level ← first_level bids; Ok (level_price level)
       else Ok 0);
    best_ask ←
      (if negb (no_levels asks) then
         level ← last_level asks; Ok (level_price level)
       else Ok 1);
    Ok (Some ((best_bid + best_ask) / 2)).

Definition get_market_price (event_slug side : string) : pyresult (option Q) :=
  orderbook ← get_orderbook_side event_slug (Some side);
  match orderbook with
  | None => Ok None
  | Some orderbook => mid_price orderbook
  end.

(** [place_order]: its [try] raises again what the client raised. *)
Definition place_order (signed_order : SignedOrder) : pyresult json :=
  post_order signed_order.

(** [buy(event_slug, outcome, amount, price)], [price] being [None] for a
    market order. *)
Definition buy (event_slug outcome : string) (amount : Q) (price : option Q)
    : pyresult json :=
  match get_event_info event_slug with
  | None => Raise (Exception "Exception" ("Event not found: " +:+ event_slug))
  | Some event_info =>
      let token_id := token_of event_info outcome in
      signed_order ←
        match price with
        | None => create_market_order token_id BUY amount
        | Some price => create_limit_order token_id BUY price amount
        end;
      place_order signed_order
  end.


End Client.

Section Clock.
(** [str.lower] *)
Variable lower : string -> string.

(** The fields of an aware UTC [datetime] that stands [now] microseconds
    after the epoch. *)
Definition minute (now : Z) : Z := (now / 60000000 mod 60)%Z.
Definition second (now : Z) : Z := (now / 1000000 mod 60)%Z.
Definition microsecond (now : Z) : Z := (now mod 1000000)%Z.

(** [now.replace(minute=minutes, second=0, microsecond=0)] *)
Definition replace_minute (now minutes : Z) : Z :=
  (now - (minute now * 60000000 + second now * 1000000 + microsecond now)
   + minutes * 60000000)%Z.

(** [int(t.timestamp())]: the seconds since the epoch, cut toward zero. *)
Definition timestamp (t : Z) : Z := (t ÷ 1000000)%Z.

(** [get_current_event(asset)], [now] being [datetime.now(timezone.utc)]
    at the call. *)
Definition get_current_event (now : Z) (asset : string) : string :=
  let minutes := (minute now / 15 * 15)%Z in
  let aligned_time := replace_minute now minutes in
  let timestamp := timestamp aligned_time in
  lower asset +:+ "-updown-15m-" +:+ pretty timestamp.
End Clock.

End PolymarketTrader.

(** ** Python objects as bot.py handles them *)

(** [d.get(key)] on a dict. *)
Fixpoint assoc (key : string) (kv : list (string * json)) : option json :=
  match kv with
  | [] => None
  | (k, v) :: kv' => if String.eqb k key then Some v else assoc key kv'
  end.

(** [type(obj).__name__], a number taken as a [float]. *)
Definition type_name (j : json) : string :=
  match j with
  | JNull => "NoneType"
  | JBool _ => "bool"
  | JNum _ => "float"
  | JStr _ => "str"
  | JList _ => "list"
  | JObj _ => "dict"
  end.

(** [obj.get(key, default)]: only a dict has the method. *)
Definition py_get (obj : json) (key : string) (default : json) : pyresult json :=
  match obj with
  | JObj kv => Ok (match assoc key kv with Some v => v | None => default end)
  | _ =>
      Raise (Exception "AttributeError"
               ("'" +:+ type_name obj +:+ "' object has no attribute 'get'"))
  end.

(** Truth value of an object: [if obj:]. *)
Definition truthy (j : json) : bool :=
  match j with
  | JNull => false
  | JBool b => b
  | JNum q => negb (Qeq_bool q 0)
  | JStr s => negb (String.eqb s "")
  | JList l => match l with [] => false | _ => true end
  | JObj kv => match kv with [] => false | _ => true end
  end.

(** [obj is not None] *)
Definition is_not_None (j : json) : bool :=
  match j with JNull => false | _ => true end.

(** The balance dict as [check_bet] reads it: its numeric entries. *)
Definition numeric_entries (kv : list (string * json)) : list (string * Q) :=
  omap (fun e : string * json =>
          match e.2 with JNum q => Some (e.1, q) | _ => None end) kv.

Definition balance_of (j : json) : gmap string Q :=
  match j with
  | JObj kv => list_to_map (numeric_entries kv)
  | _ => ∅
  end.

(** A position dict as [check_bet] reads it. *)
Definition position_of (j : json) : position :=
  match j with
  | JObj kv =>
      {| pos_market_id :=
           match assoc "market_id" kv with Some (JStr s) => Some s | _ => None end;
         pos_current_value :=
           match assoc "current_value" kv with Some (JNum q) => Some q | _ => None end |}
  | _ => {| pos_market_id := None; pos_current_value := None |}
  end.

Definition positions_of (j : json) : list position :=
  match j with
  | JList l => position_of <$> l
  | _ => []
  end.

(** [try: body  except Exception as e: handler] on a computation that
    touches nothing. *)
Definition py_try {A} (body : pyresult A) (handler : exn -> pyresult A) : pyresult A :=
  match body with
  | Ok a => Ok a
  | Raise e => handler e
  end.

(** The exceptions raised for a value that has not the type expected. *)
Definition conversion_error (e : exn) : Prop :=
  exn_type e = "AttributeError" \/ exn_type e = "TypeError" \/ exn_type e = "ValueError".

(** [x or 0] *)
Definition or_0 (x : json) : json := if truthy x then x else JNum 0.

(** [for x in obj]: the items that the loop visits. A dict gives its
    keys and a string its characters. *)
Definition py_iter (obj : json) : pyresult (list json) :=
  match obj with
  | JList l => Ok l
  | JObj kv => Ok ((fun entry : string * json => JStr entry.1) <$> kv)
  | JStr s =>
      Ok ((fix chars (s : string) : list json :=
             match s with
             | EmptyString => []
             | String c rest => JStr (String c "") :: chars rest
             end) s)
  | _ => Raise (Exception "TypeError" ("'" +:+ type_name obj +:+ "' object is not iterable"))
  end.

(** A loop that builds a list: [f] gives the item to append for an
    element, or [None] when the turn [continue]s, or raises. *)
Fixpoint py_collect {A B} (f : A -> pyresult (option B)) (l : list A) : pyresult (list B) :=
  match l with
  | [] => Ok []
  | a :: l' =>
      item ← f a;
      rest ← py_collect f l';
      Ok (match item with Some b => b :: rest | None => rest end)
  end.

Section Float.
(** [float(s)] on a string: the number that [s] denotes, or [None] when
    it denotes none and [float] raises [ValueError]. *)
Variable float_of_str : string -> option Q.

(** [float(x)] *)
Definition py_float (x : json) : pyresult Q :=
  match x with
  | JNum q => Ok q
  | JBool b => Ok (if b then 1 else 0)
  | JStr s =>
      match float_of_str s with
      | Some q => Ok q
      | None =>
          Raise (Exception "ValueError"
                   ("could not convert string to float: '" +:+ s +:+ "'"))
      end
  | _ =>
      Raise (Exception "TypeError"
               ("float() argument must be a string or a real number, not '"
                +:+ type_name x +:+ "'"))
  end.

(** [float(obj.get(key, 0) or 0)] *)
Definition float_or_0 (obj : json) (key : string) : pyresult Q :=
  value ← py_get obj key (JNum 0);
  py_float (or_0 value).
End Float.

(** [max(a, b)]: the first of the two when neither is larger. *)
Definition py_max (a b : Q) : Q := if Qltb a b then b else a.

(** ** account.py: AccountService *)

Module AccountService.

(** What [client.get_balance_allowance] returns: an object that has an
    attribute [balance], or a value that has none, a dict for one. *)
Inductive balance_allowance :=
| WithBalance (balance : json)
| Plain (value : json).

Section Account.
Variable float_of_str : string -> option Q.

(** One turn of the loop of [get_my_positions] on a raw position: the
    dict it appends, or [None] when the position has no value. *)
Definition position_dict (pos : json) : pyresult (option json) :=
  current_value ← float_or_0 float_of_str pos "currentValue";
  if Qle_bool current_value 0 then Ok None
  else
    initial_value ← float_or_0 float_of_str pos "initialValue";
    let unrealized_pnl := current_value - initial_value in
    unrealized_pnl_pct ←
      (if Qltb 0 initial_value then
         ratio ← PolymarketTrader.true_div unrealized_pnl initial_value;
         Ok (ratio * 100)
       else Ok 0);
    current_price ← float_or_0 float_of_str pos "curPrice";
    size ← float_or_0 float_of_str pos "size";
    entry_price ←
      (if Qltb 0 size then PolymarketTrader.true_div initial_value size else Ok 0);
    market_id ← py_get pos "eventId" JNull;
    market_title ← py_get pos "title" (JStr "Unknown");
    side ← py_get pos "outcome" (JStr "YES");
    Ok (Some (JObj [("market_id", market_id);
                    ("market_title", market_title);
                    ("side", side);
                    ("amount", JNum size);
                    ("entry_price", JNum entry_price);
                    ("current_price", JNum current_price);
                    ("current_value", JNum current_value);
                    ("unrealized_pnl", JNum unrealized_pnl);
                    ("unrealized_pnl_pct", JNum unrealized_pnl_pct)])).

(** [get_my_positions()]. [response] is what the [try] block leaves in
    [raw_positions]: the body of the answer of the positions API, or what
    the request raised. *)
Definition get_my_positions (wallet_address : string) (response : pyresult json)
    : pyresult (list json) :=
  if String.eqb wallet_address "" then Ok []
  else
    match response with
    | Raise _ => Ok []
    | Ok raw_positions =>
        items ← py_iter raw_positions;
        py_collect position_dict items
    end.

(** [sum(abs(float(p.get("current_value", 0))) for p in positions)] *)
Fixpoint locked_value_of (positions : list json) (total : Q) : pyresult Q :=
  match positions with
  | [] => Ok total
  | p :: positions' =>
      value ← py_get p "current_value" (JNum 0);
      value ← py_float float_of_str value;
      locked_value_of positions' (total + Qabs value)
  end.

(** The [try] block inside [get_balance]: the collateral balance, in
    USDC. *)
Definition collateral (balance_info : pyresult balance_allowance) (locked_value : Q)
    : pyresult Q :=
  balance_info ← balance_info;
  match balance_info with
  | WithBalance balance =>
      balance ← py_float float_of_str balance;
      Ok (balance / 1000000)
  | Plain (JObj kv) =>
      balance ← py_get (JObj kv) "balance" (JNum 0);
      balance ← py_float float_of_str balance;
      Ok (balance / 1000000)
  | Plain _ => Ok locked_value
  end.

(** [get_balance()]. [balance_info] is what
    [client.get_balance_allowance(params)] returns or raises. *)
Definition get_balance (wallet_address : string) (response : pyresult json)
    (balance_info : pyresult balance_allowance) : pyresult json :=
  py_try
    (positions ← get_my_positions wallet_address response;
     locked_value ← locked_value_of positions 0;
     raw_balance ← py_try (collateral balance_info locked_value)
                          (fun _ => Ok locked_value);
     Ok (JObj [("available_usdc", JNum (py_max 0 (raw_balance - locked_value)));
               ("locked_usdc", JNum locked_value);
               ("total_usdc", JNum (py_max raw_balance locked_value))]))
    (fun e =>
       Ok (JObj [("available_usdc", JNum 0);
                 ("locked_usdc", JNum 0);
                 ("total_usdc", JNum 0);
                 ("error", JStr (exn_str e))])).

End Account.

End AccountService.

(** ** markets.py *)

(** [obj.lower()]: only a string has the method. *)
Definition py_lower (lower : string -> string) (obj : json) : pyresult string :=
  match obj with
  | JStr s => Ok (lower s)
  | _ =>
      Raise (Exception "AttributeError"
               ("'" +:+ type_name obj +:+ "' object has no attribute 'lower'"))
  end.

(** [needle in haystack] on strings. *)
Fixpoint contains (needle haystack : string) : bool :=
  String.prefix needle haystack
  || match haystack with
     | EmptyString => false
     | String _ rest => contains needle rest
     end.

(** [s in names] on a list of strings. *)
Definition among (names : list string) (s : string) : bool :=
  existsb (String.eqb s) names.

(** [obj[i]] for an index that is not negative. *)
Definition py_item (obj : json) (i : nat) : pyresult json :=
  match obj with
  | JList l =>
      match l !! i with
      | Some x => Ok x
      | None => Raise (Exception "IndexError" "list index out of range")
      end
  | JStr s =>
      match String.get i s with
      | Some c => Ok (JStr (String c ""))
      | None => Raise (Exception "IndexError" "string index out of range")
      end
  | JObj _ => Raise (Exception "KeyError" (pretty i))
  | _ =>
      Raise (Exception "TypeError"
               ("'" +:+ type_name obj +:+ "' object is not subscriptable"))
  end.

(** [len(obj)] *)
Definition py_len (obj : json) : pyresult nat :=
  match obj with
  | JList l => Ok (length l)
  | JStr s => Ok (String.length s)
  | JObj kv => Ok (length kv)
  | _ =>
      Raise (Exception "TypeError"
               ("object of type '" +:+ type_name obj +:+ "' has no len()"))
  end.

(** [obj[:n]] *)
Definition py_head (n : nat) (obj : json) : pyresult json :=
  match obj with
  | JStr s => Ok (JStr (String.substring 0 n s))
  | JList l => Ok (JList (take n l))
  | _ =>
      Raise (Exception "TypeError"
               ("'" +:+ type_name obj +:+ "' object is not subscriptable"))
  end.

Module markets.

Definition EXCLUDED_TAGS : list string :=
  ["sports"; "nfl"; "nba"; "mlb"; "soccer"; "esports"; "price"].

Definition EXCLUDED_SLUG_PATTERNS : list string :=
  ["up-or-down"; "updown"; "-15m-"; "-1h-"; "-4h-"].

(** The categories that [get_markets_list] tells apart. *)
Definition CATEGORIES : list string :=
  ["politics"; "crypto"; "science"; "entertainment"; "business"; "tech"; "finance"].

Section Markets.
(** [str.lower], [float] on a string and [json.loads]. *)
Variable lower : string -> string.
Variable float_of_str : string -> option Q.
Variable json_loads : string -> pyresult json.

(** [{t.get("slug", "").lower() for t in tags}], in the order visited. *)
Fixpoint tag_slugs_of (tags : list json) : pyresult (list string) :=
  match tags with
  | [] => Ok []
  | t :: tags' =>
      slug ← py_get t "slug" (JStr "");
      slug ← py_lower lower slug;
      slugs ← tag_slugs_of tags';
      Ok (slug :: slugs)
  end.

(** The loop that picks the primary category. *)
Fixpoint primary_category_of (tags : list json) : pyresult string :=
  match tags with
  | [] => Ok "other"
  | tag :: tags' =>
      slug ← py_get tag "slug" (JStr "");
      slug ← py_lower lower slug;
      if among CATEGORIES slug then Ok slug else primary_category_of tags'
  end.

(** The loop that picks the first market that is active and not closed. *)
Fixpoint first_active (event_markets : list json) : pyresult (option json) :=
  match event_markets with
  | [] => Ok None
  | m :: event_markets' =>
      active ← py_get m "active" JNull;
      if truthy active then
        closed ← py_get m "closed" JNull;
        if negb (truthy closed) then Ok (Some m) else first_active event_markets'
      else first_active event_markets'
  end.

(** [json.loads(outcome_prices)] when it is a string, else the value
    itself. *)
Definition loaded (value : json) : pyresult json :=
  match value with
  | JStr s => json_loads s
  | _ => Ok value
  end.

(** The [try] that reads the YES price, 0 when anything in it raises. *)
Definition yes_price_of (active_market : json) : Q :=
  match
    (outcome_prices ← py_get active_market "outcomePrices" (JStr "[0, 0]");
     prices ← loaded outcome_prices;
     if truthy prices then
       first ← py_item prices 0;
       py_float float_of_str first
     else Ok 0)
  with
  | Ok yes_price => yes_price
  | Raise _ => 0
  end.

(** One turn of the loop of [get_markets_list] on an event: the market
    dict it appends, or [None] when the turn [continue]s. *)
Definition market_entry (min_liquidity : Q) (category : option string) (event : json)
    : pyresult (option json) :=
  event_markets ← py_get event "markets" (JList []);
  if negb (truthy event_markets) then Ok None
  else
    closed ← py_get event "closed" (JBool false);
    if truthy closed then Ok None
    else
      liquidity ← float_or_0 float_of_str event "liquidity";
      if Qltb liquidity min_liquidity then Ok None
      else
        tags ← py_get event "tags" (JList []);
        tag_items ← py_iter tags;
        tag_slugs ← tag_slugs_of tag_items;
        if existsb (among EXCLUDED_TAGS) tag_slugs then Ok None
        else
          event_slug ← py_get event "slug" (JStr "");
          event_slug ← py_lower lower event_slug;
          if existsb (fun pattern => contains pattern event_slug) EXCLUDED_SLUG_PATTERNS
          then Ok None
          else if match category with
                  | Some category =>
                      negb (String.eqb category "")
                      && negb (among tag_slugs (lower category))
                  | None => false
                  end
          then Ok None
          else
            primary_category ← primary_category_of tag_items;
            market_items ← py_iter event_markets;
            active_market ← first_active market_items;
            match active_market with
            | None => Ok None
            | Some active_market =>
                let yes_price := yes_price_of active_market in
                id ← py_get event "id" JNull;
                slug ← py_get event "slug" JNull;
                title ← py_get event "title" JNull;
                volume_24h ← float_or_0 float_of_str event "volume24hr";
                end_date ← py_get event "endDate" JNull;
                description ← py_get event "description" (JStr "");
                description ← py_head 500 description;
                Ok (Some (JObj [("id", id);
                                ("slug", slug);
                                ("title", title);
                                ("category", JStr primary_category);
                                ("price", JNum yes_price);
                                ("volume_24h", JNum volume_24h);
                                ("liquidity", JNum liquidity);
                                ("end_date", end_date);
                                ("description", description)]))
            end.

(** The loop of [get_markets_list] over the events left, [markets]
    holding what was appended so far; it [break]s when the list has
    reached [limit]. *)
Fixpoint markets_loop (limit : Z) (min_liquidity : Q) (category : option string)
    (events : list json) (markets : list json) : pyresult (list json) :=
  match events with
  | [] => Ok markets
  | event :: events' =>
      entry ← market_entry min_liquidity category event;
      match entry with
      | None => markets_loop limit min_liquidity category events' markets
      | Some market =>
          let markets := markets ++ [market] in
          if (limit <=? Z.of_nat (length markets))%Z then Ok markets
          else markets_loop limit min_liquidity category events' markets
      end
  end.

(** [get_markets_list(limit, min_liquidity, category)]. [fetch n] is
    what the [try] block leaves in [events] when it asks for [n] events:
    the body of the answer of the events API, or what the request raised. *)
Definition get_markets_list (fetch : Z -> pyresult json)
    (limit : Z) (min_liquidity : Q) (category : option string) : pyresult (list json) :=
  let limit := Z.min limit 100 in
  match fetch (limit * 2)%Z with
  | Raise _ => Ok []
  | Ok events =>
      events ← py_iter events;
      markets_loop limit min_liquidity category events []
  end.

(** The [try] of [get_market_detail] that reads the two prices: both are
    0 when anything in it raises. *)
Definition prices_of (primary_market : json) : Q * Q :=
  match
    (outcome_prices ← py_get primary_market "outcomePrices" (JStr "[0, 0]");
     prices ← loaded outcome_prices;
     n ← py_len prices;
     yes_price ←
       (if (0 <? n)%nat then first ← py_item prices 0; py_float float_of_str first
        else Ok 0);
     n ← py_len prices;
     no_price ←
       (if (1 <? n)%nat then second ← py_item prices 1; py_float float_of_str second
        else Ok 0);
     Ok (yes_price, no_price))
  with
  | Ok prices => prices
  | Raise _ => (0, 0)
  end.

(** The text ['["Yes", "No"]']; the quotation mark is character 34. *)
Definition YES_NO : string :=
  let quote := String (Ascii.ascii_of_nat 34) "" in
  "[" +:+ quote +:+ "Yes" +:+ quote +:+ ", " +:+ quote +:+ "No" +:+ quote +:+ "]".

(** The [try] that reads the names of the outcomes. *)
Definition outcomes_of (primary_market : json) : json :=
  match
    (outcomes_str ← py_get primary_market "outcomes" (JStr YES_NO);
     loaded outcomes_str)
  with
  | Ok outcomes => outcomes
  | Raise _ => JList [JStr "Yes"; JStr "No"]
  end.

(** [get_market_detail(market_id)]. [fetch market_id] is what the [try]
    block leaves in [event], or what the request raised. *)
Definition get_market_detail (fetch : string -> pyresult json) (market_id : string)
    : pyresult (option json) :=
  match fetch market_id with
  | Raise _ => Ok None
  | Ok event =>
      if negb (truthy event) then Ok None
      else
        markets ← py_get event "markets" (JList []);
        if negb (truthy markets) then Ok None
        else
          primary_market ← py_item markets 0;
          let '(yes_price, no_price) := prices_of primary_market in
          let outcomes := outcomes_of primary_market in
          id ← py_get event "id" JNull;
          slug ← py_get event "slug" JNull;
          title ← py_get event "title" JNull;
          description ← py_get event "description" (JStr "");
          rules ← py_get primary_market "description" (JStr "");
          volume ← float_or_0 float_of_str primary_market "volumeNum";
          liquidity ← float_or_0 float_of_str event "liquidity";
          end_date ← py_get event "endDate" JNull;
          created_date ← py_get event "createdAt" JNull;
          first_name ← (if truthy outcomes then py_item outcomes 0 else Ok (JStr "Yes"));
          n ← py_len outcomes;
          second_name ← (if (1 <? n)%nat then py_item outcomes 1 else Ok (JStr "No"));
          primary_id ← py_get primary_market "id" JNull;
          condition_id ← py_get primary_market "conditionId" JNull;
          accepting_orders ← py_get primary_market "acceptingOrders" (JBool false);
          Ok (Some (JObj [("id", id);
                          ("slug", slug);
                          ("title", title);
                          ("description", description);
                          ("rules", rules);
                          ("price", JNum yes_price);
                          ("volume", JNum volume);
                          ("liquidity", JNum liquidity);
                          ("end_date", end_date);
                          ("created_date", created_date);
                          ("outcomes",
                           JList [JObj [("name", first_name); ("price", JNum yes_price)];
                                  JObj [("name", second_name); ("price", JNum no_price)]]);
                          ("market_id", primary_id);
                          ("condition_id", condition_id);
                          ("accepting_orders", accepting_orders)]))
  end.

End Markets.

End markets.

(** ** The numeric methods on floats

    [RiskManager.check_bet] and [PolymarketTrader.create_limit_order]
    compare and compute floats; here they are on the floats of
    [binary64], with the rounding of every operation. The literal [0] of
    the source is the float [0.0], which compares, adds and prints as it
    does. *)

Module ieee.
Import binary64.

Module config.
Definition MAX_SINGLE_BET : float := literal 15.0.
Definition MAX_POSITION_PCT : float := literal 0.25.
Definition MAX_DAILY_BETS : float := literal 30.0.
Definition MIN_RESERVE_PCT : float := literal 0.20.
End config.

(** A position dict, with the two keys that the gate reads. *)
Record position := Position {
  pos_market_id : option string;
  pos_current_value : option float
}.

(** The builtin [sum] as it is before Python 3.12: the additions from
    the left, starting from 0. *)
Definition sum_left (values : list float) : float :=
  fold_left fadd values (Zero false).

Module RiskManager.

(** [self.daily_bets] and [balance] *)
Abbreviation ledger := (gmap string float).
Abbreviation balance := (gmap string float).

(** [d.get(key, 0)] *)
Definition get0 (d : gmap string float) (key : string) : float :=
  default (Zero false) (d !! key).

Section Sum.
(** The builtin [sum] on floats. It adds the numbers from the left to
    0, as [sum_left] does; since Python 3.12 it also corrects the
    rounding errors of the additions as it goes. What it returns is left
    to the interpreter. *)
Variable sum : list float -> float.

(** [sum(p.get("current_value", 0) for p in positions
          if p.get("market_id") == market_id)] *)
Definition existing_position (market_id : string) (positions : list position) : float :=
  sum ((fun p => default (Zero false) (pos_current_value p)) <$>
         filter (fun p => pos_market_id p = Some market_id) positions).

(** [today] is [date.today().isoformat()] at the call. The f-strings over
    the constants of [config] are written out: [str(15.0)] is "15.0" and
    [f"{0.20*100:.0f}"] is "20". *)
Definition check_bet (today : string) (daily_bets : ledger)
    (amount : float) (market_id : string) (balance : balance)
    (positions : list position) (researched : bool) : bool * string :=
  if negb researched then
    (false, "Must research market before betting")
  else if fgt amount config.MAX_SINGLE_BET then
    (false, "Single bet cannot exceed $15.0")
  else
    let available := get0 balance "available_usdc" in
    if fgt amount available then
      (false, "Insufficient balance: $" +:+ format_2f available +:+ " available")
    else
      let total := get0 balance "total_usdc" in
      if flt (fsub available amount) (fmul total config.MIN_RESERVE_PCT) then
        (false, "Must maintain 20% reserve")
      else
        let existing_position := existing_position market_id positions in
        if fgt (fadd existing_position amount) (fmul total config.MAX_POSITION_PCT) then
          (false, "Position would exceed 25% of balance")
        else
          let daily_total := get0 daily_bets today in
          if fgt (fadd daily_total amount) config.MAX_DAILY_BETS then
            (false, "Daily betting limit ($30.0) reached")
          else
            (true, "OK").

(** *** The gate as the specification words it *)

Section Rules.
Context (today : string) (daily_bets : ledger) (amount : float)
        (market_id : string) (bal : balance)
        (positions : list position) (researched : bool).

Let available := get0 bal "available_usdc".
Let total := get0 bal "total_usdc".

(** What each rule demands, in the arithmetic of the floats. *)
Definition rule_passes (r : RiskManager.rule) : bool :=
  match r with
  | RiskManager.RResearched => researched
  | RiskManager.RSingleBet => fle amount config.MAX_SINGLE_BET
  | RiskManager.RBalance => fle amount available
  | RiskManager.RReserve =>
      fle (fmul total config.MIN_RESERVE_PCT) (fsub available amount)
  | RiskManager.RPosition =>
      fle (fadd (existing_position market_id positions) amount)
          (fmul total config.MAX_POSITION_PCT)
  | RiskManager.RDaily => fle (fadd (get0 daily_bets today) amount) config.MAX_DAILY_BETS
  end.

(** The reason reported when a rule fails. *)
Definition rejection (r : RiskManager.rule) : string :=
  match r with
  | RiskManager.RResearched => "Must research market before betting"
  | RiskManager.RSingleBet => "Single bet cannot exceed $15.0"
  | RiskManager.RBalance =>
      "Insufficient balance: $" +:+ format_2f available +:+ " available"
  | RiskManager.RReserve => "Must maintain 20% reserve"
  | RiskManager.RPosition => "Position would exceed 25% of balance"
  | RiskManager.RDaily => "Daily betting limit ($30.0) reached"
  end.

(** First failing rule wins; approval only when none fails. *)
Definition first_failing_rule : option RiskManager.rule :=
  List.find (fun r => negb (rule_passes r)) RiskManager.rules.

Definition spec_check_bet : bool * string :=
  match first_failing_rule with
  | Some r => (false, rejection r)
  | None => (true, "OK")
  end.

End Rules.

End Sum.

End RiskManager.

Module PolymarketTrader.

(** The arguments of an order, as the client takes them. *)
Record OrderArgs := {
  token_id : string;
  price : float;
  size : float;
  side : string;
  fee_rate_bps : Z
}.

Definition MIN_SHARES : float := literal 5.0.

(** [amount / price] *)
Definition true_div (amount price : float) : pyresult float :=
  match price with
  | Zero _ => Raise (Exception "ZeroDivisionError" "float division by zero")
  | _ => Ok (fdiv amount price)
  end.

(** The minimum-lot adjustment of [create_limit_order]: the locals
    [(amount, shares)] after the [if shares < MIN_SHARES] block. *)
Definition adjust_min_shares (price amount shares : float) : float * float :=
  if flt shares MIN_SHARES then (fmul MIN_SHARES price, MIN_SHARES)
  else (amount, shares).

(** [create_limit_order] up to the call of the signing client: the
    notional after adjustment and the [OrderArgs] built. *)
Definition limit_order_args (token_id side : string) (price amount : float)
    : pyresult (float * OrderArgs) :=
  shares ← true_div amount price;
  let '(amount, shares) := adjust_min_shares price amount shares in
  price_decimal ← quantize_down (Decimal_of_str price) 2;
  shares_decimal ← quantize_down (Decimal_of_str shares) 4;
  Ok (amount,
      {| token_id := token_id;
         price := float_of_Decimal price_decimal;
         size := float_of_Decimal shares_decimal;
         side := side;
         fee_rate_bps := 0 |}).

Definition create_limit_order {SignedOrder : Type}
    (create_order : OrderArgs -> pyresult SignedOrder)
    (token_id side : string) (price amount : float) : pyresult SignedOrder :=
  '(_, order_args) ← limit_order_args token_id side price amount;
  create_order order_args.


End PolymarketTrader.

(** *** The objects of an answer

    What [response.json()] yields: [None], a [bool], an [int], a
    [float], a [str], a [list] or a [dict] with its keys in order. *)
#[local] Unset Elimination Schemes.
Inductive pyobj :=
| PNone
| PBool (b : bool)
| PInt (n : Z)
| PFloat (x : float)
| PStr (s : string)
| PList (l : list pyobj)
| PDict (kv : list (string * pyobj)).
#[local] Set Elimination Schemes.

(** [type(obj).__name__] *)
Definition type_name (obj : pyobj) : string :=
  match obj with
  | PNone => "NoneType"
  | PBool _ => "bool"
  | PInt _ => "int"
  | PFloat _ => "float"
  | PStr _ => "str"
  | PList _ => "list"
  | PDict _ => "dict"
  end.

(** [d.get(key)] on a dict. *)
Fixpoint lookup (key : string) (kv : list (string * pyobj)) : option pyobj :=
  match kv with
  | [] => None
  | (k, v) :: kv' => if String.eqb k key then Some v else lookup key kv'
  end.

(** [obj.get(key, default)]: only a dict has the method. *)
Definition py_get (obj : pyobj) (key : string) (default : pyobj) : pyresult pyobj :=
  match obj with
  | PDict kv => Ok (match lookup key kv with Some v => v | None => default end)
  | _ =>
      Raise (Exception "AttributeError"
               ("'" +:+ type_name obj +:+ "' object has no attribute 'get'"))
  end.

(** Truth value of an object: NaN is true, both zeros are false. *)
Definition truthy (obj : pyobj) : bool :=
  match obj with
  | PNone => false
  | PBool b => b
  | PInt n => negb (n =? 0)%Z
  | PFloat x => negb (feq x (Zero false))
  | PStr s => negb (String.eqb s "")
  | PList l => match l with [] => false | _ => true end
  | PDict kv => match kv with [] => false | _ => true end
  end.

(** [x or 0] *)
Definition or_0 (x : pyobj) : pyobj := if truthy x then x else PInt 0.

(** [for x in obj]: the items that the loop visits. A dict gives its
    keys and a string its characters. *)
Definition py_iter (obj : pyobj) : pyresult (list pyobj) :=
  match obj with
  | PList l => Ok l
  | PDict kv => Ok ((fun entry : string * pyobj => PStr entry.1) <$> kv)
  | PStr s =>
      Ok ((fix chars (s : string) : list pyobj :=
             match s with
             | EmptyString => []
             | String c rest => PStr (String c "") :: chars rest
             end) s)
  | _ => Raise (Exception "TypeError" ("'" +:+ type_name obj +:+ "' object is not iterable"))
  end.

(** The exceptions raised for a value that has not the type or the size
    expected. *)
Definition conversion_error (e : exn) : Prop :=
  exn_type e = "AttributeError" \/ exn_type e = "TypeError"
  \/ exn_type e = "ValueError" \/ exn_type e = "OverflowError".

Section Float.
(** [float(s)] on a string: the float that [s] denotes, which may be an
    infinity or NaN, or [None] when it denotes none and [float] raises
    [ValueError]. *)
Variable float_of_str : string -> option float.

(** [float(x)]: an [int] is rounded, and one beyond the floats raises. *)
Definition py_float (x : pyobj) : pyresult float :=
  match x with
  | PFloat x => Ok x
  | PInt n =>
      match round64 false (inject_Z n) with
      | Infinity _ =>
          Raise (Exception "OverflowError" "int too large to convert to float")
      | x => Ok x
      end
  | PBool b => Ok (if b then literal 1 else Zero false)
  | PStr s =>
      match float_of_str s with
      | Some x => Ok x
      | None =>
          Raise (Exception "ValueError"
                   ("could not convert string to float: '" +:+ s +:+ "'"))
      end
  | _ =>
      Raise (Exception "TypeError"
               ("float() argument must be a string or a real number, not '"
                +:+ type_name x +:+ "'"))
  end.

(** [float(obj.get(key, 0) or 0)] *)
Definition float_or_0 (obj : pyobj) (key : string) : pyresult float :=
  value ← py_get obj key (PInt 0);
  py_float (or_0 value).
End Float.

(** [max(a, b)] of two numbers: the first of them unless the second is
    greater. *)
Definition py_max (a b : float) : float := if fgt b a then b else a.

Module AccountService.

(** What [client.get_balance_allowance] returns: an object that has an
    attribute [balance], or a value that has none, a dict for one. *)
Inductive balance_allowance :=
| WithBalance (balance : pyobj)
| Plain (value : pyobj).

Section Account.
Variable float_of_str : string -> option float.
Variable sum : list float -> float.

(** One turn of the loop of [get_my_positions] on a raw position: the
    dict it appends, or [None] when the position has no value. The
    literal [0] of an [else] is the [int] it is. *)
Definition position_dict (pos : pyobj) : pyresult (option pyobj) :=
  current_value ← float_or_0 float_of_str pos "currentValue";
  if fle current_value (Zero false) then Ok None
  else
    initial_value ← float_or_0 float_of_str pos "initialValue";
    let unrealized_pnl := fsub current_value initial_value in
    unrealized_pnl_pct ←
      (if fgt initial_value (Zero false) then
         ratio ← PolymarketTrader.true_div unrealized_pnl initial_value;
         Ok (PFloat (fmul ratio (literal 100)))
       else Ok (PInt 0));
    current_price ← float_or_0 float_of_str pos "curPrice";
    size ← float_or_0 float_of_str pos "size";
    entry_price ←
      (if fgt size (Zero false) then
         ratio ← PolymarketTrader.true_div initial_value size;
         Ok (PFloat ratio)
       else Ok (PInt 0));
    market_id ← py_get pos "eventId" PNone;
    market_title ← py_get pos "title" (PStr "Unknown");
    side ← py_get pos "outcome" (PStr "YES");
    Ok (Some (PDict [("market_id", market_id);
                     ("market_title", market_title);
                     ("side", side);
                     ("amount", PFloat size);
                     ("entry_price", entry_price);
                     ("current_price", PFloat current_price);
                     ("current_value", PFloat current_value);
                     ("unrealized_pnl", PFloat unrealized_pnl);
                     ("unrealized_pnl_pct", unrealized_pnl_pct)])).

(** A position that the loop keeps: a dict whose [current_value] is a
    float for which the test [current_value <= 0] is false. *)
Definition open_value (p : pyobj) : Prop :=
  exists kv x,
    p = PDict kv /\ lookup "current_value" kv = Some (PFloat x)
    /\ fle x (Zero false) = false.

(** [get_my_positions()]. [response] is what the [try] block leaves in
    [raw_positions]: the body of the answer of the positions API, or what
    the request raised. *)
Definition get_my_positions (wallet_address : string) (response : pyresult pyobj)
    : pyresult (list pyobj) :=
  if String.eqb wallet_address "" then Ok []
  else
    match response with
    | Raise _ => Ok []
    | Ok raw_positions =>
        items ← py_iter raw_positions;
        py_collect position_dict items
    end.

(** [abs(float(p.get("current_value", 0)))] for each position. *)
Fixpoint absolute_values (positions : list pyobj) : pyresult (list float) :=
  match positions with
  | [] => Ok []
  | p :: positions' =>
      value ← py_get p "current_value" (PInt 0);
      value ← py_float float_of_str value;
      values ← absolute_values positions';
      Ok (fabs value :: values)
  end.

(** The [try] block inside [get_balance]: the collateral balance, in
    USDC. *)
Definition collateral (balance_info : pyresult balance_allowance) (locked_value : float)
    : pyresult float :=
  balance_info ← balance_info;
  match balance_info with
  | WithBalance balance =>
      balance ← py_float float_of_str balance;
      Ok (fdiv balance (literal 1e6))
  | Plain (PDict kv) =>
      balance ← py_get (PDict kv) "balance" (PInt 0);
      balance ← py_float float_of_str balance;
      Ok (fdiv balance (literal 1e6))
  | Plain _ => Ok locked_value
  end.

(** [get_balance()]. [balance_info] is what
    [client.get_balance_allowance(params)] returns or raises. The
    figures are floats; where the code has the [int] 0 (an empty sum, the
    first argument of [max], the zeros of the [except]) it is the float
    0.0 here, which it equals. *)
Definition get_balance (wallet_address : string) (response : pyresult pyobj)
    (balance_info : pyresult balance_allowance) : pyresult pyobj :=
  py_try
    (positions ← get_my_positions wallet_address response;
     values ← absolute_values positions;
     let locked_value := sum values in
     raw_balance ← py_try (collateral balance_info locked_value)
                          (fun _ => Ok locked_value);
     Ok (PDict [("available_usdc",
                 PFloat (py_max (Zero false) (fsub raw_balance locked_value)));
                ("locked_usdc", PFloat locked_value);
                ("total_usdc", PFloat (py_max raw_balance locked_value))]))
    (fun e =>
       Ok (PDict [("available_usdc", PFloat (Zero false));
                  ("locked_usdc", PFloat (Zero false));
                  ("total_usdc", PFloat (Zero false));
                  ("error", PStr (exn_str e))])).

End Account.

End AccountService.

End ieee.

(** ** bot.py: SurvivalBot *)

(** The dict [tool_input]: a key is absent, or holds a value of the type
    that [input_schema] declares for it. *)
Record tool_input := ToolInput {
  ti_limit : option json;
  ti_min_liquidity : option json;
  ti_category : option json;
  ti_market_id : option string;
  ti_market_title : option string;
  ti_focus : option string;
  ti_side : option string;
  ti_amount : option Q
}.

(** A content block of an oracle response. [OtherBlock] is any block that
    is not a tool use and has no [text] attribute. *)
Inductive block :=
| TextBlock (text : string)
| ToolUseBlock (id name : string) (input : tool_input)
| OtherBlock.

Record tool_result := ToolResult { tool_use_id : string; content : string }.

(** The conversation. *)
Inductive message :=
| UserText (text : string)
| Assistant (blocks : list block)
| UserToolResults (results : list tool_result).

(** The calls that leave bot.py. *)
Inductive call :=
| messages_create_call (messages : list message)
| get_markets_list_call (limit min_liquidity category : json)
| get_market_detail_call (market_id : string)
| get_research_result_call (market_id : string)
| research_market_and_save_call (market_id market_title : string) (focus : option string)
| get_balance_call
| get_my_positions_call
| buy_call (slug : json) (outcome : string) (amount : Q)
| read_summary_call
| write_summary_call (summary : string)
| save_cycle_call (summary : string).

(** What the bot's state records, in the order made: a call that left
    bot.py and returned or raised, a verdict of [check_bet], a call of
    [record_bet]. *)
Inductive event :=
| Returned (c : call)
| Raised (c : call) (e : exn)
| Checked (amount : Q) (allowed : bool) (message : string)
| Recorded (amount : Q).

(** The collaborators of the bot over a world it cannot see into: the
    network, the files and the clock. Each call takes the world and gives
    it back with what it returned or raised; what it returns is a JSON
    value.
    - [json_dumps]: [json.dumps];
    - [today]: [date.today().isoformat()];
    - [messages_create]: [self.client.messages.create(...)], its [content];
    - [get_markets_list], [get_market_detail]: the functions of markets.py;
    - [get_research_result], [research_market_and_save]: the convenience
      functions of research.py;
    - [account_get_balance], [account_get_my_positions]: the methods of
      [self.account];
    - [trader_buy]: [self.trader.buy(slug, outcome=outcome, amount=amount)];
    - [read_summary]: [open("last_summary.txt").read().strip()];
    - [write_summary]: the write of [last_summary.txt];
    - [save_cycle_to_db]: [self._save_cycle_to_db(summary)]. *)
Record collaborators (World : Type) := {
  json_dumps : json -> string;
  today : World -> string;
  messages_create : list message -> World -> pyresult (list block) * World;
  get_markets_list : json -> json -> json -> World -> pyresult json * World;
  get_market_detail : string -> World -> pyresult json * World;
  get_research_result : string -> World -> pyresult json * World;
  research_market_and_save :
    string -> string -> option string -> World -> pyresult json * World;
  account_get_balance : World -> pyresult json * World;
  account_get_my_positions : World -> pyresult json * World;
  trader_buy : json -> string -> Q -> World -> pyresult json * World;
  read_summary : World -> pyresult string * World;
  write_summary : string -> World -> pyresult unit * World;
  save_cycle_to_db : string -> World -> pyresult unit * World
}.
Arguments json_dumps {World} _ _.
Arguments today {World} _ _.
Arguments messages_create {World} _ _ _.
Arguments get_markets_list {World} _ _ _ _ _.
Arguments get_market_detail {World} _ _ _.
Arguments get_research_result {World} _ _ _.
Arguments research_market_and_save {World} _ _ _ _ _.
Arguments account_get_balance {World} _ _.
Arguments account_get_my_positions {World} _ _.
Arguments trader_buy {World} _ _ _ _ _.
Arguments read_summary {World} _ _.
Arguments write_summary {World} _ _ _.
Arguments save_cycle_to_db {World} _ _ _.

(** The bot: the world, the calls made so far, and the attributes
    [research_count] and [risk_manager.daily_bets]. *)
Record state (World : Type) := State {
  world : World;
  calls : list event;
  research_count : nat;
  daily_bets : gmap string Q
}.
Arguments State {World} _ _ _ _.
Arguments world {World} _.
Arguments calls {World} _.
Arguments research_count {World} _.
Arguments daily_bets {World} _.

(** A method of the bot: it runs on a state, returns or raises, and
    leaves a state; what it changed before raising stays changed. *)
Definition M (World A : Type) : Type := state World -> pyresult A * state World.

#[export] Instance M_ret {World} : MRet (M World) := fun _ a s => (Ok a, s).
#[export] Instance M_bind {World} : MBind (M World) := fun _ _ f m s =>
  match m s with
  | (Ok a, s') => f a s'
  | (Raise e, s') => (Raise e, s')
  end.

Definition raise {World A} (e : exn) : M World A := fun s => (Raise e, s).

(** A computation that does not touch the bot. *)
Definition lift {World A} (r : pyresult A) : M World A := fun s => (r, s).

(** [try: body  except Exception as e: handler] *)
Definition try_except {World A} (body : M World A) (handler : exn -> M World A)
    : M World A := fun s =>
  match body s with
  | (Ok a, s') => (Ok a, s')
  | (Raise e, s') => handler e s'
  end.

Definition log {World} (ev : event) (s : state World) : state World :=
  State (world s) (calls s ++ [ev]) (research_count s) (daily_bets s).

(** Call a collaborator. *)
Definition ext {World A} (c : call) (f : World -> pyresult A * World) : M World A :=
  fun s =>
    let '(r, w) := f (world s) in
    (r, log (match r with Ok _ => Returned c | Raise e => Raised c e end)
            (State w (calls s) (research_count s) (daily_bets s))).

(** [self.research_count] and [self.research_count += 1] *)
Definition get_research_count {World} : M World nat :=
  fun s => (Ok (research_count s), s).

Definition increment_research_count {World} : M World unit :=
  fun s => (Ok tt, State (world s) (calls s) (research_count s + 1) (daily_bets s)).

(** [d[key]] *)
Definition subscript {World A} (field : option A) (key : string) : M World A :=
  match field with
  | Some v => mret v
  | None => raise (Exception "KeyError" ("'" +:+ key +:+ "'"))
  end.

Definition mapM {World A B} (f : A -> M World B) : list A -> M World (list B) :=
  fix go l :=
    match l with
    | [] => mret []
    | a :: l' => b ← f a; bs ← go l'; mret (b :: bs)
    end.

Definition nl : string := String (Ascii.ascii_of_nat 10) "".

Definition max_iterations : nat := 20.

Definition ceiling_report : string := "⚠️ Maximum iterations reached".

Definition error_payload (message : string) : json :=
  JObj [("error", JStr message)].

Definition failure_payload (message : string) : json :=
  JObj [("success", JBool false); ("message", JStr message)].

Definition research_limit_message : string :=
  "Research limit (" +:+ pretty config.MAX_RESEARCH_PER_CYCLE +:+ ") reached this cycle".

Definition dry_run_balance : json :=
  JObj [("available_usdc", JNum 100.0); ("locked_usdc", JNum 0.0);
        ("total_usdc", JNum 100.0)].

(** The tool uses of a response, in the order returned:
    [[b for b in response.content if b.type == "tool_use"]] *)
Definition tool_uses (content : list block) : list (string * string * tool_input) :=
  omap (fun b => match b with
                 | ToolUseBlock id name input => Some (id, name, input)
                 | _ => None
                 end) content.

(** ["".join(b.text for b in response.content if hasattr(b, "text"))] *)
Definition final_text (content : list block) : string :=
  foldr String.app ""
    (omap (fun b => match b with TextBlock text => Some text | _ => None end) content).

Definition _build_user_message (last_summary : option string) : string :=
  match last_summary with
  | Some summary =>
      if String.eqb summary "" then
        "Start this trading cycle. (First run, no previous summary)"
      else
        "## Previous Cycle Summary" +:+ nl +:+ summary +:+ nl +:+ nl +:+ "---" +:+ nl +:+
        "Start this trading cycle. Review the previous summary above and continue from where you left off." +:+ nl
  | None => "Start this trading cycle. (First run, no previous summary)"
  end.

Section SurvivalBot.
Context {World : Type}.
Variable E : collaborators World.
(** [self.dry_run] *)
Variable dry_run : bool.

Local Abbreviation M := (M World).

(** [self.risk_manager.check_bet(...)] *)
Definition risk_manager_check_bet (amount : Q) (market_id : string) (balance : gmap string Q)
    (positions : list position) (researched : bool) : M (bool * string) :=
  fun s =>
    let verdict :=
      RiskManager.check_bet (today E (world s)) (daily_bets s)
        amount market_id balance positions researched in
    (Ok verdict, log (Checked amount verdict.1 verdict.2) s).

(** [self.risk_manager.record_bet(amount)] *)
Definition risk_manager_record_bet (amount : Q) : M unit :=
  fun s =>
    (Ok tt,
     log (Recorded amount)
       (State (world s) (calls s) (research_count s)
          (RiskManager.record_bet (today E (world s)) amount (daily_bets s)))).

Definition dumps (j : json) : M string := mret (json_dumps E j).

Definition _execute_bet (market_id side : string) (amount : Q) : M string :=
  '(balance, positions) ←
    (if dry_run then mret (dry_run_balance, JList [])
     else
       balance ← ext get_balance_call (account_get_balance E);
       positions ← ext get_my_positions_call (account_get_my_positions E);
       mret (balance, positions));
  research ← ext (get_research_result_call market_id) (get_research_result E market_id);
  let researched := is_not_None research in
  '(allowed, message) ←
    risk_manager_check_bet amount market_id (balance_of balance) (positions_of positions)
      researched;
  if negb allowed then dumps (failure_payload message)
  else if dry_run then
    dumps (JObj [("success", JBool true); ("order_id", JStr "DRY_RUN");
                 ("filled_amount", JNum amount); ("filled_price", JNum 0.50);
                 ("message", JStr "[DRY RUN] Bet would be placed")])
  else
    market ← ext (get_market_detail_call market_id) (get_market_detail E market_id);
    if negb (truthy market) then dumps (failure_payload "Market not found")
    else
      try_except
        (let outcome := if String.eqb side "YES" then "UP" else "DOWN" in
         slug ← lift (py_get market "slug" (JStr ""));
         if negb (truthy slug) then dumps (failure_payload "Market slug not found")
         else
           result ← ext (buy_call slug outcome amount) (trader_buy E slug outcome amount);
           risk_manager_record_bet amount;;
           order_id ← lift (py_get result "orderID" (JStr "unknown"));
           filled_price ← lift (py_get result "price" (JNum 0));
           dumps (JObj [("success", JBool true); ("order_id", order_id);
                        ("filled_amount", JNum amount); ("filled_price", filled_price);
                        ("message", JStr "Bet placed successfully")]))
        (fun e => dumps (failure_payload ("Trade failed: " +:+ exn_str e))).

(** The body of the [try] of [execute_tool]. *)
Definition dispatch (tool_name : string) (tool_input : tool_input) : M string :=
  if String.eqb tool_name "get_markets_list" then
    let limit := default (JNum 50) (ti_limit tool_input) in
    let min_liquidity := default (JNum 5000) (ti_min_liquidity tool_input) in
    let category := default JNull (ti_category tool_input) in
    result ← ext (get_markets_list_call limit min_liquidity category)
               (get_markets_list E limit min_liquidity category);
    dumps (JObj [("markets", result)])
  else if String.eqb tool_name "get_market_detail" then
    market_id ← subscript (ti_market_id tool_input) "market_id";
    result ← ext (get_market_detail_call market_id) (get_market_detail E market_id);
    dumps result
  else if String.eqb tool_name "get_research_result" then
    market_id ← subscript (ti_market_id tool_input) "market_id";
    result ← ext (get_research_result_call market_id) (get_research_result E market_id);
    dumps result
  else if String.eqb tool_name "research_market_and_save" then
    count ← get_research_count;
    if (config.MAX_RESEARCH_PER_CYCLE <=? count)%nat then
      dumps (error_payload research_limit_message)
    else
      market_id ← subscript (ti_market_id tool_input) "market_id";
      market_title ← subscript (ti_market_title tool_input) "market_title";
      let focus := ti_focus tool_input in
      result ← ext (research_market_and_save_call market_id market_title focus)
                 (research_market_and_save E market_id market_title focus);
      increment_research_count;;
      dumps result
  else if String.eqb tool_name "get_balance" then
    if dry_run then
      dumps (JObj [("available_usdc", JNum 100.0); ("locked_usdc", JNum 0.0);
                   ("total_usdc", JNum 100.0);
                   ("note", JStr "[DRY RUN] Simulated balance")])
    else
      result ← ext get_balance_call (account_get_balance E);
      dumps result
  else if String.eqb tool_name "get_my_positions" then
    if dry_run then
      dumps (JObj [("positions", JList []); ("note", JStr "[DRY RUN] Simulated")])
    else
      result ← ext get_my_positions_call (account_get_my_positions E);
      dumps (JObj [("positions", result)])
  else if String.eqb tool_name "place_bet" then
    market_id ← subscript (ti_market_id tool_input) "market_id";
    side ← subscript (ti_side tool_input) "side";
    amount ← subscript (ti_amount tool_input) "amount";
    _execute_bet market_id side amount
  else
    dumps (error_payload ("Unknown tool: " +:+ tool_name)).

Definition execute_tool (tool_name : string) (tool_input : tool_input) : M string :=
  try_except (dispatch tool_name tool_input)
    (fun e => dumps (error_payload (exn_str e))).

Definition _load_last_summary : M (option string) :=
  try_except
    (text ← ext read_summary_call (read_summary E); mret (Some text))
    (fun _ => mret None).

Definition _save_summary (summary : string) : M unit :=
  try_except (ext (write_summary_call summary) (write_summary E summary))
    (fun _ => mret tt);;
  try_except (ext (save_cycle_call summary) (save_cycle_to_db E summary))
    (fun _ => mret tt).

(** One oracle request's tool uses, run in the order returned. *)
Definition run_tools (uses : list (string * string * tool_input)) : M (list tool_result) :=
  mapM (fun use : string * string * tool_input =>
          result ← execute_tool use.1.2 use.2;
          mret {| tool_use_id := use.1.1; content := result |}) uses.

(** The [while iteration < max_iterations] loop with
    [remaining = max_iterations - iteration]. *)
Fixpoint turns (remaining : nat) (messages : list message) : M string :=
  match remaining with
  | O => mret ceiling_report
  | S remaining' =>
      content ← ext (messages_create_call messages) (messages_create E messages);
      match tool_uses content with
      | [] =>
          let text := final_text content in
          _save_summary text;;
          mret text
      | uses =>
          tool_results ← run_tools uses;
          turns remaining' (messages ++ [Assistant content; UserToolResults tool_results])
      end
  end.

Definition run_cycle : M string :=
  last_summary ← _load_last_summary;
  turns max_iterations [UserText (_build_user_message last_summary)].

End SurvivalBot.

(** ** Reading the record of calls *)

Definition is_oracle_call (ev : event) : bool :=
  match ev with
  | Returned (messages_create_call _) | Raised (messages_create_call _) _ => true
  | _ => false
  end.

Definition is_research_call (ev : event) : bool :=
  match ev with
  | Returned (research_market_and_save_call _ _ _)
  | Raised (research_market_and_save_call _ _ _) _ => true
  | _ => false
  end.

(** Turns of the decision loop: requests sent to the oracle. *)
Definition oracle_calls (evs : list event) : nat :=
  length (List.filter is_oracle_call evs).

(** Invocations of the paid research path. *)
Definition research_calls (evs : list event) : nat :=
  length (List.filter is_research_call evs).

(** Invocations of the paid research path that returned. *)
Definition is_research_return (ev : event) : bool :=
  match ev with
  | Returned (research_market_and_save_call _ _ _) => true
  | _ => false
  end.

Definition research_returns (evs : list event) : nat :=
  length (List.filter is_research_return evs).

Definition quiet (ev : event) : Prop := is_oracle_call ev = false.

(** [m] only appends to the record of calls, and what it appends
    satisfies [P]. *)
Definition emits {World A} (P : event -> Prop) (m : M World A) : Prop :=
  forall s r s', m s = (r, s') ->
    exists evs, calls s' = calls s ++ evs /\ Forall P evs.

(** [m] only appends to the record of calls, raises [research_count] by
    the number of research invocations that returned, and does not take
    it beyond the limit, or beyond where it was. *)
Definition tallies {World A} (m : M World A) : Prop :=
  forall s r s', m s = (r, s') ->
    exists evs, calls s' = calls s ++ evs
      /\ research_count s' = (research_count s + research_returns evs)%nat
      /\ (research_count s'
          <= Nat.max config.MAX_RESEARCH_PER_CYCLE (research_count s))%nat.

(** Whatever [m] returns is the text of a JSON value. *)
Definition yields_json {World} (E : collaborators World) (m : M World string) : Prop :=
  forall s out s', m s = (Ok out, s') -> exists j, out = json_dumps E j.

(** An oracle that answers every request with at least one tool use. *)
Definition always_tool_use {World} (E : collaborators World) : Prop :=
  forall messages w, exists content w',
    messages_create E messages w = (Ok content, w') /\ tool_uses content <> [].

(** The names [execute_tool] dispatches on. *)
Definition tool_names : list string :=
  ["get_markets_list"; "get_market_detail"; "get_research_result";
   "research_market_and_save"; "get_balance"; "get_my_positions"; "place_bet"].

(** The ledger after [record_bet] was called with each of [amounts] in
    turn on one day. *)
Definition ledger_after (today : string) (daily : gmap string Q) (amounts : list Q)
    : gmap string Q :=
  foldl (fun d a => RiskManager.record_bet today a d) daily amounts.

Definition balance_dict (available total : Q) : gmap string Q :=
  {[ "available_usdc" := available; "total_usdc" := total ]}.

(** ** What a method keeps *)

(** [m] takes the bot to a state that [R] relates to the one it started
    from, whether it returns or raises. *)
Definition preserves {World A} (R : relation (state World)) (m : M World A) : Prop :=
  forall s r s', m s = (r, s') -> R s s'.

(** The event a call leaves in the record. *)
Definition outcome_of {A} (c : call) (r : pyresult A) : event :=
  match r with Ok _ => Returned c | Raise e => Raised c e end.

(** An order sent to the exchange. *)
Definition is_buy (ev : event) : bool :=
  match ev with
  | Returned (buy_call _ _ _) | Raised (buy_call _ _ _) _ => true
  | _ => false
  end.

(** What acts on the live account: a call of the account service or of
    the trader, and an entry in the ledger. *)
Definition is_live (ev : event) : bool :=
  match ev with
  | Returned get_balance_call | Raised get_balance_call _
  | Returned get_my_positions_call | Raised get_my_positions_call _
  | Recorded _ => true
  | _ => is_buy ev
  end.

(** The two writes of [_save_summary]. *)
Definition is_summary_call (ev : event) : bool :=
  match ev with
  | Returned (write_summary_call _) | Raised (write_summary_call _) _
  | Returned (save_cycle_call _) | Raised (save_cycle_call _) _ => true
  | _ => false
  end.

(** A request to the oracle that raised. *)
Definition is_oracle_failure (ev : event) : bool :=
  match ev with
  | Raised (messages_create_call _) _ => true
  | _ => false
  end.

(** The ledger is as it was; the research counter is as it was. *)
Definition same_ledger {World} (s s' : state World) : Prop :=
  daily_bets s' = daily_bets s.

Definition same_count {World} (s s' : state World) : Prop :=
  research_count s' = research_count s.

(** If day [d] was within the daily limit, it still is. *)
Definition within_cap {World} (d : string) (s s' : state World) : Prop :=
  RiskManager.get0 (daily_bets s) d <= config.MAX_DAILY_BETS ->
  RiskManager.get0 (daily_bets s') d <= config.MAX_DAILY_BETS.

(** The record of calls has grown, and if the research counter stood at
    the limit it has not moved and no research was invoked. *)
Definition gate_stays_closed {World} (s s' : state World) : Prop :=
  exists evs, calls s' = calls s ++ evs
    /\ ((config.MAX_RESEARCH_PER_CYCLE <= research_count s)%nat ->
        research_count s' = research_count s /\ research_calls evs = 0%nat).

(** The record of calls has grown by nothing live, and the ledger is as
    it was. *)
Definition not_live {World} (s s' : state World) : Prop :=
  daily_bets s' = daily_bets s
  /\ exists evs, calls s' = calls s ++ evs /\ Forall (fun ev => is_live ev = false) evs.

(** [R], in a dry run. *)
Definition in_dry_run {World} (dry_run : bool) (R : relation (state World))
    : relation (state World) :=
  fun s s' => dry_run = true -> R s s'.

(** An event of a tool handler: neither a turn of the loop nor a write
    of the summary. *)
Definition is_tool_event (ev : event) : bool :=
  negb (is_oracle_call ev) && negb (is_summary_call ev).

(** ** Example worlds *)

Definition quote : string := String (Ascii.ascii_of_nat 34) "".

(** A JSON writer for the example worlds: numbers with two decimals,
    strings unescaped. The theorems hold for every writer. *)
Fixpoint example_dumps (j : json) : string :=
  match j with
  | JNull => "null"
  | JBool b => if b then "true" else "false"
  | JNum q => format_2f q
  | JStr s => quote +:+ s +:+ quote
  | JList l =>
      "[" +:+
      (fix items (l : list json) : string :=
         match l with
         | [] => ""
         | [x] => example_dumps x
         | x :: l' => example_dumps x +:+ ", " +:+ items l'
         end) l +:+ "]"
  | JObj kv =>
      "{" +:+
      (fix items (kv : list (string * json)) : string :=
         match kv with
         | [] => ""
         | [(k, x)] => quote +:+ k +:+ quote +:+ ": " +:+ example_dumps x
         | (k, x) :: kv' =>
             quote +:+ k +:+ quote +:+ ": " +:+ example_dumps x +:+ ", " +:+ items kv'
         end) kv +:+ "}"
  end.

(** The dicts of research.py as JSON objects. A time is written as its
    number of microseconds. *)
Definition record_json (r : option ResearchService.research_record) : json :=
  match r with
  | None => JNull
  | Some r =>
      JObj [("market_id", JStr (ResearchService.market_id r));
            ("market_title", JStr (ResearchService.market_title r));
            ("research_time", JNum (inject_Z (ResearchService.research_time r)));
            ("summary", JStr (ResearchService.summary r));
            ("estimated_probability", JNum (ResearchService.estimated_probability r));
            ("confidence", JNum (ResearchService.confidence r));
            ("key_factors", ResearchService.key_factors r);
            ("sources", ResearchService.sources r)]
  end.

Definition entry (key : string) (value : option json) : list (string * json) :=
  match value with
  | Some j => [(key, j)]
  | None => []
  end.

Definition result_json (r : ResearchService.research_result) : json :=
  JObj (entry "summary" (JStr <$> ResearchService.res_summary r) ++
        entry "estimated_probability" (JNum <$> ResearchService.res_estimated_probability r) ++
        entry "confidence" (JNum <$> ResearchService.res_confidence r) ++
        entry "key_factors" (ResearchService.res_key_factors r) ++
        entry "sources" (ResearchService.res_sources r)).

(** The clock of the example worlds stands one hour after the epoch. *)
Definition example_utcnow : Z := ResearchService.timedelta_hours 1.

(** A world that is the research database: the research functions are
    those of research.py, on a paid research that ends as given; the
    oracle answers from the conversation, every market is tradable, the
    account holds 100 USDC, and the order submission ends as given. *)
Definition example_world (oracle : list message -> list block)
    (web : pyresult ResearchService.research_result) (buy : pyresult json)
    : collaborators ResearchService.database := {|
  json_dumps := example_dumps;
  today := fun _ => "2026-01-01";
  messages_create := fun messages w => (Ok (oracle messages), w);
  get_markets_list := fun _ _ _ w => (Ok (JList []), w);
  get_market_detail := fun market_id w =>
    (Ok (JObj [("id", JStr market_id); ("slug", JStr "will-it-rain")]), w);
  get_research_result := fun market_id d =>
    let '(r, d') := ResearchService.get_research_result example_utcnow market_id d in
    (Ok (record_json r), d');
  research_market_and_save := fun market_id market_title focus d =>
    let '(r, d') :=
      ResearchService.research_market_and_save (fun _ _ _ => web)
        example_utcnow market_id market_title focus None d in
    (match r with Ok result => Ok (result_json result) | Raise e => Raise e end, d');
  account_get_balance := fun w =>
    (Ok (JObj [("available_usdc", JNum 100); ("locked_usdc", JNum 0);
               ("total_usdc", JNum 100)]), w);
  account_get_my_positions := fun w => (Ok (JList []), w);
  trader_buy := fun _ _ _ w => (buy, w);
  read_summary := fun w =>
    (Raise (Exception "FileNotFoundError" "No such file or directory"), w);
  write_summary := fun _ w => (Ok tt, w);
  save_cycle_to_db := fun _ w => (Ok tt, w)
|}.

Definition research_found : pyresult ResearchService.research_result :=
  Ok {| ResearchService.res_summary := Some "Unclear";
        ResearchService.res_estimated_probability := Some 0.5;
        ResearchService.res_confidence := Some 0.3;
        ResearchService.res_key_factors := Some (JList [JStr "clouds"]);
        ResearchService.res_sources := Some (JList []) |}.

Definition order_accepted : pyresult json :=
  Ok (JObj [("orderID", JStr "0xabc"); ("price", JNum 0.60)]).

Definition order_refused : pyresult json :=
  Raise (Exception "PolyApiException" "not enough balance / allowance").

(** A cache with one record, researched at time 0. *)
Definition example_table : gmap string ResearchService.row :=
  {[ "market-1" :=
       {| ResearchService.row_market_title := "Will it rain?";
          ResearchService.row_research_time := 0;
          ResearchService.row_summary := "Unclear";
          ResearchService.row_estimated_probability := 0.5;
          ResearchService.row_confidence := 0.3;
          ResearchService.row_key_factors := Some (JList [JStr "clouds"]);
          ResearchService.row_sources := Some (JList []) |} ]}.

Definition example_db : ResearchService.database :=
  {| ResearchService.table := example_table; ResearchService.readonly := false |}.

Definition readonly_db : ResearchService.database :=
  {| ResearchService.table := example_table; ResearchService.readonly := true |}.

(** A freshly built bot on a database it can write, and one on a
    database file that is read-only. *)
Definition fresh_bot : state ResearchService.database := State example_db [] 0 ∅.

Definition stuck_bot : state ResearchService.database := State readonly_db [] 0 ∅.

Definition no_arguments : tool_input :=
  ToolInput None None None None None None None None.

Definition research_request (market_id market_title : string) : tool_input :=
  ToolInput None None None (Some market_id) (Some market_title) None None None.

(** An oracle that asks for the balance on every turn. *)
Definition polling_oracle (messages : list message) : list block :=
  [TextBlock "Checking funds."; ToolUseBlock "toolu_01" "get_balance" no_arguments].

(** An oracle that reports at once. *)
Definition idle_oracle (messages : list message) : list block :=
  [TextBlock "No bets this cycle."].

(** An oracle that asks for six researches in its first turn and reports
    in its second. *)
Definition eager_oracle (messages : list message) : list block :=
  match messages with
  | [_] =>
      (fun i : nat =>
         ToolUseBlock ("toolu_0" +:+ pretty i) "research_market_and_save"
           (research_request ("market-" +:+ pretty i) "Will it rain?")) <$> seq 1 6
  | _ => [TextBlock "Researched."]
  end.

(** A book with three levels on each side. *)
Definition example_book : PolymarketTrader.OrderBookSummary := {|
  PolymarketTrader.bids :=
    Some [ {| PolymarketTrader.level_price := 0.48; PolymarketTrader.level_size := 10 |};
           {| PolymarketTrader.level_price := 0.45; PolymarketTrader.level_size := 25 |};
           {| PolymarketTrader.level_price := 0.40; PolymarketTrader.level_size := 50 |} ];
  PolymarketTrader.asks :=
    Some [ {| PolymarketTrader.level_price := 0.52; PolymarketTrader.level_size := 10 |};
           {| PolymarketTrader.level_price := 0.55; PolymarketTrader.level_size := 25 |};
           {| PolymarketTrader.level_price := 0.60; PolymarketTrader.level_size := 50 |} ]
|}.

Definition bet_request (market_id side : string) (amount : Q) : tool_input :=
  ToolInput None None None (Some market_id) None None (Some side) (Some amount).

(** An oracle that stakes 15 USD on market-1 on every turn. *)
Definition betting_oracle (messages : list message) : list block :=
  [ToolUseBlock "toolu_01" "place_bet" (bet_request "market-1" "YES" 15)].

(** A bot whose research counter stands at the limit. *)
Definition spent_bot : state ResearchService.database :=
  State example_db [] config.MAX_RESEARCH_PER_CYCLE ∅.

(** A reader of numerals for the examples: it knows two. *)
Definition example_float_of_str (s : string) : option Q :=
  if String.eqb s "12.5" then Some 12.5
  else if String.eqb s "80000000" then Some 80000000
  else None.

(** An answer of the positions API: a position worth 12.50 USD, one
    worth nothing, and one worth 12.50 USD whose initial value and size
    are missing. *)
Definition example_positions : json :=
  JList [ JObj [("eventId", JStr "market-1"); ("title", JStr "Will it rain?");
                ("outcome", JStr "Yes"); ("currentValue", JNum 12.5);
                ("initialValue", JNum 10); ("curPrice", JNum 0.625); ("size", JNum 20)];
          JObj [("eventId", JStr "market-2"); ("currentValue", JNum 0)];
          JObj [("eventId", JStr "market-3"); ("currentValue", JStr "12.5");
                ("initialValue", JNull); ("size", JNum 0)] ].

(** [str.lower] for the examples: it lowers the capitals A to Z. *)
Definition example_lower_char (c : Ascii.ascii) : Ascii.ascii :=
  let n := Ascii.nat_of_ascii c in
  if (65 <=? n)%nat && (n <=? 90)%nat then Ascii.ascii_of_nat (n + 32) else c.

Fixpoint example_lower (s : string) : string :=
  match s with
  | EmptyString => EmptyString
  | String c rest => String (example_lower_char c) (example_lower rest)
  end.

(** [json.loads] for the examples: it knows one text. *)
Definition example_json_loads (s : string) : pyresult json :=
  if String.eqb s "[0.35, 0.65]" then Ok (JList [JNum 0.35; JNum 0.65])
  else Raise (Exception "JSONDecodeError" "Expecting value: line 1 column 1 (char 0)").

(** Three events: an election market, a price market of fifteen minutes,
    and a science market. *)
Definition example_election : json :=
  JObj [("id", JStr "101"); ("slug", JStr "Election-2028");
        ("title", JStr "Who wins in 2028?"); ("liquidity", JNum 80000);
        ("volume24hr", JNum 1200); ("endDate", JStr "2028-11-07");
        ("description", JStr "Resolves after the election.");
        ("tags", JList [JObj [("slug", JStr "World")];
                        JObj [("slug", JStr "Politics")]]);
        ("markets", JList [JObj [("active", JBool true); ("closed", JBool false);
                                 ("outcomePrices", JList [JNum 0.4; JNum 0.6]);
                                 ("outcomes", JNull)]])].

Definition example_updown : json :=
  JObj [("id", JStr "102"); ("slug", JStr "btc-updown-15m-1700000000");
        ("title", JStr "Bitcoin up or down"); ("liquidity", JNum 90000);
        ("tags", JList [JObj [("slug", JStr "crypto")]]);
        ("markets", JList [JObj [("active", JBool true); ("closed", JBool false)]])].

Definition example_fusion : json :=
  JObj [("id", JStr "103"); ("slug", JStr "fusion-2030");
        ("title", JStr "Fusion power by 2030?"); ("liquidity", JStr "80000000");
        ("tags", JList [JObj [("slug", JStr "science")]]);
        ("markets", JList [JObj [("id", JStr "0x67"); ("active", JBool true);
                                 ("closed", JBool false);
                                 ("outcomePrices", JStr "[0.35, 0.65]");
                                 ("outcomes", JList [JStr "Sooner"; JStr "Later"])]])].

(** An answer of the events API for a list, and the answers for one
    event. *)
Definition example_events : json :=
  JList [example_election; example_updown; example_fusion].

Definition example_fetch_event (market_id : string) : pyresult json :=
  if String.eqb market_id "101" then Ok example_election
  else if String.eqb market_id "103" then Ok example_fusion
  else Raise (Exception "HTTPError" "404 Client Error: Not Found").

(** What [get_markets_list] lists of it with a limit of two, for every
    category and for politics. *)
Definition example_politics_listed : list json :=
  [ JObj [("id", JStr "101"); ("slug", JStr "Election-2028");
          ("title", JStr "Who wins in 2028?"); ("category", JStr "politics");
          ("price", JNum 0.4); ("volume_24h", JNum 1200);
          ("liquidity", JNum 80000); ("end_date", JStr "2028-11-07");
          ("description", JStr "Resolves after the election.")] ].

Definition example_markets_listed : list json :=
  example_politics_listed
  ++ [ JObj [("id", JStr "103"); ("slug", JStr "fusion-2030");
             ("title", JStr "Fusion power by 2030?"); ("category", JStr "science");
             ("price", JNum 0.35); ("volume_24h", JNum 0);
             ("liquidity", JNum 80000000); ("end_date", JNull);
             ("description", JStr "")] ].

(** What [get_market_detail] gives for the science market. *)
Definition example_detail : json :=
  JObj [("id", JStr "103"); ("slug", JStr "fusion-2030");
        ("title", JStr "Fusion power by 2030?");
        ("description", JStr ""); ("rules", JStr "");
        ("price", JNum 0.35); ("volume", JNum 0);
        ("liquidity", JNum 80000000); ("end_date", JNull);
        ("created_date", JNull);
        ("outcomes",
         JList [JObj [("name", JStr "Sooner"); ("price", JNum 0.35)];
                JObj [("name", JStr "Later"); ("price", JNum 0.65)]]);
        ("market_id", JStr "0x67"); ("condition_id", JNull);
        ("accepting_orders", JBool false)].

(** A book that lists the best price of each side last. *)
Definition best_last_book : PolymarketTrader.OrderBookSummary := {|
  PolymarketTrader.bids :=
    Some [ {| PolymarketTrader.level_price := 0.40; PolymarketTrader.level_size := 50 |};
           {| PolymarketTrader.level_price := 0.45; PolymarketTrader.level_size := 25 |};
           {| PolymarketTrader.level_price := 0.48; PolymarketTrader.level_size := 10 |} ];
  PolymarketTrader.asks :=
    Some [ {| PolymarketTrader.level_price := 0.60; PolymarketTrader.level_size := 50 |};
           {| PolymarketTrader.level_price := 0.55; PolymarketTrader.level_size := 25 |};
           {| PolymarketTrader.level_price := 0.52; PolymarketTrader.level_size := 10 |} ]
|}.


(** A reader of numerals for the examples on floats: it knows three. *)
Definition example_float_parser (s : string) : option binary64.float :=
  if String.eqb s "12.5" then Some (binary64.literal 12.5)
  else if String.eqb s "80000000" then Some (binary64.literal 80000000)
  else if String.eqb s "nan" then Some binary64.NaN
  else None.

(** An answer of the positions API: a position worth 12.50 USD, one
    worth nothing, one whose value reads "nan", and one worth 0.25 USD
    whose initial value and size are missing. *)
Definition example_float_holdings : ieee.pyobj :=
  ieee.PList
    [ ieee.PDict [("eventId", ieee.PStr "market-1"); ("title", ieee.PStr "Will it rain?");
                  ("outcome", ieee.PStr "Yes"); ("currentValue", ieee.PStr "12.5");
                  ("initialValue", ieee.PInt 10);
                  ("curPrice", ieee.PFloat (binary64.literal 0.625));
                  ("size", ieee.PInt 20)];
      ieee.PDict [("eventId", ieee.PStr "market-2"); ("currentValue", ieee.PInt 0)];
      ieee.PDict [("eventId", ieee.PStr "market-3");
                  ("currentValue", ieee.PFloat (binary64.literal 0.25));
                  ("initialValue", ieee.PNone); ("size", ieee.PInt 0)] ].

Definition example_float_positions : ieee.pyobj :=
  match example_float_holdings with
  | ieee.PList holdings =>
      ieee.PList (holdings ++ [ieee.PDict [("eventId", ieee.PStr "market-4");
                                           ("currentValue", ieee.PStr "nan")]])
  | other => other
  end.

(** * Theorems *)

(** ** Comparisons of numbers *)

Lemma Qltb_lt (x y : Q) : Qltb x y = true <-> x < y.
Proof. unfold Qltb, Qlt. apply Z.ltb_lt. Qed.

Lemma Qltb_ge (x y : Q) : Qltb x y = false <-> y <= x.
Proof. unfold Qltb, Qle. apply Z.ltb_ge. Qed.

Lemma Qle_bool_Qltb (x y : Q) : Qle_bool x y = negb (Qltb y x).
Proof. unfold Qle_bool, Qltb. apply Z.leb_antisym. Qed.

(** ** Floats *)

Section Floats.
Import binary64.











Lemma round64_not_nan negative q : is_nan (round64 negative q) = false.
Proof.
  unfold round64. destruct (Qeq_bool q 0); [done|].
  destruct (_ =? 0)%Z; [done|]. by destruct (Qle_bool _ _).
Qed.



(** Adding a finite number never gives NaN. *)
Lemma fadd_not_nan x y :
  is_nan x = false -> is_finite y = true -> is_nan (fadd x y) = false.
Proof.
  destruct x as [sx|a|sx|], y as [sy|b|sy|]; try done; intros _ _.
  apply round64_not_nan.
Qed.



(** The sum from the left of finite numbers is a number. *)
Lemma sum_left_not_nan (values : list float) :
  Forall (fun v => is_finite v = true) values ->
  is_nan (ieee.sum_left values) = false.
Proof.
  unfold ieee.sum_left. generalize (Zero false) (eq_refl : is_nan (Zero false) = false).
  induction values as [|v values IH]; intros start Hs Hv; [done|].
  apply Forall_cons in Hv as [Hv Hvs]. simpl. apply IH; [|done].
  by apply fadd_not_nan.
Qed.

(** The rounding at work: 0.1 is the float next to it; [0.7 / 0.1] is
    just below 7 and [3 * 0.2] just above 0.6, while [0.7 - 0.1] is 0.6;
    [0.1 + 0.2] prints with seventeen digits; and an [int] is rounded to
    53 bits. *)
Lemma rounding_examples :
  literal 0.1 = Finite (3602879701896397 # 36028797018963968)
  /\ fdiv (literal 0.7) (literal 0.1) = literal 6.999999999999999
  /\ fmul (literal 3) (literal 0.2) = literal 0.6000000000000001
  /\ fsub (literal 0.7) (literal 0.1) = literal 0.6
  /\ Decimal_of_str (fadd (literal 0.1) (literal 0.2)) = DFinite false 30000000000000004 (-17)
  /\ Decimal_of_str (literal 0.3) = DFinite false 3 (-1)
  /\ literal 9007199254740993 = literal 9007199254740992.
Proof. repeat split; vm_compute; reflexivity. Qed.

End Floats.

(** ** The risk gate on floats *)

Section FloatGate.
Import binary64 ieee ieee.RiskManager.
Variable sum : list float -> float.


(** NaN fails no comparison: on a researched market a NaN amount passes
    every rule of the code. *)
Lemma check_bet_approves_nan today (daily : gmap string float) market_id
    (bal : gmap string float) positions :
  check_bet sum today daily NaN market_id bal positions true = (true, "OK").
Proof.
  assert (Hadd : forall x, fadd x NaN = NaN) by (by intros []).
  assert (Hl : forall x, flt NaN x = false) by done.
  assert (Hr : forall x, flt x NaN = false) by (by intros []).
  unfold check_bet, fgt, fsub. cbn [negb fopp].
  by rewrite !Hadd, !Hl, !Hr.
Qed.

End FloatGate.


(** ** Rounding and decimals *)

Section Rounding.
Import binary64.





End Rounding.

Section Decimals.
Import binary64.











End Decimals.

(** ** The order builder on floats *)

Section FloatOrders.
Import binary64 ieee ieee.PolymarketTrader.






(** In floats the order can cost more than the amount it was built for:
    0.35 USD at a price of 0.01 buy 35 shares, and [0.01 * 35.0] is
    0.35000000000000003. *)
Lemma order_can_cost_more_than_amount :
  exists notional args,
    limit_order_args "token-up" PolymarketTrader.BUY (literal 0.01) (literal 0.35)
    = Ok (notional, args)
    /\ notional = literal 0.35
    /\ fgt (fmul (price args) (size args)) notional = true.
Proof. eexists _, _. split; [vm_compute; reflexivity|]. split; vm_compute; reflexivity. Qed.

(** The hypothesis on NaN is needed: a NaN amount is below no minimum,
    and the order is built with a NaN size. *)
Lemma limit_order_of_nan_amount :
  exists notional args,
    limit_order_args "token-up" PolymarketTrader.BUY (literal 0.50) NaN
    = Ok (notional, args)
    /\ size args = NaN.
Proof. eexists _, _. split; [vm_compute; reflexivity|reflexivity]. Qed.

End FloatOrders.


(** ** The risk gate *)

Section RiskGate.
Import RiskManager.

Lemma get0_available available total :
  get0 (balance_dict available total) "available_usdc" = available.
Proof. unfold get0, balance_dict. by rewrite lookup_insert_eq. Qed.

Lemma get0_total available total :
  get0 (balance_dict available total) "total_usdc" = total.
Proof.
  unfold get0, balance_dict. rewrite lookup_insert_ne by done.
  by rewrite lookup_singleton_eq.
Qed.




Lemma record_bet_get0 today amount (daily : gmap string Q) :
  get0 (record_bet today amount daily) today = get0 daily today + amount.
Proof. unfold record_bet, get0 at 1. by rewrite lookup_insert_eq. Qed.

Lemma ledger_after_snoc today daily amounts a :
  ledger_after today daily (amounts ++ [a])
  = record_bet today a (ledger_after today daily amounts).
Proof. unfold ledger_after. by rewrite foldl_app. Qed.

(** C9, as the code has it. Within a day, for every sequence of
    [record_bet] calls whose amounts are not negative, the ledger's value
    for today never decreases from one call to the next. *)
Theorem record_bet_monotone today (daily : gmap string Q) (amounts : list Q) :
  Forall (Qle 0) amounts ->
  forall n, get0 (ledger_after today daily (take n amounts)) today
            <= get0 (ledger_after today daily (take (S n) amounts)) today.
Proof.
  intros Hpos n.
  destruct (amounts !! n) as [a|] eqn:Hn.
  - rewrite (take_S_r _ _ _ Hn), ledger_after_snoc, record_bet_get0.
    assert (0 <= a).
    { rewrite Forall_forall in Hpos. apply Hpos. by eapply list_elem_of_lookup_2. }
    lra.
  - apply lookup_ge_None in Hn. rewrite !take_ge by lia. lra.
Qed.

Lemma record_bet_monotone_witness :
  Forall (Qle 0) [10; 0; 5] /\
  get0 (ledger_after "2026-01-01" ∅ (take 2 [10; 0; 5])) "2026-01-01"
  <= get0 (ledger_after "2026-01-01" ∅ (take 3 [10; 0; 5])) "2026-01-01".
Proof.
  assert (Hpos : Forall (Qle 0) [10; 0; 5]) by (repeat constructor; discriminate).
  split; [exact Hpos|].
  exact (record_bet_monotone "2026-01-01" ∅ [10; 0; 5] Hpos 2%nat).
Defined.

(** C9, as stated, fails: after an approved and recorded bet of 10 USD,
    [check_bet] approves a bet of -5 USD, and recording it lowers today's
    ledger from 10 to 5. *)
Lemma approved_bet_lowers_ledger :
  let today := "2026-01-01" in
  let after_first := record_bet today 10 ∅ in
  let after_second := record_bet today (-5) after_first in
  ~ ((check_bet today ∅ 10 "market-1" (balance_dict 100 100) [] true).1 = true ->
     (check_bet today after_first (-5) "market-1" (balance_dict 100 100) [] true).1 = true ->
     get0 after_first today <= get0 after_second today).
Proof.
  intros today after_first after_second H.
  specialize (H eq_refl eq_refl). vm_compute in H. by apply H.
Qed.

(** With 18 USD available of 100 in total, every bet above zero is
    rejected: the reserve rule leaves room for -2 at most. *)
Lemma reserve_rejects_every_positive_bet today (daily : gmap string Q) market_id
    positions amount :
  0 < amount ->
  (check_bet today daily amount market_id (balance_dict 18 100) positions true).1 = false.
Proof.
  intros Hpos. unfold check_bet. simpl negb. cbv iota.
  rewrite get0_available, get0_total.
  unfold config.MAX_SINGLE_BET, config.MIN_RESERVE_PCT.
  destruct (Qltb 15.0 amount); [done|].
  destruct (Qltb 18 amount); [done|].
  destruct (Qltb (18 - amount) (100 * 0.20)) eqn:Hres; [done|].
  apply Qltb_ge in Hres. lra.
Qed.

(** After recorded bets of 15 and 10 USD, a bet of 10 USD on the same
    day is rejected by the daily cap, although it passes the five rules
    before and would pass all six on an empty ledger. *)
Lemma third_bet_hits_daily_cap :
  let daily := ledger_after "2026-01-01" ∅ [15; 10] in
  check_bet "2026-01-01" ∅ 10 "market-1" (balance_dict 1000 1000) [] true = (true, "OK")
  /\ first_failing_rule "2026-01-01" daily 10 "market-1" (balance_dict 1000 1000) [] true
     = Some RDaily
  /\ check_bet "2026-01-01" daily 10 "market-1" (balance_dict 1000 1000) [] true
     = (false, "Daily betting limit ($30.0) reached").
Proof. repeat split; vm_compute; reflexivity. Qed.


End RiskGate.

(** ** The research cache *)

Section ResearchCache.
Import ResearchService.

(** C6. For every stored record, [get_research_result] returns [None]
    when no record exists and when the record is older than
    [CACHE_EXPIRY_HOURS]; the read leaves the table as it was, so the
    expired record is still listed by [list_all_research]; and two reads
    within the window, with no write between them, return the same
    record. *)
Theorem research_cache_expiry (d : database) (id : string) :
  (forall utcnow, table d !! id = None -> get_research_result utcnow id d = (None, d))
  /\ (forall utcnow r, table d !! id = Some r ->
        (timedelta_hours CACHE_EXPIRY_HOURS < utcnow - row_research_time r)%Z ->
        get_research_result utcnow id d = (None, d)
        /\ exists entry, entry ∈ (list_all_research d).1
             /\ entry_market_id entry = id
             /\ entry_research_time entry = row_research_time r)
  /\ (forall t1 t2 r, table d !! id = Some r ->
        (t1 - row_research_time r <= timedelta_hours CACHE_EXPIRY_HOURS)%Z ->
        (t2 - row_research_time r <= timedelta_hours CACHE_EXPIRY_HOURS)%Z ->
        exists record d1 d2,
          get_research_result t1 id d = (Some record, d1)
          /\ get_research_result t2 id d1 = (Some record, d2)).
Proof.
  unfold get_research_result. split; [|split].
  - by intros utcnow ->.
  - intros utcnow r Hr Hold. rewrite Hr. apply Z.ltb_lt in Hold. rewrite Hold.
    split; [done|].
    exists {| entry_market_id := id;
              entry_market_title := row_market_title r;
              entry_research_time := row_research_time r;
              entry_estimated_probability := row_estimated_probability r;
              entry_confidence := row_confidence r |}.
    split; [|done]. unfold list_all_research. simpl.
    apply list_elem_of_fmap. exists (id, r). split; [done|].
    by apply elem_of_map_to_list.
  - intros t1 t2 r Hr H1 H2. rewrite Hr.
    apply Z.ltb_ge in H1, H2. rewrite H1.
    eexists _, d, d. split; [reflexivity|]. by rewrite Hr, H2.
Qed.

(** A record researched at time 0 and read 25 hours later is absent and
    still listed; read after 1 hour and after 24 hours it is the same. *)
Lemma research_cache_expiry_witness :
  (get_research_result (timedelta_hours 25) "market-1" example_db = (None, example_db)
   /\ exists entry, entry ∈ (list_all_research example_db).1
        /\ entry_market_id entry = "market-1"
        /\ entry_research_time entry = 0%Z)
  /\ exists record d1 d2,
       get_research_result (timedelta_hours 1) "market-1" example_db = (Some record, d1)
       /\ get_research_result (timedelta_hours 24) "market-1" d1 = (Some record, d2).
Proof.
  pose proof (research_cache_expiry example_db "market-1") as (_ & Hexpired & Hsame).
  assert (Hrow : table example_db !! "market-1" = Some
            {| row_market_title := "Will it rain?"; row_research_time := 0;
               row_summary := "Unclear"; row_estimated_probability := 0.5;
               row_confidence := 0.3; row_key_factors := Some (JList [JStr "clouds"]);
               row_sources := Some (JList []) |}) by reflexivity.
  split.
  - exact (Hexpired (timedelta_hours 25) _ Hrow eq_refl).
  - refine (Hsame (timedelta_hours 1) (timedelta_hours 24) _ Hrow _ _); discriminate.
Defined.

(** Last write wins: on a database that can be written, a record saved
    now is the record read now. *)
Lemma save_then_get utcnow id title result d :
  readonly d = false ->
  exists d1 record,
    _save_research utcnow id title result d = (Ok tt, d1)
    /\ get_research_result utcnow id d1 = (Some record, d1)
    /\ market_title record = title /\ research_time record = utcnow.
Proof.
  intros Hw. unfold _save_research, execute_write. rewrite Hw.
  eexists _, _. split; [reflexivity|].
  unfold get_research_result. simpl. rewrite lookup_insert_eq. simpl.
  rewrite Z.sub_diag. change (timedelta_hours CACHE_EXPIRY_HOURS <? 0)%Z with false.
  repeat split.
Qed.

(** A deleted record is absent. *)
Lemma delete_then_get utcnow id d :
  readonly d = false ->
  exists d1,
    delete_research id d = (Ok tt, d1)
    /\ get_research_result utcnow id d1 = (None, d1).
Proof.
  intros Hw. unfold delete_research, execute_write. rewrite Hw.
  eexists. split; [reflexivity|].
  unfold get_research_result. simpl. by rewrite lookup_delete_eq.
Qed.

(** On a read-only file the research is made and its save raises. *)
Lemma research_raises_on_readonly web utcnow id title focus description d :
  readonly d = true ->
  research_market_and_save web utcnow id title focus description d
  = (Raise (Exception "OperationalError" "attempt to write a readonly database"), d).
Proof.
  intros Hr. unfold research_market_and_save, _save_research, execute_write.
  by rewrite Hr.
Qed.




End ResearchCache.

(** ** The order builder *)

Section OrderBuilder.
Import PolymarketTrader.






Lemma adjust_min_shares_small p a shares :
  shares < MIN_SHARES -> adjust_min_shares p a shares = (MIN_SHARES * p, MIN_SHARES).
Proof. intros H. unfold adjust_min_shares. apply Qltb_lt in H. by rewrite H. Qed.



Lemma last_price_last l level message :
  last_price (Some (l ++ [level])) message = Ok (level_price level).
Proof. unfold last_price. by rewrite last_snoc. Qed.

Lemma last_price_empty levels message :
  levels = None \/ levels = Some [] ->
  last_price levels message = Raise (Exception "Exception" message).
Proof. by intros [-> | ->]. Qed.

(** Any side other than [BUY] is priced from the bids. *)
Lemma market_price_not_buy book side :
  side <> BUY -> market_price book side = last_price (bids book) "Cannot get bid price".
Proof.
  intros Hs. unfold market_price. by destruct (String.eqb_spec side BUY).
Qed.

(** When a side is listed nearest price first, its last entry is the
    farthest: no ask is dearer than the last ask. *)
Lemma last_ask_is_dearest l level :
  StronglySorted (fun a b => level_price a <= level_price b) (l ++ [level]) ->
  Forall (fun a => level_price a <= level_price level) l.
Proof.
  induction l as [|a l IH]; intros Hs; [constructor|].
  apply StronglySorted_inv in Hs as [Hs Ha].
  constructor; [|by apply IH].
  apply Forall_app in Ha as [_ Ha]. by apply Forall_inv in Ha.
Qed.

(** C4, as the code has it. [create_market_order] prices a BUY at the last
    entry of the book's asks and a SELL at the last entry of its bids,
    whatever the entries before it and whatever the other side holds, so
    at no middle of the two sides; and it raises when that side of the
    book is empty or absent. Whether the last entry is the farthest price
    or the nearest is the order of the list, which the code does not look
    at. *)
Theorem create_market_order_pricing (SignedOrder : Type)
    (create_order : OrderArgs -> pyresult SignedOrder)
    (get_order_book : string -> pyresult OrderBookSummary) token amount book :
  get_order_book token = Ok book ->
  (forall l level, asks book = Some (l ++ [level]) ->
     create_market_order create_order get_order_book token BUY amount
     = create_limit_order create_order token BUY (level_price level) amount)
  /\ (forall l level, bids book = Some (l ++ [level]) ->
     create_market_order create_order get_order_book token SELL amount
     = create_limit_order create_order token SELL (level_price level) amount)
  /\ (asks book = None \/ asks book = Some [] ->
     create_market_order create_order get_order_book token BUY amount
     = Raise (Exception "Exception" "Cannot get ask price"))
  /\ (bids book = None \/ bids book = Some [] ->
     create_market_order create_order get_order_book token SELL amount
     = Raise (Exception "Exception" "Cannot get bid price")).
Proof.
  intros Hb. unfold create_market_order, get_orderbook, market_price.
  rewrite Hb. unfold mbind, pyresult_bind.
  change (String.eqb BUY BUY) with true. change (String.eqb SELL BUY) with false.
  repeat split.
  - intros l level ->. by rewrite last_price_last.
  - intros l level ->. by rewrite last_price_last.
  - intros H. by rewrite (last_price_empty _ _ H).
  - intros H. by rewrite (last_price_empty _ _ H).
Qed.

(** On a book with asks at 0.52, 0.55, 0.60 and bids at 0.48, 0.45, 0.40 a
    buy is priced at 0.60 and a sell at 0.40: the last entries, which on
    this book are the farthest prices. *)
Lemma create_market_order_pricing_witness :
  create_market_order Ok (fun _ => Ok example_book) "token-up" BUY 10
  = create_limit_order Ok "token-up" BUY 0.60 10
  /\ create_market_order Ok (fun _ => Ok example_book) "token-up" SELL 10
     = create_limit_order Ok "token-up" SELL 0.40 10.
Proof.
  pose proof (create_market_order_pricing OrderArgs Ok (fun _ => Ok example_book)
                "token-up" 10 example_book eq_refl) as (Hbuy & Hsell & _).
  split.
  - exact (Hbuy [ {| level_price := 0.52; level_size := 10 |};
                  {| level_price := 0.55; level_size := 25 |} ]
                {| level_price := 0.60; level_size := 50 |} eq_refl).
  - exact (Hsell [ {| level_price := 0.48; level_size := 10 |};
                   {| level_price := 0.45; level_size := 25 |} ]
                 {| level_price := 0.40; level_size := 50 |} eq_refl).
Defined.

(** C4, as stated, fails: on a book that lists the best price of each
    side last, the order that the comments of [create_market_order] count
    on ("Buy at lowest ask price", "Sell at highest bid price"), a buy is
    priced at 0.52, the lowest of the asks, and a sell at 0.48, the
    highest of the bids: the nearest prices, and the most favorable
    ones. *)
Lemma market_order_at_nearest_price :
  create_market_order Ok (fun _ => Ok best_last_book) "token-up" BUY 10
  = create_limit_order Ok "token-up" BUY 0.52 10
  /\ Forall (fun ask => 0.52 <= level_price ask) (default [] (asks best_last_book))
  /\ create_market_order Ok (fun _ => Ok best_last_book) "token-up" SELL 10
     = create_limit_order Ok "token-up" SELL 0.48 10
  /\ Forall (fun bid => level_price bid <= 0.48) (default [] (bids best_last_book)).
Proof.
  split; [reflexivity|]. split; [by repeat constructor|].
  split; [reflexivity|]. by repeat constructor.
Qed.

(** *** Buying and selling *)


Section Trader.
Context {SignedOrder : Type}.
Variable create_order : OrderArgs -> pyresult SignedOrder.
Variable get_order_book : string -> pyresult OrderBookSummary.
Variable post_order : SignedOrder -> pyresult json.
Variable get_event_info : string -> option event_info.



Lemma mid_price_cases book :
  (bids book = None \/ bids book = Some [] \/ asks book = None \/ asks book = Some [] ->
   mid_price book = Ok None)
  /\ (forall bid rest l ask,
        bids book = Some (bid :: rest) -> asks book = Some (l ++ [ask]) ->
        mid_price book = Ok (Some ((level_price bid + level_price ask) / 2)))
  /\ (forall e, mid_price book <> Raise e).
Proof.
  assert (Hnone :
    bids book = None \/ bids book = Some [] \/ asks book = None \/ asks book = Some [] ->
    mid_price book = Ok None).
  { unfold mid_price. intros [-> | [-> | [-> | ->]]]; simpl; try done;
      by destruct (default [] (bids book)). }
  assert (Hsome : forall bid rest l ask,
    bids book = Some (bid :: rest) -> asks book = Some (l ++ [ask]) ->
    mid_price book = Ok (Some ((level_price bid + level_price ask) / 2))).
  { unfold mid_price. intros bid rest l ask -> ->. simpl.
    assert (Hne : no_levels (l ++ [ask]) = false) by by destruct l.
    rewrite Hne. simpl. unfold last_level. by rewrite last_snoc. }
  split; [exact Hnone|]. split; [exact Hsome|].
  intros e He.
  destruct (bids book) as [[|bid rest]|] eqn:Hb;
    try (rewrite Hnone in He by tauto; discriminate He).
  destruct (asks book) as [asks'|] eqn:Ha;
    [|rewrite Hnone in He by tauto; discriminate He].
  destruct (decide (asks' = [])) as [->|Hne];
    [rewrite Hnone in He by tauto; discriminate He|].
  destruct (exists_last Hne) as (l & ask & ->).
  rewrite (Hsome bid rest l ask eq_refl eq_refl) in He. discriminate He.
Qed.

(** X13. [get_market_price] never fails on its own: it raises only what
    the fetch of the book raised, and on a fetched book it returns the
    mean of the first bid and the last ask, or [None] when a side is
    empty or missing or the event is not found, never an [IndexError]. *)
Theorem get_market_price_is_safe event_slug side :
  let price := get_market_price get_order_book get_event_info event_slug side in
  let fetch := get_orderbook_side get_order_book get_event_info event_slug (Some side) in
  (forall e, price = Raise e -> fetch = Raise e)
  /\ (fetch = Ok None -> price = Ok None)
  /\ (forall book, fetch = Ok (Some book) ->
        (bids book = None \/ bids book = Some [] \/ asks book = None \/ asks book = Some [] ->
         price = Ok None)
        /\ (forall bid rest l ask,
              bids book = Some (bid :: rest) -> asks book = Some (l ++ [ask]) ->
              price = Ok (Some ((level_price bid + level_price ask) / 2)))).
Proof.
  intros price fetch. subst price fetch.
  unfold get_market_price, mbind, pyresult_bind.
  destruct (get_orderbook_side _ _ _ _) as [[book|]|e0].
  - destruct (mid_price_cases book) as (Hnone & Hsome & Hsafe).
    split; [intros e He; by apply Hsafe in He|]. split; [done|].
    by intros book' [= <-].
  - split; [done|]. split; [done|]. intros book H. discriminate H.
  - split; [by intros e [= <-]|]. split; [done|]. intros book H. discriminate H.
Qed.

End Trader.


(** On the example book the price quoted is the mean of the first bid,
    0.48, and the last ask, 0.60. *)
Lemma get_market_price_is_safe_witness :
  let book := fun _ : string => Ok example_book in
  let event := fun _ : string => None in
  get_orderbook_side book event "token" (Some "UP") = Ok (Some example_book)
  /\ get_market_price book event "token" "UP" = Ok (Some ((0.48 + 0.60) / 2)).
Proof.
  intros book event.
  assert (Hfetch : get_orderbook_side book event "token" (Some "UP") = Ok (Some example_book))
    by reflexivity.
  split; [exact Hfetch|].
  exact (proj2 (proj2 (proj2 (get_market_price_is_safe book event "token" "UP"))
                  example_book Hfetch)
           {| level_price := 0.48; level_size := 10 |}
           [ {| level_price := 0.45; level_size := 25 |};
             {| level_price := 0.40; level_size := 50 |} ]
           [ {| level_price := 0.52; level_size := 10 |};
             {| level_price := 0.55; level_size := 25 |} ]
           {| level_price := 0.60; level_size := 50 |} eq_refl eq_refl).
Defined.

(** *** The current event *)

(** X14. The slug of [get_current_event] names the quarter of an hour
    that holds the present: it is the lowered asset, "-updown-15m-" and a
    number of seconds that is a multiple of 900, not after the present and
    less than 900 seconds before it. *)
Theorem get_current_event_window lower now asset :
  exists seconds : Z,
    get_current_event lower now asset
    = lower asset +:+ "-updown-15m-" +:+ pretty seconds
    /\ (seconds mod 900 = 0)%Z
    /\ (seconds * 1000000 <= now)%Z
    /\ (now < (seconds + 900) * 1000000)%Z.
Proof.
  unfold get_current_event, timestamp, replace_minute, minute, second, microsecond.
  set (S := (now / 1000000)%Z).
  assert (Hnow : (now = 1000000 * S + now mod 1000000)%Z) by (apply Z.div_mod; lia).
  assert (Hmicro : (0 <= now mod 1000000 < 1000000)%Z) by (apply Z.mod_pos_bound; lia).
  assert (Hminutes : (now / 60000000 = S / 60)%Z).
  { unfold S. rewrite Z.div_div by lia. reflexivity. }
  rewrite Hminutes.
  pose proof (Z.div_mod S 60 ltac:(lia)) as H1.
  pose proof (Z.mod_pos_bound S 60 ltac:(lia)) as B1.
  pose proof (Z.div_mod (S / 60) 60 ltac:(lia)) as H2.
  pose proof (Z.mod_pos_bound (S / 60) 60 ltac:(lia)) as B2.
  pose proof (Z.div_mod ((S / 60) mod 60) 15 ltac:(lia)) as H3.
  pose proof (Z.mod_pos_bound ((S / 60) mod 60) 15 ltac:(lia)) as B3.
  set (r1 := (S mod 60)%Z) in *. set (q1 := (S / 60)%Z) in *.
  set (r2 := (q1 mod 60)%Z) in *. set (q2 := (q1 / 60)%Z) in *.
  set (q3 := (r2 / 15)%Z) in *. set (r3 := (r2 mod 15)%Z) in *.
  set (micro := (now mod 1000000)%Z) in *.
  assert (Haligned :
    (now - (r2 * 60000000 + r1 * 1000000 + micro) + q3 * 15 * 60000000
     = (3600 * q2 + 900 * q3) * 1000000)%Z) by lia.
  rewrite Haligned, Z.quot_mul by lia.
  exists (3600 * q2 + 900 * q3)%Z. split; [reflexivity|]. split; [|lia].
  replace (3600 * q2 + 900 * q3)%Z with ((4 * q2 + q3) * 900)%Z by lia.
  apply Z.mod_mul. lia.
Qed.

End OrderBuilder.

(** ** The bot *)

Section Bot.
Context {World : Type}.
Variable E : collaborators World.
Variable dry_run : bool.

(** *** What the methods add to the record of calls *)

Lemma emits_ret P {A} (a : A) : emits (World:=World) P (mret a).
Proof. intros s r s' [= <- <-]. exists []. by rewrite app_nil_r. Qed.

Lemma emits_lift P {A} (r : pyresult A) : emits (World:=World) P (lift r).
Proof. intros s r' s' [= <- <-]. exists []. by rewrite app_nil_r. Qed.

Lemma emits_raise P {A} e : emits (World:=World) P (raise (A:=A) e).
Proof. intros s r' s' [= <- <-]. exists []. by rewrite app_nil_r. Qed.

Lemma emits_bind P {A B} (m : M World A) (f : A -> M World B) :
  emits P m -> (forall a, emits P (f a)) -> emits P (m ≫= f).
Proof.
  intros Hm Hf s r s' H. unfold mbind, M_bind in H.
  destruct (m s) as [[a|e] s1] eqn:Hms.
  - destruct (Hm _ _ _ Hms) as (evs1 & E1 & F1).
    destruct (Hf a _ _ _ H) as (evs2 & E2 & F2).
    exists (evs1 ++ evs2). rewrite E2, E1, app_assoc. split; [done|].
    by apply Forall_app.
  - injection H as <- <-. eauto.
Qed.

Lemma emits_try_except P {A} (m : M World A) h :
  emits P m -> (forall e, emits P (h e)) -> emits P (try_except m h).
Proof.
  intros Hm Hh s r s' H. unfold try_except in H.
  destruct (m s) as [[a|e] s1] eqn:Hms.
  - injection H as <- <-. eauto.
  - destruct (Hm _ _ _ Hms) as (evs1 & E1 & F1).
    destruct (Hh e _ _ _ H) as (evs2 & E2 & F2).
    exists (evs1 ++ evs2). rewrite E2, E1, app_assoc. split; [done|].
    by apply Forall_app.
Qed.

Lemma emits_ext (P : event -> Prop) {A} c (f : World -> pyresult A * World) :
  P (Returned c) -> (forall e, P (Raised c e)) -> emits P (ext c f).
Proof.
  intros H1 H2 s r s' H. unfold ext in H. destruct (f (world s)) as [r0 w].
  injection H as <- <-. simpl. eexists [_]. split; [done|].
  constructor; [|constructor]. destruct r0; auto.
Qed.

Lemma emits_subscript P {A} (field : option A) key :
  emits (World:=World) P (subscript field key).
Proof. destruct field; [apply emits_ret | apply emits_raise]. Qed.

Lemma emits_dumps P j : emits P (dumps E j).
Proof. apply emits_ret. Qed.

Lemma emits_count P : emits (World:=World) P get_research_count.
Proof. intros s r s' [= <- <-]. exists []. by rewrite app_nil_r. Qed.

Lemma emits_increment P : emits (World:=World) P increment_research_count.
Proof. intros s r s' [= <- <-]. exists []. by rewrite app_nil_r. Qed.

Lemma emits_check_bet (P : event -> Prop) amount market_id balance positions researched :
  (forall allowed message, P (Checked amount allowed message)) ->
  emits P (risk_manager_check_bet E amount market_id balance positions researched).
Proof.
  intros HP s r s' [= <- <-]. simpl. eexists [_]. split; [done|].
  repeat constructor. apply HP.
Qed.

Lemma emits_record_bet (P : event -> Prop) amount :
  P (Recorded amount) -> emits P (risk_manager_record_bet E amount).
Proof.
  intros HP s r s' [= <- <-]. simpl. eexists [_]. split; [done|].
  by repeat constructor.
Qed.

Lemma emits_mapM P {A B} (f : A -> M World B) l :
  (forall a, emits P (f a)) -> emits P (mapM f l).
Proof.
  intros Hf. induction l as [|a l IH]; simpl.
  - apply emits_ret.
  - apply emits_bind; [apply Hf|]. intros b.
    apply emits_bind; [apply IH|]. intros bs. apply emits_ret.
Qed.

Ltac emits_step :=
  match goal with
  | |- emits _ (mret _) => apply emits_ret
  | |- emits _ (raise _) => apply emits_raise
  | |- emits _ (lift _) => apply emits_lift
  | |- emits _ (dumps _ _) => apply emits_dumps
  | |- emits _ (subscript _ _) => apply emits_subscript
  | |- emits _ get_research_count => apply emits_count
  | |- emits _ increment_research_count => apply emits_increment
  | |- emits _ (ext _ _) => apply emits_ext; [done | done]
  | |- emits _ (risk_manager_check_bet _ _ _ _ _ _) => apply emits_check_bet; done
  | |- emits _ (risk_manager_record_bet _ _) => apply emits_record_bet; done
  | |- emits _ (try_except _ _) => apply emits_try_except; [|intros ?]
  | |- emits _ (mbind _ _) => apply emits_bind; [|intros ?]
  | |- emits _ (if ?b then _ else _) => destruct b
  | |- emits _ (let '(_, _) := ?p in _) => destruct p
  end.

(** Only the loop itself talks to the oracle. *)
Lemma emits_execute_bet market_id side amount :
  emits quiet (_execute_bet E dry_run market_id side amount).
Proof. unfold _execute_bet. repeat emits_step. Qed.

Lemma emits_dispatch name input : emits quiet (dispatch E dry_run name input).
Proof. unfold dispatch. repeat emits_step; apply emits_execute_bet. Qed.

Lemma emits_execute_tool name input : emits quiet (execute_tool E dry_run name input).
Proof. unfold execute_tool. repeat emits_step. apply emits_dispatch. Qed.

Lemma emits_run_tools uses : emits quiet (run_tools E dry_run uses).
Proof.
  unfold run_tools. apply emits_mapM. intros a. repeat emits_step.
  apply emits_execute_tool.
Qed.

Lemma emits_save_summary text : emits quiet (_save_summary E text).
Proof. unfold _save_summary. repeat emits_step. Qed.

Lemma oracle_calls_app evs1 evs2 :
  oracle_calls (evs1 ++ evs2) = (oracle_calls evs1 + oracle_calls evs2)%nat.
Proof. unfold oracle_calls. by rewrite List.filter_app, length_app. Qed.

Lemma oracle_calls_quiet evs : Forall quiet evs -> oracle_calls evs = 0%nat.
Proof.
  unfold oracle_calls. induction 1 as [|ev evs Hq _ IH]; [done|].
  simpl. unfold quiet in Hq. by rewrite Hq.
Qed.

(** *** The dispatcher *)

Lemma execute_tool_returns name input s :
  exists out s', execute_tool E dry_run name input s = (Ok out, s').
Proof.
  unfold execute_tool, try_except.
  destruct (dispatch E dry_run name input s) as [[out|e] s']; eauto.
Qed.

Lemma yields_dumps j : yields_json E (dumps E j).
Proof. intros s a s' [= <- <-]. by exists j. Qed.

Lemma yields_bind {A} (m : M World A) (f : A -> M World string) :
  (forall a, yields_json E (f a)) -> yields_json E (m ≫= f).
Proof.
  intros Hf s b s' H. unfold mbind, M_bind in H.
  destruct (m s) as [[a|e] s1]; [|done]. by eapply Hf.
Qed.

Lemma yields_try_except (m : M World string) h :
  yields_json E m -> (forall e, yields_json E (h e)) -> yields_json E (try_except m h).
Proof.
  intros Hm Hh s a s' H. unfold try_except in H.
  destruct (m s) as [[a0|e] s1] eqn:Hms.
  - injection H as <- <-. by eapply Hm.
  - by eapply Hh.
Qed.

Ltac yields_step :=
  match goal with
  | |- yields_json _ (dumps _ _) => apply yields_dumps
  | |- yields_json _ (try_except _ _) => apply yields_try_except; [|intros ?]
  | |- yields_json _ (mbind _ _) => apply yields_bind; intros ?
  | |- yields_json _ (if ?b then _ else _) => destruct b
  | |- yields_json _ (let '(_, _) := ?p in _) => destruct p
  end.

Lemma yields_execute_bet market_id side amount :
  yields_json E (_execute_bet E dry_run market_id side amount).
Proof. unfold _execute_bet. repeat yields_step. Qed.

Lemma yields_dispatch name input : yields_json E (dispatch E dry_run name input).
Proof. unfold dispatch. repeat yields_step; apply yields_execute_bet. Qed.

Lemma dispatch_unknown name input s :
  name ∉ tool_names ->
  dispatch E dry_run name input s
  = (Ok (json_dumps E (error_payload ("Unknown tool: " +:+ name))), s).
Proof.
  intros Hn. unfold dispatch.
  repeat match goal with
  | |- context [String.eqb name ?k] =>
      destruct (String.eqb_spec name k) as [->|_];
      [exfalso; apply Hn; unfold tool_names; set_solver|]
  end.
  reflexivity.
Qed.

(** C7. [execute_tool] never raises: for every tool name and input it
    returns the text of a JSON value; when the handler it dispatched to
    raises [e], that value is [{"error": str(e)}]; and an unknown tool
    name gives an error value too. *)
Theorem execute_tool_never_raises name input s :
  exists out s',
    execute_tool E dry_run name input s = (Ok out, s')
    /\ (exists j, out = json_dumps E j)
    /\ (forall e s1, dispatch E dry_run name input s = (Raise e, s1) ->
          out = json_dumps E (error_payload (exn_str e)) /\ s' = s1)
    /\ (name ∉ tool_names ->
          out = json_dumps E (error_payload ("Unknown tool: " +:+ name)) /\ s' = s).
Proof.
  unfold execute_tool, try_except.
  destruct (dispatch E dry_run name input s) as [[out|e] s1] eqn:Hd.
  - exists out, s1. split; [done|].
    split; [by eapply (yields_dispatch name input)|].
    split; [done|]. intros Hn. rewrite (dispatch_unknown _ _ _ Hn) in Hd.
    by injection Hd as <- <-.
  - eexists _, _. split; [reflexivity|]. split; [by eexists|].
    split; [by intros e' s1' [= <- <-]|].
    intros Hn. by rewrite (dispatch_unknown _ _ _ Hn) in Hd.
Qed.

(** *** The research gate *)

Lemma dispatch_research input :
  dispatch E dry_run "research_market_and_save" input =
  (count ← get_research_count;
   if (config.MAX_RESEARCH_PER_CYCLE <=? count)%nat then
     dumps E (error_payload research_limit_message)
   else
     market_id ← subscript (ti_market_id input) "market_id";
     market_title ← subscript (ti_market_title input) "market_title";
     result ← ext (research_market_and_save_call market_id market_title (ti_focus input))
                (research_market_and_save E market_id market_title (ti_focus input));
     increment_research_count;;
     dumps E result).
Proof. reflexivity. Qed.

(** Once the counter has reached the limit, a research request is
    answered with an error value and the bot is left as it was: no call
    is made and the counter stays. *)
Lemma research_gate_closed input s :
  (config.MAX_RESEARCH_PER_CYCLE <= research_count s)%nat ->
  execute_tool E dry_run "research_market_and_save" input s
  = (Ok (json_dumps E (error_payload research_limit_message)), s).
Proof.
  intros H. unfold execute_tool, try_except. rewrite dispatch_research.
  unfold mbind, M_bind, get_research_count.
  apply Nat.leb_le in H. rewrite H. reflexivity.
Qed.

(** *** Placing a bet *)

Ltac split_run H :=
  repeat match type of H with
  | context [account_get_balance E ?w] =>
      destruct (account_get_balance E w) as [[?|?] ?] eqn:?; simpl in H
  | context [account_get_my_positions E ?w] =>
      destruct (account_get_my_positions E w) as [[?|?] ?] eqn:?; simpl in H
  | context [get_research_result E ?m ?w] =>
      destruct (get_research_result E m w) as [[?|?] ?] eqn:?; simpl in H
  | context [RiskManager.check_bet ?a ?b ?c ?d ?e ?f ?g] =>
      destruct (RiskManager.check_bet a b c d e f g) as [[|] ?] eqn:?; simpl in H
  | context [get_market_detail E ?m ?w] =>
      destruct (get_market_detail E m w) as [[?|?] ?] eqn:?; simpl in H
  | context [truthy ?j] => destruct (truthy j) eqn:?; simpl in H
  | context [py_get ?o ?k ?d] => destruct (py_get o k d) as [?|?] eqn:?; simpl in H
  | context [trader_buy E ?a ?b ?c ?w] =>
      destruct (trader_buy E a b c w) as [[?|?] ?] eqn:?; simpl in H
  end.

Ltac in_list H :=
  repeat (first [apply elem_of_cons in H as [H|H] | apply elem_of_nil in H; destruct H]);
  try discriminate H.

(** C2. In every run of [_execute_bet], [record_bet] is called only as
    the step right after an order submission that returned, itself after
    [check_bet] approved the bet; when the gate rejects, or when the
    submission raises, the result is [{"success": false, "message": ...}],
    [record_bet] is not called and the daily ledger is as before. *)
Theorem execute_bet_records_after_submission market_id side amount s r s' :
  _execute_bet E dry_run market_id side amount s = (r, s') ->
  exists evs, calls s' = calls s ++ evs
    /\ (forall a, Recorded a ∈ evs ->
          a = amount /\
          exists pre slug outcome message,
            evs = pre ++ [Returned (buy_call slug outcome amount); Recorded amount]
            /\ Checked amount true message ∈ pre)
    /\ (forall message, Checked amount false message ∈ evs ->
          r = Ok (json_dumps E (failure_payload message))
          /\ (forall a, Recorded a ∉ evs)
          /\ daily_bets s' = daily_bets s)
    /\ (forall slug outcome e, Raised (buy_call slug outcome amount) e ∈ evs ->
          r = Ok (json_dumps E (failure_payload ("Trade failed: " +:+ exn_str e)))
          /\ (forall a, Recorded a ∉ evs)
          /\ daily_bets s' = daily_bets s)
    /\ ((forall a, Recorded a ∉ evs) -> daily_bets s' = daily_bets s).
Proof.
  intros H.
  unfold _execute_bet, mbind, M_bind, mret, M_ret, ext, risk_manager_check_bet,
    risk_manager_record_bet, try_except, dumps, lift, log in H.
  destruct dry_run; simpl in H; split_run H; injection H as <- <-; simpl;
    (eexists; split; [rewrite <- ?app_assoc; simpl; reflexivity|]);
    repeat apply conj.
  all: try (intros _; reflexivity).
  all: try (intros; match goal with Ha : _ ∈ _ |- _ => in_list Ha end; fail).
  all: try (intros; match goal with Ha : _ ∈ _ |- _ => in_list Ha end;
            simplify_eq; repeat split; try reflexivity;
            intros ? Hr; in_list Hr; fail).
  all: try (intros Hn; exfalso; apply (Hn amount); set_solver).
  all: intros; match goal with Ha : _ ∈ _ |- _ => in_list Ha end; simplify_eq;
       (split; [reflexivity|]);
       eexists [_; _; _; _; _], _, _, _; (split; [reflexivity|]);
       do 3 apply list_elem_of_further; apply list_elem_of_here.
Qed.

(** *** The decision loop *)

Lemma mapM_cons {A B} (f : A -> M World B) a l :
  mapM f (a :: l) = (b ← f a; bs ← mapM f l; mret (b :: bs)).
Proof. reflexivity. Qed.

Lemma mapM_returns {A B} (f : A -> M World B) l :
  (forall a s, exists b s', f a s = (Ok b, s')) ->
  forall s, exists bs s', mapM f l s = (Ok bs, s').
Proof.
  intros Hf. induction l as [|a l IH]; intros s.
  - eexists _, _. reflexivity.
  - rewrite mapM_cons. unfold mbind, M_bind.
    destruct (Hf a s) as (b & s1 & ->).
    destruct (IH s1) as (bs & s2 & ->). eauto.
Qed.

Lemma run_tools_returns uses s :
  exists results s', run_tools E dry_run uses s = (Ok results, s').
Proof.
  unfold run_tools. apply mapM_returns. intros u s0.
  unfold mbind, M_bind.
  destruct (execute_tool_returns u.1.2 u.2 s0) as (out & s1 & ->). eauto.
Qed.

Lemma save_summary_returns text s :
  exists s', _save_summary E text s = (Ok tt, s').
Proof.
  unfold _save_summary, try_except, mbind, M_bind, ext.
  destruct (write_summary E text (world s)) as [[[]|e] w]; simpl;
  match goal with |- context [save_cycle_to_db E text ?w] =>
    destruct (save_cycle_to_db E text w) as [[[]|e'] w'] end; simpl; eauto.
Qed.

Lemma load_last_summary_returns s :
  exists last s' evs, _load_last_summary E s = (Ok last, s')
    /\ calls s' = calls s ++ evs /\ Forall quiet evs.
Proof.
  destruct (_load_last_summary E s) as [r s'] eqn:Hl.
  assert (Hq : emits quiet (_load_last_summary E)).
  { unfold _load_last_summary. repeat emits_step. }
  destruct (Hq _ _ _ Hl) as (evs & Hc & HF).
  unfold _load_last_summary, try_except, mbind, M_bind, ext in Hl.
  destruct (read_summary E (world s)) as [[text|e] w]; simpl in Hl;
    injection Hl as <- <-; eauto 6.
Qed.

(** A request to the oracle is one turn. *)
Lemma ext_oracle messages s :
  exists r s' ev,
    ext (messages_create_call messages) (messages_create E messages) s = (r, s')
    /\ calls s' = calls s ++ [ev] /\ is_oracle_call ev = true
    /\ messages_create E messages (world s) = (r, world s').
Proof.
  unfold ext. destruct (messages_create E messages (world s)) as [[c|e] w]; simpl;
    eexists _, _, _; (split; [reflexivity|]); simpl; auto.
Qed.

Lemma turns_S n messages :
  turns E dry_run (S n) messages =
  (content ← ext (messages_create_call messages) (messages_create E messages);
   match tool_uses content with
   | [] => _save_summary E (final_text content);; mret (final_text content)
   | uses =>
       tool_results ← run_tools E dry_run uses;
       turns E dry_run n (messages ++ [Assistant content; UserToolResults tool_results])
   end).
Proof. reflexivity. Qed.

(** With [n] iterations left the loop makes at most [n] turns, whatever
    the oracle does. *)
Lemma turns_bounded n : forall messages s,
  exists r s' evs, turns E dry_run n messages s = (r, s')
    /\ calls s' = calls s ++ evs /\ (oracle_calls evs <= n)%nat.
Proof.
  induction n as [|n IH]; intros messages s.
  - eexists _, _, []. rewrite app_nil_r. eauto.
  - rewrite turns_S. unfold mbind at 1, M_bind at 1.
    destruct (ext_oracle messages s) as (r & s1 & ev & -> & Hc & Hev & _).
    assert (Hone : oracle_calls [ev] = 1%nat)
      by (unfold oracle_calls; simpl; by rewrite Hev).
    destruct r as [content|e].
    + destruct (tool_uses content) as [|u uses] eqn:Hu.
      * unfold mbind, M_bind.
        destruct (_save_summary E (final_text content) s1) as [r2 s2] eqn:Hs.
        destruct (emits_save_summary _ _ _ _ Hs) as (evs & Hc2 & Hq).
        exists (match r2 with Ok _ => Ok (final_text content) | Raise e => Raise e end),
          s2, ([ev] ++ evs).
        split; [by destruct r2|]. split.
        { rewrite Hc2, Hc, <- app_assoc. reflexivity. }
        rewrite oracle_calls_app, (oracle_calls_quiet evs Hq), Hone. lia.
      * unfold mbind, M_bind.
        destruct (run_tools E dry_run (u :: uses) s1) as [r2 s2] eqn:Hs.
        destruct (emits_run_tools _ _ _ _ Hs) as (evs & Hc2 & Hq).
        destruct r2 as [results|e].
        -- destruct (IH (messages ++ [Assistant content; UserToolResults results]) s2)
             as (r3 & s3 & evs3 & -> & Hc3 & Hn).
           exists r3, s3, ([ev] ++ evs ++ evs3). split; [done|]. split.
           { rewrite Hc3, Hc2, Hc, <- !app_assoc. reflexivity. }
           rewrite !oracle_calls_app, (oracle_calls_quiet evs Hq), Hone. lia.
        -- exists (Raise e), s2, ([ev] ++ evs). split; [done|]. split.
           { rewrite Hc2, Hc, <- !app_assoc. reflexivity. }
           rewrite !oracle_calls_app, (oracle_calls_quiet evs Hq), Hone. lia.
    + exists (Raise e), s1, [ev]. split; [done|]. split; [done|]. rewrite Hone. lia.
Qed.

(** A response without tool use ends the loop with its text. *)
Lemma turns_done n messages s content w :
  messages_create E messages (world s) = (Ok content, w) ->
  tool_uses content = [] ->
  exists s', turns E dry_run (S n) messages s = (Ok (final_text content), s').
Proof.
  intros Ho Hu. rewrite turns_S. unfold mbind at 1, M_bind at 1, ext. rewrite Ho, Hu.
  unfold mbind, M_bind.
  match goal with |- context [_save_summary E ?t ?s0] =>
    destruct (save_summary_returns t s0) as (s' & ->) end.
  eauto.
Qed.

(** Against an oracle that always asks for a tool, the loop uses up its
    iterations: one turn each. *)
Lemma turns_ceiling (H : always_tool_use E) n : forall messages s,
  exists s' evs, turns E dry_run n messages s = (Ok ceiling_report, s')
    /\ calls s' = calls s ++ evs /\ oracle_calls evs = n.
Proof.
  induction n as [|n IH]; intros messages s.
  - eexists _, []. rewrite app_nil_r. eauto.
  - rewrite turns_S. unfold mbind at 1, M_bind at 1.
    destruct (H messages (world s)) as (content & w & Ho & Hu).
    destruct (ext_oracle messages s) as (r & s1 & ev & -> & Hc & Hev & Hw).
    rewrite Ho in Hw. injection Hw as <- _.
    destruct (tool_uses content) as [|u uses] eqn:Huses; [done|].
    unfold mbind, M_bind.
    destruct (run_tools_returns (u :: uses) s1) as (results & s2 & Hr). rewrite Hr.
    destruct (emits_run_tools _ _ _ _ Hr) as (evs & Hc2 & Hq).
    destruct (IH (messages ++ [Assistant content; UserToolResults results]) s2)
      as (s3 & evs3 & -> & Hc3 & Hn).
    exists s3, ([ev] ++ evs ++ evs3). split; [done|]. split.
    { rewrite Hc3, Hc2, Hc, <- !app_assoc. reflexivity. }
    rewrite !oracle_calls_app, (oracle_calls_quiet evs Hq), Hn.
    unfold oracle_calls. simpl. rewrite Hev. reflexivity.
Qed.

(** C5. [run_cycle] ends for every oracle, after at most 20 turns; a
    response without tool use ends the loop with the response's text as
    the report; and against an oracle that asks for a tool on every turn
    the loop makes exactly 20 turns and returns the ceiling report. *)
Theorem run_cycle_terminates :
  (forall s, exists r s' evs,
      run_cycle E dry_run s = (r, s')
      /\ calls s' = calls s ++ evs /\ (oracle_calls evs <= 20)%nat)
  /\ (forall n messages s content w,
        messages_create E messages (world s) = (Ok content, w) ->
        tool_uses content = [] ->
        exists s', turns E dry_run (S n) messages s = (Ok (final_text content), s'))
  /\ (always_tool_use E ->
      forall s, exists s' evs,
        run_cycle E dry_run s = (Ok ceiling_report, s')
        /\ calls s' = calls s ++ evs /\ oracle_calls evs = 20%nat).
Proof.
  split; [|split].
  - intros s. unfold run_cycle, mbind, M_bind.
    destruct (load_last_summary_returns s) as (last & s1 & evs1 & -> & Hc1 & Hq).
    destruct (turns_bounded max_iterations [UserText (_build_user_message last)] s1)
      as (r & s2 & evs2 & -> & Hc2 & Hn).
    exists r, s2, (evs1 ++ evs2). split; [done|]. split.
    { rewrite Hc2, Hc1, <- app_assoc. reflexivity. }
    rewrite oracle_calls_app, (oracle_calls_quiet _ Hq). exact Hn.
  - intros n messages s content w. apply turns_done.
  - intros H s. unfold run_cycle, mbind, M_bind.
    destruct (load_last_summary_returns s) as (last & s1 & evs1 & -> & Hc1 & Hq).
    destruct (turns_ceiling H max_iterations [UserText (_build_user_message last)] s1)
      as (s2 & evs2 & -> & Hc2 & Hn).
    exists s2, (evs1 ++ evs2). split; [done|]. split.
    { rewrite Hc2, Hc1, <- app_assoc. reflexivity. }
    rewrite oracle_calls_app, (oracle_calls_quiet _ Hq). exact Hn.
Qed.

(** *** The research counter *)

Lemma research_returns_app evs1 evs2 :
  research_returns (evs1 ++ evs2) = (research_returns evs1 + research_returns evs2)%nat.
Proof. unfold research_returns. by rewrite List.filter_app, length_app. Qed.

Lemma tallies_still {A} (m : M World A) :
  (forall s, exists r, m s = (r, s)) -> tallies m.
Proof.
  intros Hm s r s' H. destruct (Hm s) as (r0 & Hr). rewrite Hr in H.
  injection H as <- <-. exists []. rewrite app_nil_r. unfold research_returns. simpl.
  split; [done|]. split; lia.
Qed.

Lemma tallies_bind {A B} (m : M World A) (f : A -> M World B) :
  tallies m -> (forall a, tallies (f a)) -> tallies (m ≫= f).
Proof.
  intros Hm Hf s r s' H. unfold mbind, M_bind in H.
  destruct (m s) as [[a|e] s1] eqn:Hms.
  - destruct (Hm _ _ _ Hms) as (evs1 & E1 & C1 & B1).
    destruct (Hf a _ _ _ H) as (evs2 & E2 & C2 & B2).
    exists (evs1 ++ evs2). rewrite E2, E1, app_assoc, research_returns_app.
    split; [done|]. split; lia.
  - injection H as <- <-. eauto.
Qed.

Lemma tallies_try_except {A} (m : M World A) h :
  tallies m -> (forall e, tallies (h e)) -> tallies (try_except m h).
Proof.
  intros Hm Hh s r s' H. unfold try_except in H.
  destruct (m s) as [[a|e] s1] eqn:Hms.
  - injection H as <- <-. eauto.
  - destruct (Hm _ _ _ Hms) as (evs1 & E1 & C1 & B1).
    destruct (Hh e _ _ _ H) as (evs2 & E2 & C2 & B2).
    exists (evs1 ++ evs2). rewrite E2, E1, app_assoc, research_returns_app.
    split; [done|]. split; lia.
Qed.

Lemma tallies_ext {A} c (f : World -> pyresult A * World) :
  is_research_return (Returned c) = false -> tallies (ext c f).
Proof.
  intros Hc s r s' H. unfold ext in H. destruct (f (world s)) as [r0 w].
  injection H as <- <-. simpl. eexists [_]. split; [done|].
  unfold research_returns. destruct r0.
  - change (List.filter is_research_return [Returned c])
      with (if is_research_return (Returned c) then [Returned c] else []).
    rewrite Hc. simpl. split; lia.
  - simpl. split; lia.
Qed.

Lemma tallies_check_bet amount market_id balance positions researched :
  tallies (risk_manager_check_bet E amount market_id balance positions researched).
Proof.
  intros s r s' [= <- <-]. simpl. eexists [_]. split; [done|].
  unfold research_returns. simpl. split; lia.
Qed.

Lemma tallies_record_bet amount : tallies (risk_manager_record_bet E amount).
Proof.
  intros s r s' [= <- <-]. simpl. eexists [_]. split; [done|].
  unfold research_returns. simpl. split; lia.
Qed.

Lemma tallies_mapM {A B} (f : A -> M World B) l :
  (forall a, tallies (f a)) -> tallies (mapM f l).
Proof.
  intros Hf. induction l as [|a l IH]; simpl.
  - apply tallies_still. intros s. by eexists.
  - apply tallies_bind; [apply Hf|]. intros b.
    apply tallies_bind; [apply IH|]. intros bs.
    apply tallies_still. intros s. by eexists.
Qed.

Ltac tallies_step :=
  match goal with
  | |- tallies (mret _) => apply tallies_still; intros ?; by eexists
  | |- tallies (raise _) => apply tallies_still; intros ?; by eexists
  | |- tallies (lift _) => apply tallies_still; intros ?; by eexists
  | |- tallies (dumps _ _) => apply tallies_still; intros ?; by eexists
  | |- tallies (subscript ?f _) => apply tallies_still; intros ?; destruct f; by eexists
  | |- tallies get_research_count => apply tallies_still; intros ?; by eexists
  | |- tallies (ext _ _) => apply tallies_ext; reflexivity
  | |- tallies (risk_manager_check_bet _ _ _ _ _ _) => apply tallies_check_bet
  | |- tallies (risk_manager_record_bet _ _) => apply tallies_record_bet
  | |- tallies (try_except _ _) => apply tallies_try_except; [|intros ?]
  | |- tallies (mbind _ _) => apply tallies_bind; [|intros ?]
  | |- tallies (if ?b then _ else _) => destruct b
  | |- tallies (let '(_, _) := ?p in _) => destruct p
  end.

Lemma tallies_execute_bet market_id side amount :
  tallies (_execute_bet E dry_run market_id side amount).
Proof. unfold _execute_bet. repeat tallies_step. Qed.

(** The research branch: the counter moves exactly when the research
    function returns. *)
Lemma tallies_research input :
  tallies (dispatch E dry_run "research_market_and_save" input).
Proof.
  rewrite dispatch_research. intros s r s' H.
  unfold mbind, M_bind, get_research_count in H.
  destruct (Nat.leb_spec config.MAX_RESEARCH_PER_CYCLE (research_count s)) as [Hfull|Hroom].
  - injection H as <- <-. exists []. rewrite app_nil_r. unfold research_returns.
    simpl. split; [done|]. split; lia.
  - destruct (ti_market_id input) as [market_id|]; simpl in H;
      [|injection H as <- <-; exists []; rewrite app_nil_r; unfold research_returns;
        simpl; split; [done|]; split; lia].
    destruct (ti_market_title input) as [market_title|]; simpl in H;
      [|injection H as <- <-; exists []; rewrite app_nil_r; unfold research_returns;
        simpl; split; [done|]; split; lia].
    unfold ext in H.
    destruct (research_market_and_save E market_id market_title (ti_focus input) (world s))
      as [[result|e] w]; simpl in H; injection H as <- <-; simpl;
      eexists [_]; (split; [done|]); unfold research_returns; simpl; split; lia.
Qed.

Lemma tallies_dispatch name input : tallies (dispatch E dry_run name input).
Proof.
  destruct (String.eqb_spec name "research_market_and_save") as [->|Hne].
  - apply tallies_research.
  - unfold dispatch.
    destruct (String.eqb_spec name "research_market_and_save") as [->|_]; [done|].
    repeat tallies_step; apply tallies_execute_bet.
Qed.

Lemma tallies_execute_tool name input : tallies (execute_tool E dry_run name input).
Proof. unfold execute_tool. repeat tallies_step. apply tallies_dispatch. Qed.

Lemma tallies_run_tools uses : tallies (run_tools E dry_run uses).
Proof.
  unfold run_tools. apply tallies_mapM. intros a. repeat tallies_step.
  apply tallies_execute_tool.
Qed.

Lemma tallies_turns n : forall messages, tallies (turns E dry_run n messages).
Proof.
  induction n as [|n IH]; intros messages.
  - simpl. tallies_step.
  - rewrite turns_S. tallies_step; [tallies_step|].
    destruct (tool_uses a) as [|u uses].
    + unfold _save_summary. repeat tallies_step.
    + tallies_step; [apply tallies_run_tools|apply IH].
Qed.

Lemma tallies_run_cycle : tallies (run_cycle E dry_run).
Proof.
  unfold run_cycle, _load_last_summary. repeat tallies_step. apply tallies_turns.
Qed.

(** In a cycle that starts with the counter within the limit, the
    invocations of the research path that return, together with those
    counted before, stay within the limit. *)
Lemma research_returns_bounded s r s' :
  run_cycle E dry_run s = (r, s') ->
  (research_count s <= config.MAX_RESEARCH_PER_CYCLE)%nat ->
  exists evs, calls s' = calls s ++ evs
    /\ (research_count s + research_returns evs <= config.MAX_RESEARCH_PER_CYCLE)%nat.
Proof.
  intros Hrun Hs. destruct (tallies_run_cycle _ _ _ Hrun) as (evs & Hc & Hn & Hb).
  exists evs. split; [done|]. lia.
Qed.

(** An invocation that raises is answered with an error value and leaves
    the counter where it was. *)
Lemma research_raise_not_counted input market_id market_title s e w :
  (research_count s < config.MAX_RESEARCH_PER_CYCLE)%nat ->
  ti_market_id input = Some market_id ->
  ti_market_title input = Some market_title ->
  research_market_and_save E market_id market_title (ti_focus input) (world s)
  = (Raise e, w) ->
  execute_tool E dry_run "research_market_and_save" input s
  = (Ok (json_dumps E (error_payload (exn_str e))),
     State w
       (calls s ++
          [Raised (research_market_and_save_call market_id market_title (ti_focus input)) e])
       (research_count s) (daily_bets s)).
Proof.
  intros Hroom Hid Htitle Hraise. unfold execute_tool, try_except.
  rewrite dispatch_research. unfold mbind, M_bind, get_research_count.
  apply Nat.leb_gt in Hroom. rewrite Hroom, Hid, Htitle. simpl.
  unfold ext. rewrite Hraise. reflexivity.
Qed.

(** *** What the methods keep *)

Section Preserves.
Context (R : relation (state World)) `{!PreOrder R}.

Lemma preserves_still {A} (m : M World A) :
  (forall s, exists r, m s = (r, s)) -> preserves R m.
Proof.
  intros Hm s r s' H. destruct (Hm s) as (r0 & Hr). rewrite Hr in H.
  injection H as <- <-. reflexivity.
Qed.

Lemma preserves_bind {A B} (m : M World A) (f : A -> M World B) :
  preserves R m -> (forall a, preserves R (f a)) -> preserves R (m ≫= f).
Proof.
  intros Hm Hf s r s' H. unfold mbind, M_bind in H.
  destruct (m s) as [[a|e] s1] eqn:Hms.
  - etrans; [by eapply Hm|by eapply Hf].
  - injection H as <- <-. by eapply Hm.
Qed.

Lemma preserves_try_except {A} (m : M World A) h :
  preserves R m -> (forall e, preserves R (h e)) -> preserves R (try_except m h).
Proof.
  intros Hm Hh s r s' H. unfold try_except in H.
  destruct (m s) as [[a|e] s1] eqn:Hms.
  - injection H as <- <-. by eapply Hm.
  - etrans; [by eapply Hm|by eapply Hh].
Qed.

Lemma preserves_mapM {A B} (f : A -> M World B) l :
  (forall a, preserves R (f a)) -> preserves R (mapM f l).
Proof.
  intros Hf. induction l as [|a l IH]; simpl.
  - apply preserves_still. intros s. by eexists.
  - apply preserves_bind; [apply Hf|]. intros b.
    apply preserves_bind; [apply IH|]. intros bs.
    apply preserves_still. intros s. by eexists.
Qed.

Lemma preserves_ext {A} c (f : World -> pyresult A * World) :
  (forall s w (r : pyresult A),
     R s (log (outcome_of c r) (State w (calls s) (research_count s) (daily_bets s)))) ->
  preserves R (ext c f).
Proof.
  intros HR s r s' H. unfold ext in H. destruct (f (world s)) as [r0 w].
  injection H as <- <-. apply HR.
Qed.

Lemma preserves_check_bet amount market_id balance positions researched :
  (forall s allowed message, R s (log (Checked amount allowed message) s)) ->
  preserves R (risk_manager_check_bet E amount market_id balance positions researched).
Proof. intros HR s r s' [= <- <-]. apply HR. Qed.

Lemma preserves_record_bet amount :
  (forall s ledger,
     R s (log (Recorded amount) (State (world s) (calls s) (research_count s) ledger))) ->
  preserves R (risk_manager_record_bet E amount).
Proof. intros HR s r s' [= <- <-]. apply HR. Qed.

Lemma preserves_increment :
  (forall s, R s (State (world s) (calls s) (research_count s + 1) (daily_bets s))) ->
  preserves R (increment_research_count (World:=World)).
Proof. intros HR s r s' [= <- <-]. apply HR. Qed.

End Preserves.

Ltac preserves_still := apply preserves_still; [apply _|intros ?; by eexists].

Ltac preserves_step tac :=
  match goal with
  | |- preserves _ (mret _) => preserves_still
  | |- preserves _ (raise _) => preserves_still
  | |- preserves _ (lift _) => preserves_still
  | |- preserves _ (dumps _ _) => preserves_still
  | |- preserves _ (subscript ?f _) =>
      apply preserves_still; [apply _|intros ?; destruct f; by eexists]
  | |- preserves _ get_research_count => preserves_still
  | |- preserves _ (ext _ _) => apply preserves_ext; intros ? ? ?; tac
  | |- preserves _ (risk_manager_check_bet _ _ _ _ _ _) =>
      apply preserves_check_bet; intros ? ? ?; tac
  | |- preserves _ (risk_manager_record_bet _ _) =>
      apply preserves_record_bet; intros ? ?; tac
  | |- preserves _ increment_research_count => apply preserves_increment; intros ?; tac
  | |- preserves _ (try_except _ _) => apply preserves_try_except; [apply _| |intros ?]
  | |- preserves _ (mbind _ _) => apply preserves_bind; [apply _| |intros ?]
  | |- preserves _ (if ?b then _ else _) => destruct b
  | |- preserves _ (let '(_, _) := ?p in _) => destruct p
  end.

(** From the handlers to the cycle: a relation that holds across every
    step of the loop itself and across every handler holds across the
    cycle. *)
Section Cycle.
Context (R : relation (state World)) `{!PreOrder R}.
Hypothesis Hlog : forall s w ev,
  is_live ev = false -> is_research_call ev = false ->
  R s (log ev (State w (calls s) (research_count s) (daily_bets s))).
Hypothesis Hdispatch : forall name input, preserves R (dispatch E dry_run name input).

Lemma preserves_loop_call {A} c (f : World -> pyresult A * World) :
  (forall r : pyresult A, is_live (outcome_of c r) = false) ->
  (forall r : pyresult A, is_research_call (outcome_of c r) = false) ->
  preserves R (ext c f).
Proof. intros H1 H2. apply preserves_ext. intros s w r. by apply Hlog. Qed.

Lemma preserves_execute_tool name input : preserves R (execute_tool E dry_run name input).
Proof. unfold execute_tool. preserves_step idtac; [apply Hdispatch|preserves_still]. Qed.

Lemma preserves_run_tools uses : preserves R (run_tools E dry_run uses).
Proof.
  unfold run_tools. apply preserves_mapM; [apply _|]. intros use.
  preserves_step idtac; [apply preserves_execute_tool|preserves_still].
Qed.

Lemma preserves_save_summary text : preserves R (_save_summary E text).
Proof.
  unfold _save_summary.
  preserves_step idtac; (preserves_step idtac; [|preserves_still]);
    apply preserves_loop_call; by intros [].
Qed.

Lemma preserves_turns n : forall messages, preserves R (turns E dry_run n messages).
Proof.
  induction n as [|n IH]; intros messages.
  - preserves_still.
  - rewrite turns_S. preserves_step idtac.
    + apply preserves_loop_call; by intros [].
    + destruct (tool_uses a) as [|use uses].
      * preserves_step idtac; [apply preserves_save_summary|preserves_still].
      * preserves_step idtac; [apply preserves_run_tools|apply IH].
Qed.

Lemma preserves_run_cycle : preserves R (run_cycle E dry_run).
Proof.
  unfold run_cycle. preserves_step idtac; [|apply preserves_turns].
  unfold _load_last_summary. preserves_step idtac; [|preserves_still].
  preserves_step idtac; [|preserves_still].
  apply preserves_loop_call; by intros [].
Qed.

End Cycle.

#[local] Instance same_ledger_preorder : PreOrder (@same_ledger World).
Proof. split; [by intros s|]. intros s1 s2 s3 H1 H2. unfold same_ledger in *. congruence. Qed.

#[local] Instance same_count_preorder : PreOrder (@same_count World).
Proof. split; [by intros s|]. intros s1 s2 s3 H1 H2. unfold same_count in *. congruence. Qed.

#[local] Instance within_cap_preorder d : PreOrder (@within_cap World d).
Proof. split; [by intros s H|]. intros s1 s2 s3 H1 H2 H. by apply H2, H1. Qed.

Lemma research_calls_app evs1 evs2 :
  research_calls (evs1 ++ evs2) = (research_calls evs1 + research_calls evs2)%nat.
Proof. unfold research_calls. by rewrite List.filter_app, length_app. Qed.

#[local] Instance gate_stays_closed_preorder : PreOrder (@gate_stays_closed World).
Proof.
  split.
  - intros s. exists []. rewrite app_nil_r. split; [done|]. by intros _.
  - intros s1 s2 s3 (evs1 & E1 & H1) (evs2 & E2 & H2). exists (evs1 ++ evs2).
    rewrite E2, E1, app_assoc. split; [done|]. intros Hfull.
    destruct (H1 Hfull) as [C1 N1]. rewrite C1 in H2.
    destruct (H2 Hfull) as [C2 N2]. rewrite research_calls_app, N1, N2. split; [congruence|done].
Qed.

#[local] Instance not_live_preorder : PreOrder (@not_live World).
Proof.
  split.
  - intros s. split; [done|]. exists []. by rewrite app_nil_r.
  - intros s1 s2 s3 (L1 & evs1 & E1 & F1) (L2 & evs2 & E2 & F2).
    split; [congruence|]. exists (evs1 ++ evs2). rewrite E2, E1, app_assoc.
    split; [done|]. by apply Forall_app.
Qed.

#[local] Instance in_dry_run_preorder b (R : relation (state World)) `{!PreOrder R} :
  PreOrder (in_dry_run b R).
Proof.
  split; [by intros s _|]. intros s1 s2 s3 H1 H2 Hb. etrans; [by apply H1|by apply H2].
Qed.

(** *** Which tool changes what *)

Lemma same_ledger_dispatch name input :
  name <> "place_bet" -> preserves same_ledger (dispatch E dry_run name input).
Proof.
  intros Hn. unfold dispatch.
  destruct (String.eqb_spec name "place_bet") as [->|_]; [done|].
  repeat preserves_step ltac:(reflexivity).
Qed.

Lemma same_count_execute_bet market_id side amount :
  preserves same_count (_execute_bet E dry_run market_id side amount).
Proof.
  unfold _execute_bet. repeat preserves_step ltac:(reflexivity).
Qed.

Lemma same_count_dispatch name input :
  name <> "research_market_and_save" ->
  preserves same_count (dispatch E dry_run name input).
Proof.
  intros Hn. unfold dispatch.
  destruct (String.eqb_spec name "research_market_and_save") as [->|_]; [done|].
  repeat preserves_step ltac:(reflexivity); apply same_count_execute_bet.
Qed.

(** X1. Only [place_bet] can change the daily ledger and only
    [research_market_and_save] can change the research counter: every
    other tool name, known or not, leaves the ledger as it was, and every
    name but the research tool leaves the counter as it was. *)
Theorem execute_tool_frame name input s :
  (name <> "place_bet" ->
   daily_bets (execute_tool E dry_run name input s).2 = daily_bets s)
  /\ (name <> "research_market_and_save" ->
      research_count (execute_tool E dry_run name input s).2 = research_count s).
Proof.
  split; intros Hn.
  - assert (H : preserves same_ledger (execute_tool E dry_run name input)).
    { unfold execute_tool. preserves_step idtac; [|preserves_still].
      by apply same_ledger_dispatch. }
    eapply H, surjective_pairing.
  - assert (H : preserves same_count (execute_tool E dry_run name input)).
    { unfold execute_tool. preserves_step idtac; [|preserves_still].
      by apply same_count_dispatch. }
    eapply H, surjective_pairing.
Qed.

(** *** The daily limit *)

Section OneDay.
(** A cycle that runs within day [d]. *)
Variable d : string.
Hypothesis Hday : forall w, today E w = d.



End OneDay.


(** *** The research counter across cycles *)

Lemma gate_stays_closed_log (s : state World) (w : World) ev ledger :
  is_research_call ev = false ->
  gate_stays_closed s (log ev (State w (calls s) (research_count s) ledger)).
Proof.
  intros Hev. exists [ev]. split; [done|]. intros _. split; [done|].
  unfold research_calls. simpl. by rewrite Hev.
Qed.

Lemma gate_stays_closed_execute_bet market_id side amount :
  preserves gate_stays_closed (_execute_bet E dry_run market_id side amount).
Proof.
  unfold _execute_bet.
  repeat preserves_step ltac:(first [by apply gate_stays_closed_log
                                    | apply gate_stays_closed_log; by destruct r ]).
Qed.

Lemma gate_stays_closed_research input :
  preserves gate_stays_closed (dispatch E dry_run "research_market_and_save" input).
Proof.
  rewrite dispatch_research. intros s r s' H.
  unfold mbind, M_bind, get_research_count in H.
  destruct (Nat.leb_spec config.MAX_RESEARCH_PER_CYCLE (research_count s)) as [Hfull|Hroom].
  - injection H as <- <-. reflexivity.
  - assert (Hopen : forall evs, calls s' = calls s ++ evs -> gate_stays_closed s s').
    { intros evs Hc. exists evs. split; [done|]. lia. }
    destruct (ti_market_id input) as [market_id|]; simpl in H;
      [|injection H as <- <-; reflexivity].
    destruct (ti_market_title input) as [market_title|]; simpl in H;
      [|injection H as <- <-; reflexivity].
    unfold ext in H.
    destruct (research_market_and_save E market_id market_title (ti_focus input) (world s))
      as [[result|e] w]; simpl in H; injection H as <- <-; by eapply Hopen.
Qed.

Lemma gate_stays_closed_dispatch name input :
  preserves gate_stays_closed (dispatch E dry_run name input).
Proof.
  destruct (String.eqb_spec name "research_market_and_save") as [->|Hne].
  - apply gate_stays_closed_research.
  - unfold dispatch.
    destruct (String.eqb_spec name "research_market_and_save") as [->|_]; [done|].
    repeat preserves_step ltac:(first [by apply gate_stays_closed_log
                                      | apply gate_stays_closed_log; by destruct r ]).
    apply gate_stays_closed_execute_bet.
Qed.

(** X3. [run_cycle] never resets the research counter: the counter does
    not decrease over a cycle, and a cycle that starts with the counter at
    the limit leaves it where it was and invokes no research at all,
    whatever the oracle asks for. *)
Theorem research_counter_is_never_reset (s : state World) :
  let s' := (run_cycle E dry_run s).2 in
  (research_count s <= research_count s')%nat
  /\ exists evs, calls s' = calls s ++ evs
       /\ ((config.MAX_RESEARCH_PER_CYCLE <= research_count s)%nat ->
           research_count s' = research_count s /\ research_calls evs = 0%nat).
Proof.
  intros s'. split.
  - destruct (tallies_run_cycle s (run_cycle E dry_run s).1 s') as (evs & _ & Hn & _);
      [apply surjective_pairing|]. lia.
  - eapply (preserves_run_cycle gate_stays_closed).
    + intros s0 w ev _ Hev. by apply gate_stays_closed_log.
    + apply gate_stays_closed_dispatch.
    + apply surjective_pairing.
Qed.

(** *** The dry run *)

Lemma not_live_log (s : state World) (w : World) ev :
  is_live ev = false ->
  not_live s (log ev (State w (calls s) (research_count s) (daily_bets s))).
Proof. intros Hev. split; [done|]. exists [ev]. split; [done|]. by repeat constructor. Qed.

Ltac dry_run_event :=
  intros Hdry;
  first [ discriminate Hdry
        | apply not_live_log; reflexivity
        | apply not_live_log; by match goal with r : pyresult _ |- _ => destruct r end ].

Lemma dry_run_execute_bet market_id side amount :
  preserves (in_dry_run dry_run not_live) (_execute_bet E dry_run market_id side amount).
Proof. unfold _execute_bet. repeat preserves_step dry_run_event. Qed.

Lemma dry_run_dispatch name input :
  preserves (in_dry_run dry_run not_live) (dispatch E dry_run name input).
Proof.
  unfold dispatch. repeat preserves_step dry_run_event.
  - apply preserves_increment. intros s _. split; [done|]. exists []. by rewrite app_nil_r.
  - apply dry_run_execute_bet.
Qed.

Lemma dry_run_execute_tool name input :
  preserves (in_dry_run dry_run not_live) (execute_tool E dry_run name input).
Proof.
  apply preserves_execute_tool; [apply _|]. apply dry_run_dispatch.
Qed.

Lemma dry_run_run_cycle :
  preserves (in_dry_run dry_run not_live) (run_cycle E dry_run).
Proof.
  apply preserves_run_cycle; [apply _| |apply dry_run_dispatch].
  intros s w ev Hev _ _. by apply not_live_log.
Qed.

(** *** How a cycle ends *)

Lemma tool_events_execute_bet market_id side amount :
  emits (fun ev => is_tool_event ev = true) (_execute_bet E dry_run market_id side amount).
Proof. unfold _execute_bet. repeat emits_step. Qed.

Lemma tool_events_dispatch name input :
  emits (fun ev => is_tool_event ev = true) (dispatch E dry_run name input).
Proof. unfold dispatch. repeat emits_step; apply tool_events_execute_bet. Qed.

Lemma tool_events_run_tools uses :
  emits (fun ev => is_tool_event ev = true) (run_tools E dry_run uses).
Proof.
  unfold run_tools, execute_tool. apply emits_mapM. intros a. repeat emits_step.
  apply tool_events_dispatch.
Qed.

Lemma tool_event_inv ev :
  is_tool_event ev = true ->
  is_oracle_failure ev = false /\ is_summary_call ev = false.
Proof. by destruct ev as [[]|[]| |]. Qed.

(** [_save_summary] attempts both writes, whatever the first does, and
    returns. *)
Lemma save_summary_run text s :
  exists (r1 r2 : pyresult unit) s',
    _save_summary E text s = (Ok tt, s')
    /\ calls s' = calls s ++ [outcome_of (write_summary_call text) r1;
                              outcome_of (save_cycle_call text) r2].
Proof.
  unfold _save_summary, try_except, mbind, M_bind, ext.
  destruct (write_summary E text (world s)) as [[[]|e1] w1]; simpl;
    match goal with |- context [save_cycle_to_db E text ?w] =>
      destruct (save_cycle_to_db E text w) as [[[]|e2] w2] end; simpl;
    [exists (Ok tt), (Ok tt) | exists (Ok tt), (Raise e2)
    | exists (Raise e1), (Ok tt) | exists (Raise e1), (Raise e2)];
    eexists; (split; [reflexivity|]); simpl; by rewrite <- app_assoc.
Qed.

Lemma load_last_summary_run s :
  exists last (r : pyresult string) s',
    _load_last_summary E s = (Ok last, s')
    /\ calls s' = calls s ++ [outcome_of read_summary_call r].
Proof.
  unfold _load_last_summary, try_except, mbind, M_bind, ext.
  destruct (read_summary E (world s)) as [[text|e] w]; simpl;
    [exists (Some text), (Ok text) | exists None, (Raise e)]; eexists; by split.
Qed.

Lemma turns_raise_with_oracle n : forall messages s r s',
  turns E dry_run n messages s = (r, s') ->
  exists evs, calls s' = calls s ++ evs
    /\ match r with
       | Raise e =>
           exists pre failed,
             evs = pre ++ [Raised (messages_create_call failed) e]
             /\ Forall (fun ev => is_oracle_failure ev = false) pre
       | Ok _ => Forall (fun ev => is_oracle_failure ev = false) evs
       end.
Proof.
  induction n as [|n IH]; intros messages s r s' H.
  - injection H as <- <-. exists []. by rewrite app_nil_r.
  - rewrite turns_S in H. unfold mbind at 1, M_bind at 1, ext in H.
    destruct (messages_create E messages (world s)) as [[content|e] w];
      cbv beta iota zeta in H.
    + destruct (tool_uses content) as [|use uses].
      * unfold mbind, M_bind in H.
        match type of H with context [_save_summary E ?t ?s0] =>
          destruct (save_summary_run t s0) as (r1 & r2 & s2 & Hs & Hc) end.
        rewrite Hs in H. injection H as <- <-.
        eexists. split; [rewrite Hc; simpl; rewrite <- app_assoc; reflexivity|].
        repeat constructor; by destruct r1, r2.
      * unfold mbind, M_bind in H.
        match type of H with context [run_tools E dry_run ?us ?s0] =>
          destruct (run_tools_returns us s0) as (results & s2 & Hr) end.
        rewrite Hr in H. destruct (tool_events_run_tools _ _ _ _ Hr) as (evs2 & Hc2 & HF2).
        destruct (IH _ _ _ _ H) as (evs3 & Hc3 & H3).
        assert (Hclean : Forall (fun ev => is_oracle_failure ev = false)
                           (Returned (messages_create_call messages) :: evs2)).
        { constructor; [done|]. eapply Forall_impl; [exact HF2|].
          intros ev Hev. by apply tool_event_inv in Hev as [? _]. }
        exists ((Returned (messages_create_call messages) :: evs2) ++ evs3).
        split; [rewrite Hc3, Hc2; simpl; by rewrite <- !app_assoc|].
        destruct r as [text|e].
        -- by apply Forall_app.
        -- destruct H3 as (pre & failed & -> & Hpre).
           exists ((Returned (messages_create_call messages) :: evs2) ++ pre), failed.
           split; [by rewrite <- app_assoc|]. by apply Forall_app.
    + injection H as <- <-. exists [Raised (messages_create_call messages) e].
      split; [done|]. by exists [], messages.
Qed.

(** X4. [run_cycle] raises exactly when a request to the oracle raises:
    it then raises that exception and the failed request is the last thing
    it did; a cycle that returns has seen no oracle request fail. Failures
    of tools, of the summary file and of the history database never
    abort a cycle. *)
Theorem run_cycle_raises_with_the_oracle (s : state World) :
  let run := run_cycle E dry_run s in
  exists evs, calls run.2 = calls s ++ evs
    /\ match run.1 with
       | Raise e =>
           exists pre failed,
             evs = pre ++ [Raised (messages_create_call failed) e]
             /\ Forall (fun ev => is_oracle_failure ev = false) pre
       | Ok _ => Forall (fun ev => is_oracle_failure ev = false) evs
       end.
Proof.
  intros run. subst run. unfold run_cycle, mbind, M_bind.
  destruct (load_last_summary_run s) as (last & r0 & s1 & -> & Hc1).
  destruct (turns E dry_run max_iterations [UserText (_build_user_message last)] s1)
    as [r s'] eqn:Ht.
  destruct (turns_raise_with_oracle _ _ _ _ _ Ht) as (evs & Hc & Hr). simpl.
  exists (outcome_of read_summary_call r0 :: evs).
  split; [rewrite Hc, Hc1; by rewrite <- app_assoc|].
  assert (H0 : is_oracle_failure (outcome_of read_summary_call r0) = false) by by destruct r0.
  destruct r as [text|e].
  - by constructor.
  - destruct Hr as (pre & failed & -> & Hpre).
    exists (outcome_of read_summary_call r0 :: pre), failed. split; [done|]. by constructor.
Qed.

Lemma turns_summary n : forall messages s r s',
  turns E dry_run n messages s = (r, s') ->
  exists evs, calls s' = calls s ++ evs
    /\ ((Forall (fun ev => is_summary_call ev = false) evs
         /\ (r = Ok ceiling_report \/ exists e, r = Raise e))
        \/ exists pre text (r1 r2 : pyresult unit),
             evs = pre ++ [outcome_of (write_summary_call text) r1;
                           outcome_of (save_cycle_call text) r2]
             /\ Forall (fun ev => is_summary_call ev = false) pre
             /\ r = Ok text).
Proof.
  induction n as [|n IH]; intros messages s r s' H.
  - injection H as <- <-. exists []. rewrite app_nil_r. split; [done|]. left. eauto.
  - rewrite turns_S in H. unfold mbind at 1, M_bind at 1, ext in H.
    destruct (messages_create E messages (world s)) as [[content|e] w];
      cbv beta iota zeta in H.
    + destruct (tool_uses content) as [|use uses].
      * unfold mbind, M_bind in H.
        match type of H with context [_save_summary E ?t ?s0] =>
          destruct (save_summary_run t s0) as (r1 & r2 & s2 & Hs & Hc) end.
        rewrite Hs in H. injection H as <- <-.
        eexists. split; [rewrite Hc; simpl; rewrite <- app_assoc; reflexivity|].
        right. exists [Returned (messages_create_call messages)], (final_text content), r1, r2.
        split; [done|]. split; [by repeat constructor|done].
      * unfold mbind, M_bind in H.
        match type of H with context [run_tools E dry_run ?us ?s0] =>
          destruct (run_tools_returns us s0) as (results & s2 & Hr) end.
        rewrite Hr in H. destruct (tool_events_run_tools _ _ _ _ Hr) as (evs2 & Hc2 & HF2).
        destruct (IH _ _ _ _ H) as (evs3 & Hc3 & H3).
        assert (Hfree : Forall (fun ev => is_summary_call ev = false)
                          (Returned (messages_create_call messages) :: evs2)).
        { constructor; [done|]. eapply Forall_impl; [exact HF2|].
          intros ev Hev. by apply tool_event_inv in Hev as [_ ?]. }
        exists ((Returned (messages_create_call messages) :: evs2) ++ evs3).
        split; [rewrite Hc3, Hc2; simpl; by rewrite <- !app_assoc|].
        destruct H3 as [[Hfree3 Hend]|(pre & text & r1 & r2 & -> & Hpre & ->)].
        -- left. split; [by apply Forall_app|done].
        -- right. exists ((Returned (messages_create_call messages) :: evs2) ++ pre), text, r1, r2.
           split; [by rewrite <- app_assoc|]. split; [by apply Forall_app|done].
    + injection H as <- <-. exists [Raised (messages_create_call messages) e].
      split; [done|]. left. split; [by repeat constructor|eauto].
Qed.

(** X5. A cycle writes its summary at most once, as its last step, and
    what it writes is the report it returns: either no summary is written
    and the cycle ended at the iteration ceiling or by raising, or the
    record of calls ends with the write of [last_summary.txt] and the
    save to the history database, both with the returned report, the
    second attempted whatever the first did and the report returned
    whatever both did. *)
Theorem summary_is_the_report (s : state World) :
  let run := run_cycle E dry_run s in
  exists evs, calls run.2 = calls s ++ evs
    /\ ((Forall (fun ev => is_summary_call ev = false) evs
         /\ (run.1 = Ok ceiling_report \/ exists e, run.1 = Raise e))
        \/ exists pre text (r1 r2 : pyresult unit),
             evs = pre ++ [outcome_of (write_summary_call text) r1;
                           outcome_of (save_cycle_call text) r2]
             /\ Forall (fun ev => is_summary_call ev = false) pre
             /\ run.1 = Ok text).
Proof.
  intros run. subst run. unfold run_cycle, mbind, M_bind.
  destruct (load_last_summary_run s) as (last & r0 & s1 & -> & Hc1).
  destruct (turns E dry_run max_iterations [UserText (_build_user_message last)] s1)
    as [r s'] eqn:Ht.
  destruct (turns_summary _ _ _ _ _ Ht) as (evs & Hc & Hr). simpl.
  exists (outcome_of read_summary_call r0 :: evs).
  split; [rewrite Hc, Hc1; by rewrite <- app_assoc|].
  assert (H0 : is_summary_call (outcome_of read_summary_call r0) = false) by by destruct r0.
  destruct Hr as [[Hfree Hend]|(pre & text & r1 & r2 & -> & Hpre & ->)].
  - left. split; [by constructor|done].
  - right. exists (outcome_of read_summary_call r0 :: pre), text, r1, r2.
    split; [done|]. split; [by constructor|done].
Qed.

(** *** Tool uses and their results *)

Lemma yields_execute_tool name input : yields_json E (execute_tool E dry_run name input).
Proof.
  unfold execute_tool. apply yields_try_except; [apply yields_dispatch|].
  intros e. apply yields_dumps.
Qed.

(** X6. [run_cycle] answers every tool use of a response: running the
    tool uses never raises and gives one result for each use, in the order
    of the uses, each carrying the id of its use and the text of a JSON
    value. *)
Theorem run_tools_answers_each_use uses s :
  exists results s',
    run_tools E dry_run uses s = (Ok results, s')
    /\ tool_use_id <$> results = (fun use : string * string * tool_input => use.1.1) <$> uses
    /\ Forall (fun result => exists j, content result = json_dumps E j) results.
Proof.
  unfold run_tools. revert s. induction uses as [|use uses IH]; intros s.
  - eexists [], s. by repeat split.
  - rewrite mapM_cons. unfold mbind, M_bind, mret, M_ret in *.
    destruct (execute_tool_returns use.1.2 use.2 s) as (out & s1 & Hout). rewrite Hout.
    destruct (yields_execute_tool _ _ _ _ _ Hout) as (j & Hj).
    destruct (IH s1) as (results & s2 & -> & Hids & Hjson).
    eexists _, s2. split; [reflexivity|]. split.
    + rewrite !fmap_cons. by rewrite Hids.
    + constructor; [by exists j|done].
Qed.

(** *** Orders sent to the exchange *)

(** X7. [_execute_bet] sends an order to the exchange only in a live
    run, at most once, after [check_bet] approved the bet and after the
    market's detail was fetched; the order carries the approved amount, a
    slug that is not empty, and outcome "UP" when the side is exactly
    "YES" and "DOWN" for every other side. *)
Theorem orders_follow_approval market_id side amount (s : state World) :
  let run := _execute_bet E dry_run market_id side amount s in
  exists evs, calls run.2 = calls s ++ evs
    /\ forall ev, ev ∈ evs -> is_buy ev = true ->
         dry_run = false
         /\ exists pre post slug (r : pyresult json) message,
              evs = pre ++ ev :: post
              /\ ev = outcome_of (buy_call slug (if String.eqb side "YES" then "UP" else "DOWN")
                                    amount) r
              /\ truthy slug = true
              /\ Checked amount true message ∈ pre
              /\ Returned (get_market_detail_call market_id) ∈ pre
              /\ Forall (fun ev' => is_buy ev' = false) (pre ++ post).
Proof.
  intros run. subst run.
  destruct (_execute_bet E dry_run market_id side amount s) as [r s'] eqn:H.
  unfold _execute_bet, mbind, M_bind, mret, M_ret, ext, risk_manager_check_bet,
    risk_manager_record_bet, try_except, dumps, lift, log in H.
  destruct dry_run; simpl in H; split_run H; injection H as <- <-; simpl;
    (eexists; split; [rewrite <- ?app_assoc; simpl; reflexivity|]);
    intros ev Hin Hbuy; in_list Hin; subst ev; try discriminate Hbuy.
  all: split; [reflexivity|].
  all: first [ eexists [_; _; _; _; _], _, _, (Ok JNull), _;
               split; [reflexivity|]; split; [reflexivity|]
             | eexists [_; _; _; _; _], _, _, (Raise _), _;
               split; [reflexivity|]; split; [reflexivity|] ].
  all: split; [assumption|].
  all: split; [do 3 apply list_elem_of_further; apply list_elem_of_here|].
  all: split; [do 4 apply list_elem_of_further; apply list_elem_of_here|].
  all: by repeat constructor.
Qed.

End Bot.

(** ** The theorems on the example worlds *)

(** A bet of 10 USD whose submission is refused: the gate approves, the
    exchange raises, nothing is recorded. *)
Lemma execute_bet_records_after_submission_witness :
  let E := example_world idle_oracle research_found order_refused in
  exists r s',
    _execute_bet E false "market-1" "YES" 10 fresh_bot = (r, s')
    /\ exists evs, calls s' = calls fresh_bot ++ evs
         /\ (forall a, Recorded a ∈ evs ->
               a = 10 /\
               exists pre slug outcome message,
                 evs = pre ++ [Returned (buy_call slug outcome 10); Recorded 10]
                 /\ Checked 10 true message ∈ pre)
         /\ (forall message, Checked 10 false message ∈ evs ->
               r = Ok (json_dumps E (failure_payload message))
               /\ (forall a, Recorded a ∉ evs)
               /\ daily_bets s' = daily_bets fresh_bot)
         /\ (forall slug outcome e, Raised (buy_call slug outcome 10) e ∈ evs ->
               r = Ok (json_dumps E (failure_payload ("Trade failed: " +:+ exn_str e)))
               /\ (forall a, Recorded a ∉ evs)
               /\ daily_bets s' = daily_bets fresh_bot)
         /\ ((forall a, Recorded a ∉ evs) -> daily_bets s' = daily_bets fresh_bot).
Proof.
  intros E.
  set (run := _execute_bet E false "market-1" "YES" 10 fresh_bot).
  exists run.1, run.2. split; [apply surjective_pairing|].
  apply (execute_bet_records_after_submission E false "market-1" "YES" 10 fresh_bot).
  apply surjective_pairing.
Defined.

(** A polling oracle runs into the ceiling after 20 turns; an idle one
    ends the loop with its text. *)
Lemma run_cycle_terminates_witness :
  let polling := example_world polling_oracle research_found order_accepted in
  let idle := example_world idle_oracle research_found order_accepted in
  (always_tool_use polling
   /\ exists s' evs,
        run_cycle polling false fresh_bot = (Ok ceiling_report, s')
        /\ calls s' = calls fresh_bot ++ evs /\ oracle_calls evs = 20%nat)
  /\ exists s',
       turns idle false 20 [UserText "Start this trading cycle."] fresh_bot
       = (Ok "No bets this cycle.", s').
Proof.
  intros polling idle.
  assert (Hpolling : always_tool_use polling).
  { intros messages w. exists (polling_oracle messages), w. split; [reflexivity|].
    discriminate. }
  split.
  - split; [exact Hpolling|].
    exact (proj2 (proj2 (run_cycle_terminates polling false)) Hpolling fresh_bot).
  - exact (proj1 (proj2 (run_cycle_terminates idle false))
             19%nat [UserText "Start this trading cycle."] fresh_bot
             (idle_oracle [UserText "Start this trading cycle."]) example_db eq_refl eq_refl).
Defined.

(** A [place_bet] without arguments raises [KeyError] in the handler, and
    [sell_everything] is no tool: both come back as error values. *)
Lemma execute_tool_never_raises_witness :
  let E := example_world idle_oracle research_found order_accepted in
  (exists out s',
     execute_tool E false "place_bet" no_arguments fresh_bot = (Ok out, s')
     /\ out = json_dumps E (error_payload "'market_id'") /\ s' = fresh_bot)
  /\ (exists out s',
        execute_tool E false "sell_everything" no_arguments fresh_bot = (Ok out, s')
        /\ out = json_dumps E (error_payload "Unknown tool: sell_everything")
        /\ s' = fresh_bot).
Proof.
  intros E. split.
  - destruct (execute_tool_never_raises E false "place_bet" no_arguments fresh_bot)
      as (out & s' & Hrun & _ & Hraise & _).
    exists out, s'. split; [exact Hrun|].
    exact (Hraise (Exception "KeyError" "'market_id'") fresh_bot eq_refl).
  - destruct (execute_tool_never_raises E false "sell_everything" no_arguments fresh_bot)
      as (out & s' & Hrun & _ & _ & Hunknown).
    exists out, s'. split; [exact Hrun|].
    apply Hunknown. unfold tool_names. intros Hin.
    repeat (apply elem_of_cons in Hin as [Hin|Hin]; [discriminate Hin|]).
    by apply elem_of_nil in Hin.
Defined.

(** On a database that can be written, the sixth request of a cycle is
    refused: five invocations, and the counter at five. *)
Lemma research_limit_on_returning_calls :
  exists s',
    run_cycle (example_world eager_oracle research_found order_accepted) false fresh_bot
    = (Ok "Researched.", s')
    /\ research_calls (calls s') = 5%nat /\ research_count s' = 5%nat.
Proof. eexists. split; [vm_compute; reflexivity|]. split; reflexivity. Qed.

(** C8, where the code departs from it. On a database file that is
    read-only, every research is paid for and then raises when its result
    is saved; the counter is incremented only after the research function
    has returned, so it stays at 0: a cycle that asks for six researches
    invokes the paid research path six times. *)
Theorem research_limit_misses_raising_calls :
  exists s',
    run_cycle (example_world eager_oracle research_found order_accepted) false stuck_bot
    = (Ok "Researched.", s')
    /\ research_calls (calls s') = 6%nat /\ research_count s' = 0%nat.
Proof. eexists. split; [vm_compute; reflexivity|]. split; reflexivity. Qed.

(** A bet of -5 USD passes the gate, is submitted and is recorded: the
    day's ledger stands at -5. *)
Lemma negative_bet_is_recorded :
  exists out s',
    _execute_bet (example_world idle_oracle research_found order_accepted) false
      "market-1" "YES" (-5) fresh_bot = (Ok out, s')
    /\ Recorded (-5) ∈ calls s'
    /\ RiskManager.get0 (daily_bets s') "2026-01-01" == -5.
Proof.
  eexists _, _. split; [vm_compute; reflexivity|]. split.
  - simpl. do 6 apply list_elem_of_further. apply list_elem_of_here.
  - vm_compute. reflexivity.
Qed.

(** The order built for -5 USD at 0.60 is the minimum lot: five shares. *)
Lemma negative_amount_buys_min_shares :
  exists notional args,
    PolymarketTrader.limit_order_args "token-up" PolymarketTrader.BUY 0.60 (-5)
    = Ok (notional, args)
    /\ PolymarketTrader.size args == 5
    /\ PolymarketTrader.price args == 0.60
    /\ notional == 3.
Proof. eexists _, _. split; [vm_compute; reflexivity|]. simpl. done. Qed.

(** ** What the cycle keeps, on the example worlds *)

(** X8. A dry run acts on nothing live: with [dry_run] set, no tool call
    and no cycle calls the account service or the trader or makes an entry
    in the ledger, and the ledger is left as it was. *)
Theorem dry_run_is_not_live {World} (E : collaborators World) :
  (forall name input (s : state World),
     let s' := (execute_tool E true name input s).2 in
     daily_bets s' = daily_bets s
     /\ exists evs, calls s' = calls s ++ evs /\ Forall (fun ev => is_live ev = false) evs)
  /\ (forall s : state World,
        let s' := (run_cycle E true s).2 in
        daily_bets s' = daily_bets s
        /\ exists evs, calls s' = calls s ++ evs /\ Forall (fun ev => is_live ev = false) evs).
Proof.
  split.
  - intros name input s s'.
    by apply (dry_run_execute_tool E true name input s _ s' (surjective_pairing _)).
  - intros s s'.
    by apply (dry_run_run_cycle E true s _ s' (surjective_pairing _)).
Qed.


(** The same oracle in a dry run: twenty bets simulated, nothing recorded. *)
Lemma dry_run_is_not_live_witness :
  let E := example_world betting_oracle research_found order_accepted in
  let s' := (run_cycle E true fresh_bot).2 in
  daily_bets s' = daily_bets fresh_bot
  /\ exists evs, calls s' = calls fresh_bot ++ evs
       /\ Forall (fun ev => is_live ev = false) evs.
Proof. intros E s'. exact (proj2 (dry_run_is_not_live E) fresh_bot). Defined.

(** A bot whose counter stands at the limit, asked for six researches:
    none is invoked and the counter stays at five. *)
Lemma research_counter_is_never_reset_witness :
  let E := example_world eager_oracle research_found order_accepted in
  let s' := (run_cycle E false spent_bot).2 in
  research_count s' = research_count spent_bot
  /\ exists evs, calls s' = calls spent_bot ++ evs /\ research_calls evs = 0%nat.
Proof.
  intros E s'.
  destruct (research_counter_is_never_reset E false spent_bot) as (_ & evs & Hcalls & Hclosed).
  destruct (Hclosed (le_n _)) as [Hcount Hnone].
  split; [exact Hcount|]. exists evs. split; [exact Hcalls|exact Hnone].
Defined.

(** A bet of 10 USD on "NO": the order is sent after the approval, for
    10 USD, with outcome "DOWN". *)
Lemma orders_follow_approval_witness :
  let E := example_world idle_oracle research_found order_accepted in
  let run := _execute_bet E false "market-1" "NO" 10 fresh_bot in
  Returned (buy_call (JStr "will-it-rain") "DOWN" 10) ∈ calls run.2
  /\ exists pre post slug (r : pyresult json) message,
       calls run.2 = pre ++ Returned (buy_call (JStr "will-it-rain") "DOWN" 10) :: post
       /\ Returned (buy_call (JStr "will-it-rain") "DOWN" 10)
          = outcome_of (buy_call slug "DOWN" 10) r
       /\ truthy slug = true
       /\ Checked 10 true message ∈ pre
       /\ Returned (get_market_detail_call "market-1") ∈ pre
       /\ Forall (fun ev' => is_buy ev' = false) (pre ++ post).
Proof.
  intros E run.
  assert (Hin : Returned (buy_call (JStr "will-it-rain") "DOWN" 10) ∈ calls run.2).
  { vm_compute. do 5 apply list_elem_of_further. apply list_elem_of_here. }
  split; [exact Hin|].
  destruct (orders_follow_approval E false "market-1" "NO" 10 fresh_bot)
    as (evs & Hcalls & Horders).
  destruct (Horders _ (eq_ind _ (fun l => _ ∈ l) Hin _ Hcalls) eq_refl)
    as (_ & pre & post & slug & r & message & Hevs & Hrest).
  exists pre, post, slug, r, message. split; [|exact Hrest].
  exact (eq_trans Hcalls Hevs).
Defined.

(** ** The account *)

Section Account.
Import AccountService.
Variable float_of_str : string -> option Q.

Lemma py_get_raises obj key default e :
  py_get obj key default = Raise e -> conversion_error e.
Proof. destruct obj; simpl; try done; intros [= <-]; by left. Qed.

Lemma py_float_raises x e :
  py_float float_of_str x = Raise e -> conversion_error e.
Proof.
  destruct x; simpl; try done; try (intros [= <-]; right; by left).
  destruct (float_of_str s); [done|]. intros [= <-]. right. by right.
Qed.

Lemma float_or_0_raises obj key e :
  float_or_0 float_of_str obj key = Raise e -> conversion_error e.
Proof.
  unfold float_or_0, mbind, pyresult_bind.
  destruct (py_get obj key (JNum 0)) as [value|e0] eqn:Hg.
  - apply py_float_raises.
  - intros [= <-]. by eapply py_get_raises.
Qed.

Lemma true_div_guarded a b : Qltb 0 b = true -> PolymarketTrader.true_div a b = Ok (a / b).
Proof.
  intros Hb. apply Qltb_lt in Hb. unfold PolymarketTrader.true_div.
  destruct (Qeq_bool b 0) eqn:Hz; [|done]. apply Qeq_bool_eq in Hz. lra.
Qed.

(** A turn of the loop appends a position only with a value above zero,
    and raises only for a value of the wrong type. *)
Lemma position_dict_cases pos :
  match position_dict float_of_str pos with
  | Ok (Some p) =>
      exists kv q, p = JObj kv /\ assoc "current_value" kv = Some (JNum q) /\ 0 < q
  | Ok None => True
  | Raise e => conversion_error e
  end.
Proof.
  unfold position_dict, mbind at 1, pyresult_bind at 1.
  destruct (float_or_0 float_of_str pos "currentValue") as [current_value|e] eqn:H1;
    [|by eapply float_or_0_raises].
  destruct (Qle_bool current_value 0) eqn:Hpos; [done|].
  assert (0 < current_value).
  { apply Qnot_le_lt. intros Hle. apply Qle_bool_iff in Hle. congruence. }
  unfold mbind at 1, pyresult_bind at 1.
  destruct (float_or_0 float_of_str pos "initialValue") as [initial_value|e] eqn:H2;
    [|by eapply float_or_0_raises].
  assert (Hpct : exists pct,
    (if Qltb 0 initial_value
     then ratio ← PolymarketTrader.true_div (current_value - initial_value) initial_value;
          Ok (ratio * 100)
     else Ok 0) = Ok pct).
  { destruct (Qltb 0 initial_value) eqn:Hi; [|by eexists].
    rewrite (true_div_guarded _ _ Hi). by eexists. }
  destruct Hpct as [pct Hpct]. unfold mbind at 1, pyresult_bind at 1. rewrite Hpct.
  unfold mbind at 1, pyresult_bind at 1.
  destruct (float_or_0 float_of_str pos "curPrice") as [current_price|e] eqn:H3;
    [|by eapply float_or_0_raises].
  unfold mbind at 1, pyresult_bind at 1.
  destruct (float_or_0 float_of_str pos "size") as [size|e] eqn:H4;
    [|by eapply float_or_0_raises].
  assert (Hentry : exists entry,
    (if Qltb 0 size then PolymarketTrader.true_div initial_value size else Ok 0) = Ok entry).
  { destruct (Qltb 0 size) eqn:Hs; [|by eexists].
    rewrite (true_div_guarded _ _ Hs). by eexists. }
  destruct Hentry as [entry Hentry]. unfold mbind at 1, pyresult_bind at 1. rewrite Hentry.
  unfold mbind, pyresult_bind.
  destruct (py_get pos "eventId" JNull) as [market_id|e] eqn:H5;
    [|by eapply py_get_raises].
  destruct (py_get pos "title" (JStr "Unknown")) as [market_title|e] eqn:H6;
    [|by eapply py_get_raises].
  destruct (py_get pos "outcome" (JStr "YES")) as [side|e] eqn:H7;
    [|by eapply py_get_raises].
  by eexists _, current_value.
Qed.

Lemma py_collect_cases {A B} (f : A -> pyresult (option B)) (P : B -> Prop)
    (bad : exn -> Prop) l :
  (forall a, match f a with
             | Ok (Some b) => P b
             | Ok None => True
             | Raise e => bad e
             end) ->
  match py_collect f l with
  | Ok out => Forall P out /\ (length out <= length l)%nat
  | Raise e => bad e
  end.
Proof.
  intros Hf. induction l as [|a l IH]; simpl; [by split|].
  unfold mbind, pyresult_bind. specialize (Hf a).
  destruct (f a) as [[b|]|e]; [| |done];
    destruct (py_collect f l) as [rest|e]; try done;
    destruct IH as [IH Hlen]; (split; [|simpl; lia]); [by constructor|done].
Qed.

Lemma py_iter_raises obj e : py_iter obj = Raise e -> conversion_error e.
Proof. destruct obj; simpl; try done; intros [= <-]; right; by left. Qed.

Lemma get_my_positions_cases wallet_address response :
  match get_my_positions float_of_str wallet_address response with
  | Ok positions =>
      Forall (fun p => exists kv q,
                p = JObj kv /\ assoc "current_value" kv = Some (JNum q) /\ 0 < q)
        positions
  | Raise e => conversion_error e
  end.
Proof.
  unfold get_my_positions.
  destruct (String.eqb wallet_address ""); [done|].
  destruct response as [raw_positions|e0]; [|done].
  unfold mbind, pyresult_bind.
  destruct (py_iter raw_positions) as [items|e1] eqn:Hiter;
    [|by eapply py_iter_raises].
  pose proof (py_collect_cases (position_dict float_of_str) _ conversion_error items
                position_dict_cases) as Hl.
  destruct (py_collect (position_dict float_of_str) items); [apply Hl|done].
Qed.

Lemma locked_value_of_positions positions : forall total,
  Forall (fun p => exists kv q,
            p = JObj kv /\ assoc "current_value" kv = Some (JNum q) /\ 0 < q) positions ->
  0 <= total ->
  exists locked, locked_value_of float_of_str positions total = Ok locked /\ 0 <= locked.
Proof.
  induction positions as [|p positions IH]; intros total Hall Htotal; simpl.
  - by exists total.
  - apply Forall_cons in Hall as [(kv & q & -> & Hq & Hpos) Hall].
    unfold mbind, pyresult_bind. simpl. rewrite Hq. simpl.
    apply IH; [done|]. pose proof (Qabs_nonneg q). lra.
Qed.

Lemma py_max_0 x : 0 <= py_max 0 x.
Proof. unfold py_max. destruct (Qltb 0 x) eqn:H; [apply Qltb_lt in H|]; lra. Qed.

Lemma py_max_sum raw locked :
  py_max raw locked == py_max 0 (raw - locked) + locked.
Proof.
  unfold py_max.
  destruct (Qltb raw locked) eqn:H1; destruct (Qltb 0 (raw - locked)) eqn:H2;
    try apply Qltb_lt in H1; try apply Qltb_lt in H2;
    try apply Qltb_ge in H1; try apply Qltb_ge in H2; lra.
Qed.

Lemma get_balance_cases wallet_address response balance_info :
  exists available locked total rest,
    get_balance float_of_str wallet_address response balance_info
    = Ok (JObj (("available_usdc", JNum available) :: ("locked_usdc", JNum locked)
                :: ("total_usdc", JNum total) :: rest))
    /\ 0 <= available /\ 0 <= locked /\ total == available + locked
    /\ (rest = []
        \/ exists message,
             rest = [("error", JStr message)]
             /\ available = 0 /\ locked = 0 /\ total = 0)
    /\ ((exists e, balance_info = Raise e) -> available = 0 /\ total = locked).
Proof.
  unfold get_balance, py_try at 1, mbind at 1, pyresult_bind at 1.
  pose proof (get_my_positions_cases wallet_address response) as Hp.
  destruct (get_my_positions float_of_str wallet_address response) as [positions|e].
  - destruct (locked_value_of_positions positions 0 Hp ltac:(lra)) as (locked & Hl & Hlocked).
    unfold mbind at 1, pyresult_bind at 1. rewrite Hl.
    assert (Hraw : exists raw_balance,
              py_try (collateral float_of_str balance_info locked) (fun _ => Ok locked)
              = Ok raw_balance
              /\ ((exists e, balance_info = Raise e) -> raw_balance = locked)).
    { unfold py_try. destruct (collateral float_of_str balance_info locked) eqn:Hc.
      - eexists. split; [reflexivity|]. intros [e ->]. discriminate Hc.
      - by eexists. }
    destruct Hraw as (raw_balance & -> & Hdown). simpl.
    eexists _, _, _, []. split; [reflexivity|].
    split; [apply py_max_0|]. split; [done|]. split; [apply py_max_sum|].
    split; [by left|]. intros Hd. rewrite (Hdown Hd). unfold py_max.
    assert (H0 : Qltb 0 (locked - locked) = false) by (apply Qltb_ge; lra).
    assert (H1 : Qltb locked locked = false) by (apply Qltb_ge; lra).
    by rewrite H0, H1.
  - eexists 0, 0, 0, _. split; [reflexivity|]. repeat split; try done. right. by eexists.
Qed.

Lemma get0_available_usdc available rest :
  RiskManager.get0 (balance_of (JObj (("available_usdc", JNum available) :: rest)))
    "available_usdc" = available.
Proof.
  unfold RiskManager.get0, balance_of, numeric_entries. simpl.
  by rewrite lookup_insert_eq.
Qed.

(** X17. Without a balance no stake passes the gate: when the balance
    request raises, [get_balance] still returns a dict, its available
    amount is 0, and [check_bet] on that dict rejects every amount above
    zero, with "Insufficient balance: $0.00 available" for a researched
    market and an amount within the single bet limit. *)
Theorem no_balance_no_bet wallet_address response e today (daily : gmap string Q)
    amount market_id positions researched :
  0 < amount ->
  exists balance,
    get_balance float_of_str wallet_address response (Raise e) = Ok balance
    /\ (RiskManager.check_bet today daily amount market_id (balance_of balance)
          positions researched).1 = false
    /\ (researched = true -> amount <= config.MAX_SINGLE_BET ->
        RiskManager.check_bet today daily amount market_id (balance_of balance)
          positions researched
        = (false, "Insufficient balance: $0.00 available")).
Proof.
  intros Hamount.
  destruct (get_balance_cases wallet_address response (Raise e))
    as (available & locked & total & rest & Hrun & _ & _ & _ & _ & Hdown).
  destruct Hdown as [-> _]; [by exists e|].
  eexists. split; [exact Hrun|].
  unfold RiskManager.check_bet. rewrite get0_available_usdc.
  apply Qltb_lt in Hamount. rewrite Hamount.
  split.
  - destruct researched; [|done]. simpl. by destruct (Qltb config.MAX_SINGLE_BET amount).
  - intros -> Hsingle. apply Qltb_ge in Hsingle. by rewrite Hsingle.
Qed.

End Account.

(** The balance request is refused: a stake of 5 USD on a researched
    market is rejected for want of balance. *)
Lemma no_balance_no_bet_witness :
  exists balance,
    AccountService.get_balance example_float_of_str "0xabc" (Ok example_positions)
      (Raise (Exception "PolyApiException" "Unauthorized")) = Ok balance
    /\ (RiskManager.check_bet "2026-01-01" ∅ 5 "market-1" (balance_of balance) [] true).1
       = false
    /\ (true = true -> 5 <= config.MAX_SINGLE_BET ->
        RiskManager.check_bet "2026-01-01" ∅ 5 "market-1" (balance_of balance) [] true
        = (false, "Insufficient balance: $0.00 available")).
Proof.
  apply (no_balance_no_bet example_float_of_str "0xabc" (Ok example_positions)
           (Exception "PolyApiException" "Unauthorized") "2026-01-01" ∅ 5 "market-1" [] true).
  reflexivity.
Defined.

(** ** The account on floats *)

Section FloatAccount.
Import binary64 ieee ieee.AccountService.
Variable float_of_str : string -> option float.
Variable sum : list float -> float.

Lemma float_py_get_raises obj key default e :
  py_get obj key default = Raise e -> conversion_error e.
Proof. destruct obj; simpl; try done; intros [= <-]; by left. Qed.

Lemma float_py_float_raises x e :
  py_float float_of_str x = Raise e -> conversion_error e.
Proof.
  destruct x as [| |n| |s| |]; simpl; try done;
    try (intros [= <-]; right; by left).
  - destruct (round64 false (inject_Z n)); try done.
    intros [= <-]. right. right. by right.
  - destruct (float_of_str s); [done|]. intros [= <-]. right. right. by left.
Qed.

Lemma float_float_or_0_raises obj key e :
  float_or_0 float_of_str obj key = Raise e -> conversion_error e.
Proof.
  unfold float_or_0, mbind, pyresult_bind.
  destruct (py_get obj key (PInt 0)) as [value|e0] eqn:Hget.
  - apply float_py_float_raises.
  - intros [= <-]. by eapply float_py_get_raises.
Qed.

(** A divisor above zero is not zero: the division does not raise. *)
Lemma float_true_div_guarded a b :
  fgt b (Zero false) = true -> PolymarketTrader.true_div a b = Ok (fdiv a b).
Proof. by destruct b. Qed.

Lemma float_position_dict_cases pos :
  match position_dict float_of_str pos with
  | Ok (Some p) => open_value p
  | Ok None => True
  | Raise e => conversion_error e
  end.
Proof.
  unfold position_dict, mbind, pyresult_bind.
  destruct (float_or_0 float_of_str pos "currentValue") as [current_value|e] eqn:Hcv;
    [|by eapply float_float_or_0_raises].
  destruct (fle current_value (Zero false)) eqn:Hopen; [done|].
  destruct (float_or_0 float_of_str pos "initialValue") as [initial_value|e] eqn:Hiv;
    [|by eapply float_float_or_0_raises].
  assert (Hpct : exists pct,
            (if fgt initial_value (Zero false)
             then match PolymarketTrader.true_div (fsub current_value initial_value)
                          initial_value with
                  | Ok ratio => Ok (PFloat (fmul ratio (literal 100)))
                  | Raise e => Raise e
                  end
             else Ok (PInt 0)) = Ok pct).
  { destruct (fgt initial_value (Zero false)) eqn:Hi; [|by eexists].
    rewrite (float_true_div_guarded _ _ Hi). by eexists. }
  destruct Hpct as [pct ->].
  destruct (float_or_0 float_of_str pos "curPrice") as [current_price|e] eqn:Hcp;
    [|by eapply float_float_or_0_raises].
  destruct (float_or_0 float_of_str pos "size") as [size|e] eqn:Hsz;
    [|by eapply float_float_or_0_raises].
  assert (Hentry : exists entry,
            (if fgt size (Zero false)
             then match PolymarketTrader.true_div initial_value size with
                  | Ok ratio => Ok (PFloat ratio)
                  | Raise e => Raise e
                  end
             else Ok (PInt 0)) = Ok entry).
  { destruct (fgt size (Zero false)) eqn:Hs; [|by eexists].
    rewrite (float_true_div_guarded _ _ Hs). by eexists. }
  destruct Hentry as [entry ->].
  destruct (py_get pos "eventId" PNone) as [market_id|e] eqn:H1;
    [|by eapply float_py_get_raises].
  destruct (py_get pos "title" (PStr "Unknown")) as [title|e] eqn:H2;
    [|by eapply float_py_get_raises].
  destruct (py_get pos "outcome" (PStr "YES")) as [side|e] eqn:H3;
    [|by eapply float_py_get_raises].
  eexists _, current_value. split; [reflexivity|]. by split.
Qed.

Lemma float_py_iter_raises obj e : py_iter obj = Raise e -> conversion_error e.
Proof. destruct obj; simpl; try done; intros [= <-]; right; by left. Qed.

Lemma float_get_my_positions_cases wallet_address response :
  match get_my_positions float_of_str wallet_address response with
  | Ok positions => Forall open_value positions
  | Raise e => conversion_error e
  end.
Proof.
  unfold get_my_positions.
  destruct (String.eqb wallet_address ""); [done|].
  destruct response as [raw_positions|e0]; [|done].
  unfold mbind, pyresult_bind.
  destruct (py_iter raw_positions) as [items|e1] eqn:Hiter;
    [|by eapply float_py_iter_raises].
  pose proof (py_collect_cases (position_dict float_of_str) _ conversion_error items
                float_position_dict_cases) as Hl.
  destruct (py_collect (position_dict float_of_str) items); [apply Hl|done].
Qed.

(** X15. [get_my_positions] on the floats of the code: without a wallet
    address, and when the request for the positions fails, it returns the
    empty list; every position it returns is a dict whose [current_value]
    is a float that is not zero or below, so a number above zero or NaN;
    and it raises only for an answer of the wrong type or size
    ([AttributeError], [TypeError], [ValueError], and [OverflowError] for
    an [int] beyond the floats), never a [ZeroDivisionError], a position
    with no initial value or no size getting 0 for its profit in percent
    or its entry price. *)
Theorem get_my_positions_lists_open_positions wallet_address response :
  let result := get_my_positions float_of_str wallet_address response in
  (wallet_address = "" \/ (exists e, response = Raise e) -> result = Ok [])
  /\ (forall positions, result = Ok positions ->
        Forall (fun p => exists kv x,
                  p = PDict kv /\ lookup "current_value" kv = Some (PFloat x)
                  /\ (fgt x (Zero false) = true \/ x = NaN))
          positions)
  /\ (forall e, result = Raise e ->
        conversion_error e /\ exn_type e <> "ZeroDivisionError").
Proof.
  intros result. subst result.
  pose proof (float_get_my_positions_cases wallet_address response) as Hcases.
  split; [|split].
  - unfold get_my_positions. intros [->|[e ->]]; [done|].
    by destruct (String.eqb wallet_address "").
  - intros positions Hr. rewrite Hr in Hcases.
    eapply Forall_impl; [exact Hcases|].
    intros p (kv & x & Hp & Hkv & Hx). exists kv, x. split; [done|]. split; [done|].
    destruct x as [s|q|s|]; [done| |destruct s; [done|by left]|by right].
    left. unfold fle, fgt, flt, compare in *.
    rewrite <- (Qcompare_antisym q 0). by destruct (q ?= 0).
  - intros e Hr. rewrite Hr in Hcases. split; [done|].
    destruct Hcases as [H|[H|[H|H]]]; by rewrite H.
Qed.






End FloatAccount.

(** Of four positions the one worth nothing is left out; the one whose
    value reads "nan" is listed, as is the one without initial value and
    size, with 0 for its entry price. *)
Lemma get_my_positions_lists_open_positions_witness :
  exists positions,
    ieee.AccountService.get_my_positions example_float_parser "0xabc"
      (Ok example_float_positions) = Ok positions
    /\ length positions = 3%nat
    /\ Forall (fun p => exists kv x,
                 p = ieee.PDict kv
                 /\ ieee.lookup "current_value" kv = Some (ieee.PFloat x)
                 /\ (binary64.fgt x (binary64.Zero false) = true \/ x = binary64.NaN))
         positions.
Proof.
  eexists. split; [vm_compute; reflexivity|]. split; [reflexivity|].
  apply (proj1 (proj2 (get_my_positions_lists_open_positions example_float_parser
                         "0xabc" (Ok example_float_positions)))).
  vm_compute. reflexivity.
Defined.


(** ** The market list *)

Section MarketList.
Import markets.
Variable lower : string -> string.
Variable float_of_str : string -> option Q.
Variable json_loads : string -> pyresult json.

Ltac bind_ok H x E :=
  match type of H with
  | mbind _ ?m = _ =>
      destruct m as [x|] eqn:E; [|discriminate H];
      change (mbind ?f (Ok x)) with (f x) in H; cbv beta in H
  end.

Ltac branch_ok H :=
  match type of H with
  | (if ?b then Ok None else _) = _ =>
      let E := fresh "E" in destruct b eqn:E; [discriminate H|]
  end.




(** The loop appends, in their order, the entries of some of the events
    it visits, and stops once the list has reached [limit]. *)
Lemma markets_loop_inv limit min_liquidity category events acc markets :
  markets_loop lower float_of_str json_loads limit min_liquidity category events acc
  = Ok markets ->
  exists chosen added,
    markets = acc ++ added
    /\ sublist chosen events
    /\ Forall2 (fun event market =>
                  market_entry lower float_of_str json_loads min_liquidity category event
                  = Ok (Some market)) chosen added
    /\ (Z.of_nat (length added) <= Z.max 1 (limit - Z.of_nat (length acc)))%Z.
Proof.
  revert acc. induction events as [|event events IH]; intros acc H.
  - injection H as <-. exists [], []. rewrite app_nil_r.
    split; [done|]. split; [apply sublist_nil|]. split; [constructor|simpl; lia].
  - change (markets_loop lower float_of_str json_loads limit min_liquidity category
              (event :: events) acc)
      with (entry ← market_entry lower float_of_str json_loads min_liquidity category event;
            match entry with
            | None =>
                markets_loop lower float_of_str json_loads limit min_liquidity category
                  events acc
            | Some market =>
                if (limit <=? Z.of_nat (length (acc ++ [market])))%Z
                then Ok (acc ++ [market])
                else markets_loop lower float_of_str json_loads limit min_liquidity
                       category events (acc ++ [market])
            end) in H.
    bind_ok H appended Hentry. destruct appended as [market|].
    + destruct (limit <=? Z.of_nat (length (acc ++ [market])))%Z eqn:Hfull.
      * injection H as <-. exists [event], [market].
        split; [done|]. split; [apply sublist_skip, sublist_nil_l|].
        split; [by repeat constructor|]. simpl. lia.
      * apply Z.leb_gt in Hfull. rewrite length_app in Hfull. simpl in Hfull.
        destruct (IH _ H) as (chosen & added & -> & Hsub & Hall & Hlen).
        rewrite length_app in Hlen. simpl in Hlen.
        exists (event :: chosen), (market :: added).
        split; [by rewrite <- app_assoc|]. split; [by apply sublist_skip|].
        split; [by constructor|]. simpl length. lia.
    + destruct (IH _ H) as (chosen & added & -> & Hsub & Hall & Hlen).
      exists chosen, added. split; [done|]. split; [by apply sublist_cons|]. done.
Qed.

(** X18. [get_markets_list] never returns more than 100 markets, and
    for a [limit] of one or more never more than [limit]: the list is no
    longer than the greater of 1 and [min(limit, 100)]. (With a [limit]
    of zero or less the loop still appends one market before it compares
    the length with the limit.) *)
Theorem get_markets_list_is_bounded fetch limit min_liquidity category markets :
  get_markets_list lower float_of_str json_loads fetch limit min_liquidity category
  = Ok markets ->
  (Z.of_nat (length markets) <= Z.max 1 (Z.min limit 100))%Z.
Proof.
  unfold get_markets_list. intros H.
  destruct (fetch (Z.min limit 100 * 2)%Z) as [response|]; [|injection H as <-; simpl; lia].
  bind_ok H events Hevents.
  apply markets_loop_inv in H as (chosen & added & -> & _ & _ & Hlen).
  simpl in *. lia.
Qed.


(** The two prices are read together: when one of them cannot be read,
    both are 0. *)
Lemma prices_of_cases primary_market yes_price no_price :
  prices_of float_of_str json_loads primary_market = (yes_price, no_price) ->
  (yes_price = 0 /\ no_price = 0)
  \/ exists outcome_prices prices first,
       py_get primary_market "outcomePrices" (JStr "[0, 0]") = Ok outcome_prices
       /\ loaded json_loads outcome_prices = Ok prices
       /\ py_item prices 0 = Ok first
       /\ py_float float_of_str first = Ok yes_price
       /\ ((py_len prices = Ok 1%nat /\ no_price = 0)
           \/ exists second,
                py_item prices 1 = Ok second
                /\ py_float float_of_str second = Ok no_price).
Proof.
  unfold prices_of. intros H.
  match type of H with
  | match ?m with _ => _ end = _ => destruct m as [[yes no]|] eqn:E
  end; [|injection H as <- <-; by left].
  injection H as -> ->.
  bind_ok E outcome_prices Hget. bind_ok E prices Hloaded. bind_ok E n Hlen.
  destruct n as [|n].
  - simpl in E. injection E as <- <-. by left.
  - change (0 <? S n)%nat with true in E. cbv iota in E.
    bind_ok E yes Hyes. bind_ok Hyes price1 Hfirst.
    right. exists outcome_prices, prices, price1. do 3 (split; [done|]).
    destruct n as [|n].
    + simpl in E. injection E as <- <-. split; [done|]. by left.
    + change (mbind ?f (Ok (S (S n)))) with (f (S (S n))) in E. cbv beta in E.
      change (1 <? S (S n))%nat with true in E. cbv beta iota in E.
      bind_ok E no Hno. bind_ok Hno price2 Hsecond.
      injection E as <- <-. split; [done|]. right. by exists price2.
Qed.

(** X20. The prices of [get_market_detail]: a detail has a price and
    exactly two outcomes, each a name and a price, and the price of the
    detail is the price of its first outcome. The two prices are read
    together from the outcome prices of the event's first market: either
    both are 0, or the first is the [float] of the first outcome price
    and the second that of the second one, or 0 when there is one price
    only. A second price that cannot be read sets the first to 0 too. *)
Theorem get_market_detail_prices fetch market_id detail :
  get_market_detail float_of_str json_loads fetch market_id = Ok (Some detail) ->
  exists kv yes_price no_price first_name second_name,
    detail = JObj kv
    /\ assoc "price" kv = Some (JNum yes_price)
    /\ assoc "outcomes" kv
       = Some (JList [JObj [("name", first_name); ("price", JNum yes_price)];
                      JObj [("name", second_name); ("price", JNum no_price)]])
    /\ ((yes_price = 0 /\ no_price = 0)
        \/ exists event markets primary_market outcome_prices prices first,
             fetch market_id = Ok event
             /\ py_get event "markets" (JList []) = Ok markets
             /\ py_item markets 0 = Ok primary_market
             /\ py_get primary_market "outcomePrices" (JStr "[0, 0]") = Ok outcome_prices
             /\ loaded json_loads outcome_prices = Ok prices
             /\ py_item prices 0 = Ok first
             /\ py_float float_of_str first = Ok yes_price
             /\ ((py_len prices = Ok 1%nat /\ no_price = 0)
                 \/ exists second,
                      py_item prices 1 = Ok second
                      /\ py_float float_of_str second = Ok no_price)).
Proof.
  unfold get_market_detail. intros H.
  destruct (fetch market_id) as [event|]; [|discriminate H].
  branch_ok H. bind_ok H markets Hmarkets. branch_ok H.
  bind_ok H primary_market Hprimary.
  destruct (prices_of float_of_str json_loads primary_market)
    as [yes_price no_price] eqn:Hprices.
  bind_ok H event_id Hid. bind_ok H slug Hslug. bind_ok H title Htitle.
  bind_ok H description Hdescription. bind_ok H rules Hrules.
  bind_ok H volume Hvolume. bind_ok H liquidity Hliquidity.
  bind_ok H end_date Hend. bind_ok H created_date Hcreated.
  bind_ok H first_name Hfirst. bind_ok H n Hlen. bind_ok H second_name Hsecond.
  bind_ok H primary_id Hprimary_id. bind_ok H condition_id Hcondition.
  bind_ok H accepting_orders Haccepting. injection H as <-.
  eexists _, yes_price, no_price, first_name, second_name.
  split; [reflexivity|]. split; [reflexivity|]. split; [reflexivity|].
  apply prices_of_cases in Hprices
    as [?|(outcome_prices & prices & price1 & ? & ? & ? & ? & ?)]; [by left|].
  right. by exists event, markets, primary_market, outcome_prices, prices, price1.
Qed.

(** X21. The names of the outcomes are read outside the [try] blocks:
    when the first market of the event holds [None] for its outcomes,
    [get_market_detail] raises instead of falling back on "Yes" and
    "No". *)
Theorem get_market_detail_raises_without_outcomes fetch market_id event market rest :
  fetch market_id = Ok (JObj event) ->
  assoc "markets" event = Some (JList (JObj market :: rest)) ->
  assoc "outcomes" market = Some JNull ->
  exists e, get_market_detail float_of_str json_loads fetch market_id = Raise e.
Proof.
  intros Hfetch Hmarkets Houtcomes.
  destruct (get_market_detail float_of_str json_loads fetch market_id)
    as [result|e] eqn:H; [exfalso|by exists e].
  unfold get_market_detail in H. rewrite Hfetch in H.
  destruct event as [|entry event]; [discriminate Hmarkets|].
  cbn [truthy negb] in H.
  bind_ok H markets Hget. cbn [py_get] in Hget. rewrite Hmarkets in Hget.
  injection Hget as <-. cbn [truthy negb] in H.
  bind_ok H primary_market Hprimary. injection Hprimary as <-.
  destruct (prices_of float_of_str json_loads (JObj market)) as [yes_price no_price].
  bind_ok H event_id Hid. bind_ok H slug Hslug. bind_ok H title Htitle.
  bind_ok H description Hdescription. bind_ok H rules Hrules.
  bind_ok H volume Hvolume. bind_ok H liquidity Hliquidity.
  bind_ok H end_date Hend. bind_ok H created_date Hcreated.
  bind_ok H first_name Hfirst. bind_ok H n Hlen.
  unfold outcomes_of in Hlen. cbn [py_get] in Hlen. rewrite Houtcomes in Hlen.
  discriminate Hlen.
Qed.

End MarketList.

(** The events API answers with three events; the second is a price
    market of fifteen minutes and is left out, and a limit of two is
    kept. *)
Lemma get_markets_list_is_bounded_witness :
  (Z.of_nat (length example_markets_listed) <= Z.max 1 (Z.min 2 100))%Z.
Proof.
  apply (get_markets_list_is_bounded example_lower example_float_of_str
           example_json_loads (fun _ => Ok example_events) 2 5000 None).
  reflexivity.
Defined.


(** The detail of the science market: its prices are read from the text
    of its first market. *)
Lemma get_market_detail_prices_witness :
  exists kv yes_price no_price first_name second_name,
    example_detail = JObj kv
    /\ assoc "price" kv = Some (JNum yes_price)
    /\ assoc "outcomes" kv
       = Some (JList [JObj [("name", first_name); ("price", JNum yes_price)];
                      JObj [("name", second_name); ("price", JNum no_price)]])
    /\ ((yes_price = 0 /\ no_price = 0)
        \/ exists event markets primary_market outcome_prices prices first,
             example_fetch_event "103" = Ok event
             /\ py_get event "markets" (JList []) = Ok markets
             /\ py_item markets 0 = Ok primary_market
             /\ py_get primary_market "outcomePrices" (JStr "[0, 0]") = Ok outcome_prices
             /\ markets.loaded example_json_loads outcome_prices = Ok prices
             /\ py_item prices 0 = Ok first
             /\ py_float example_float_of_str first = Ok yes_price
             /\ ((py_len prices = Ok 1%nat /\ no_price = 0)
                 \/ exists second,
                      py_item prices 1 = Ok second
                      /\ py_float example_float_of_str second = Ok no_price)).
Proof.
  apply (get_market_detail_prices example_float_of_str example_json_loads
           example_fetch_event "103" example_detail).
  reflexivity.
Defined.

(** The election market holds [None] for its outcomes. *)
Lemma get_market_detail_raises_without_outcomes_witness :
  exists e,
    markets.get_market_detail example_float_of_str example_json_loads
      example_fetch_event "101" = Raise e.
Proof.
  eapply (get_market_detail_raises_without_outcomes example_float_of_str
            example_json_loads example_fetch_event "101"); reflexivity.
Defined.
